(** * Experiment-designer core and domain model (mps/exd)

    A shallow embedding of [mps/exd/domains.py] and [mps/exd/exd_core.py].

    Python values are embedded in the type [pyval]; a Python float is the
    rational that the double stands for, and an integer of Python 2 is
    taken to be an [int] when it fits the machine word and a [long] when it
    does not.
    numpy's arrays keep their dtype: [int64] arithmetic wraps around the
    word, and an integer that meets doubles is rounded to the nearest one.
    A call either returns, raises one of the built-in exceptions, or (for
    the polling loop only) runs out of fuel.
    Objects of the [Namespace] class (qinfos) are finite maps from attribute
    names to values. *)

From Stdlib Require Import ZArith QArith Qminmax Bool List Lia.
From stdpp Require Import base option list strings pretty gmap.

Local Open Scope Z_scope.

(** ** Python values *)

#[warnings="-register-all"]
Inductive pyval : Type :=
| PyNone
| PyBool (b : bool)
| PyInt (n : Z)
| PyFloat (x : Q)
| PyStr (s : string)
| PyList (l : list pyval)
| PyTuple (l : list pyval).

(** The numeric tower: [bool] is a subclass of [int], and both coerce to
    [float] in arithmetic and comparisons. *)
Definition py_num (v : pyval) : option Q :=
  match v with
  | PyBool b => Some (if b then 1%Q else 0%Q)
  | PyInt n => Some (inject_Z n)
  | PyFloat x => Some x
  | _ => None
  end.

(** [a == b]. *)
Fixpoint py_eqb (a b : pyval) : bool :=
  let fix seq_eqb (l m : list pyval) : bool :=
    match l, m with
    | [], [] => true
    | x :: l', y :: m' => py_eqb x y && seq_eqb l' m'
    | _, _ => false
    end in
  match a, b with
  | PyNone, PyNone => true
  | PyStr s, PyStr t => String.eqb s t
  | PyList l, PyList m => seq_eqb l m
  | PyTuple l, PyTuple m => seq_eqb l m
  | _, _ =>
      match py_num a, py_num b with
      | Some x, Some y => Qeq_bool x y
      | _, _ => false
      end
  end.

(** [a != b]. *)
Definition py_neb (a b : pyval) : bool := negb (py_eqb a b).

(** [x in l] for a list [l]. *)
Definition py_in (x : pyval) (l : list pyval) : bool := existsb (py_eqb x) l.

(** [l.index(x)]: the first position holding a value equal to [x]. *)
Fixpoint py_index (x : pyval) (l : list pyval) : option nat :=
  match l with
  | [] => None
  | y :: l' => if py_eqb y x then Some O else S <$> py_index x l'
  end.


(** ** Exceptions and results *)

Inductive exn : Type :=
| TypeError | ValueError | AttributeError | KeyError | IndexError
| AssertionError | NotImplementedError | OverflowError.

Inductive result (A : Type) : Type :=
| Ok (a : A)
| Raise (e : exn)
| OutOfFuel.
Arguments Ok {A} a.
Arguments Raise {A} e.
Arguments OutOfFuel {A}.

Global Instance result_ret : MRet result := fun A a => Ok a.
Global Instance result_bind : MBind result := fun A B f m =>
  match m with
  | Ok a => f a
  | Raise e => Raise e
  | OutOfFuel => OutOfFuel
  end.

Global Instance result_fmap : FMap result := fun A B f m =>
  match m with
  | Ok a => Ok (f a)
  | Raise e => Raise e
  | OutOfFuel => OutOfFuel
  end.

(** [for x in xs: st = body(st, x)], stopping at the first exception. *)
Fixpoint for_each {A S : Type} (body : S → A → result S) (xs : list A) (st : S)
  : result S :=
  match xs with
  | [] => Ok st
  | x :: xs' => st' ← body st x; for_each body xs' st'
  end.

(** [l.pop(i)] for a non-negative [i]. *)
Definition py_pop {A} (i : nat) (l : list A) : result (list A) :=
  if bool_decide (i < length l)%nat then Ok (delete i l) else Raise IndexError.

(** [l[i] = x] for a non-negative [i]. *)
Definition py_setitem {A} (i : nat) (x : A) (l : list A) : result (list A) :=
  if bool_decide (i < length l)%nat then Ok (<[i := x]> l) else Raise IndexError.

(** [l[i]] for a non-negative [i]. *)
Definition py_getitem {A} (i : nat) (l : list A) : result A :=
  match l !! i with
  | Some x => Ok x
  | None => Raise IndexError
  end.

(** A value used as a list index (non-negative, counted from the front). *)
Definition py_position (v : pyval) : result nat :=
  match v with
  | PyInt n => Ok (Z.to_nat n)
  | PyBool b => Ok (if b then 1%nat else 0%nat)
  | _ => Raise TypeError
  end.

(** [v is None]. *)
Definition is_none (v : pyval) : bool :=
  match v with
  | PyNone => true
  | _ => false
  end.

(** The value of a number, for arithmetic; anything else is a type error. *)
Definition py_float (v : pyval) : result Q :=
  match py_num v with
  | Some x => Ok x
  | None => Raise TypeError
  end.

(** [v >= a] for a float [a], with Python 2's ordering of mixed types:
    [None] is below every number, every other non-number above. *)
Definition py2_ge (v : pyval) (a : Q) : bool :=
  match py_num v with
  | Some x => Qle_bool a x
  | None => negb (is_none v)
  end.

(** [s.lower()]. *)
Definition ascii_lower (c : Ascii.ascii) : Ascii.ascii :=
  let n := Ascii.nat_of_ascii c in
  if (65 <=? n)%nat && (n <=? 90)%nat then Ascii.ascii_of_nat (n + 32) else c.

Fixpoint lower (s : string) : string :=
  match s with
  | EmptyString => EmptyString
  | String c s' => String (ascii_lower c) (lower s')
  end.

(** ['%d' % x] for a float [x]: truncation towards zero, in decimal. *)
Definition fmt_d (x : Q) : string := pretty (Z.quot (Qnum x) (Z.pos (Qden x))).

(** [iter(v)]: the elements a [for] loop or comprehension runs over. *)
Definition py_iter (v : pyval) : result (list pyval) :=
  match v with
  | PyList l | PyTuple l => Ok l
  | PyStr s => Ok ((λ c, PyStr (String c EmptyString)) <$> String.list_ascii_of_string s)
  | _ => Raise TypeError
  end.

(** [hasattr(v, '__iter__')] (in Python 2 strings iterate through
    [__getitem__] and have no [__iter__]). *)
Definition has_iter (v : pyval) : bool :=
  match v with
  | PyList _ | PyTuple _ => true
  | _ => false
  end.

(** [len(v)]. *)
Definition py_len (v : pyval) : result nat :=
  match v with
  | PyList l | PyTuple l => Ok (length l)
  | PyStr s => Ok (String.length s)
  | _ => Raise TypeError
  end.

(** The elements of a list or tuple. *)
Definition py_seq (p : pyval) : option (list pyval) :=
  match p with
  | PyList l | PyTuple l => Some l
  | _ => None
  end.

(** The value of a Python integer ([bool] included). *)
Definition py_int (v : pyval) : option Z :=
  match v with
  | PyInt n => Some n
  | PyBool b => Some (if b then 1 else 0)
  | _ => None
  end.

(** Python 2 keeps an [int] in a machine word of 64 bits; an integer outside
    the word is a [long]. *)
Definition machine_int (n : Z) : bool := (- 2 ^ 63 <=? n) && (n <? 2 ^ 63).

(** [isinstance(x, (int, np.int))]: [np.int] is [int] itself, [bool] is a
    subclass of it, and a [long] is not an instance. *)
Definition is_int (v : pyval) : bool :=
  match v with
  | PyInt n => machine_int n
  | PyBool _ => true
  | _ => false
  end.

(** ** The part of numpy that [domains.py] uses *)

Module np.

(** Arithmetic of dtype [int64] wraps around the word. *)
Definition wrap64 (z : Z) : Z := (z + 2 ^ 63) mod 2 ^ 64 - 2 ^ 63.

(** A non-negative integer rounded to 53 significant bits, ties to the even
    mantissa. *)
Definition round53 (a : Z) : Z :=
  let s := Z.log2 a - 52 in
  if s <=? 0 then a
  else
    let q := Z.shiftr a s in
    let rem := a - Z.shiftl q s in
    let half := Z.shiftl 1 (s - 1) in
    let q' := if (half <? rem) || ((rem =? half) && Z.odd q) then q + 1 else q in
    Z.shiftl q' s.

(** The cast of an integer of the array to a double: the nearest double. *)
Definition float64 (n : Z) : Q := inject_Z (Z.sgn n * round53 (Z.abs n)).

(** [float(n)] for a Python integer: the nearest double, and none for a
    [long] beyond the largest double ([OverflowError]). *)
Definition float_of_int (n : Z) : option Q :=
  if round53 (Z.abs n) <? 2 ^ 1024 then Some (float64 n) else None.

(** A number as a double. *)
Definition py_float64 (v : pyval) : option Q :=
  match v with
  | PyFloat x => Some x
  | _ => n ← py_int v; float_of_int n
  end.

(** An [int] (or [bool]) element, which numpy keeps in an [int64]. *)
Definition py_int64 (v : pyval) : option Z :=
  n ← py_int v; if machine_int n then Some n else None.

(** A one-dimensional array. *)
Inductive vector : Type :=
| Int64 (ks : list Z)        (* dtype int64 (or bool) *)
| Float64 (xs : list Q)      (* dtype float64; uint64 too, which meets
                                int64 and float64 as float64 *)
| Str (n : nat)              (* a string dtype *)
| Object (l : list pyval).   (* dtype object: the elements as they are *)

(** The result of [np.array(v)], as far as [is_within_bounds] looks at it. *)
Inductive ndarray : Type :=
| Scalar                 (* zero-dimensional: shape () *)
| Vector (v : vector)    (* one-dimensional *)
| Matrix.                (* two or more dimensions *)

Definition seq_len (v : pyval) : option nat :=
  match v with
  | PyList l | PyTuple l => Some (length l)
  | _ => None
  end.

(** Every element is a sequence and all have one length. *)
Definition rectangular (l : list pyval) : bool :=
  match l with
  | [] => false
  | x :: _ =>
      match seq_len x with
      | Some k => forallb (λ y, bool_decide (seq_len y = Some k)) l
      | None => false
      end
  end.

Definition is_sequence (v : pyval) : bool := bool_decide (is_Some (seq_len v)).

(** An element that only dtype [object] holds: [None], or a [long] outside
    both [int64] and [uint64]. *)
Definition is_object (v : pyval) : bool :=
  match v with
  | PyNone => true
  | PyInt n => negb ((- 2 ^ 63 <=? n) && (n <? 2 ^ 64))
  | _ => false
  end.

Definition is_str (v : pyval) : bool :=
  match v with
  | PyStr _ => true
  | _ => false
  end.

Definition array (v : pyval) : ndarray :=
  match v with
  | PyList l | PyTuple l =>
      if bool_decide (l = []) then Vector (Float64 [])
      else if existsb is_sequence l then
        if rectangular l then Matrix else Vector (Object l)
      else if existsb is_object l then Vector (Object l)
      else if existsb is_str l then Vector (Str (length l))
      else
        match mapM py_int64 l with
        | Some ks => Vector (Int64 ks)
        | None =>
            match mapM py_float64 l with
            | Some xs => Vector (Float64 xs)
            | None => Vector (Object l)
            end
        end
  | _ => Scalar
  end.

Definition size (v : vector) : nat :=
  match v with
  | Int64 ks => length ks
  | Float64 xs => length xs
  | Str n => n
  | Object l => length l
  end.

(** [a.shape == (d,)]: the array as a vector when it has that shape. *)
Definition shape_is (a : ndarray) (d : nat) : option vector :=
  match a with
  | Vector v => if bool_decide (size v = d) then Some v else None
  | _ => None
  end.

(** [self.bounds]: the array that a domain's constructor builds from its
    rows of bounds, of dtype [float64] or [int64].  From no rows at all
    [np.array] builds a one-dimensional array of length 0. *)
Inductive bounds : Type :=
| FloatRows (rows : list (Q * Q))
| IntRows (rows : list (Z * Z)).

(** [np.array(rows, dtype=np.int)]: an integer outside the word is refused. *)
Definition int_rows (rows : list (Z * Z)) : result bounds :=
  if forallb (λ b, machine_int (fst b) && machine_int (snd b)) rows
  then Ok (IntRows rows)
  else Raise OverflowError.

(** [bounds.shape[0]]. *)
Definition rows (b : bounds) : nat :=
  match b with
  | FloatRows rows => length rows
  | IntRows rows => length rows
  end.

(** [bounds[:, j]]: an array without rows has one dimension only, and two
    indices are one too many for it. *)
Definition column (b : bounds) (j : nat) : result vector :=
  match b, j with
  | FloatRows (r :: rows), 0%nat => Ok (Float64 (fst <$> r :: rows))
  | FloatRows (r :: rows), 1%nat => Ok (Float64 (snd <$> r :: rows))
  | IntRows (r :: rows), 0%nat => Ok (Int64 (fst <$> r :: rows))
  | IntRows (r :: rows), 1%nat => Ok (Int64 (snd <$> r :: rows))
  | _, _ => Raise IndexError
  end.

(** [a - b] for two Python objects: integers subtract exactly, a float
    makes the other side a float. *)
Definition py_sub (a b : pyval) : result pyval :=
  match py_int a, py_int b with
  | Some m, Some n => Ok (PyInt (m - n))
  | _, _ =>
      match py_num a, py_num b with
      | Some _, Some _ =>
          match py_float64 a, py_float64 b with
          | Some x, Some y => Ok (PyFloat (x - y))
          | _, _ => Raise OverflowError
          end
      | _, _ => Raise TypeError
      end
  end.

(** [a.astype(object)]: the elements as Python objects. *)
Definition objects (a : vector) : list pyval :=
  match a with
  | Int64 ks => PyInt <$> ks
  | Float64 xs => PyFloat <$> xs
  | Str n => []
  | Object l => l
  end.

(** [a - b] for one-dimensional arrays of one length.  The difference of
    two doubles is rounded, which keeps its sign; the model keeps the exact
    difference. *)
Definition subtract (a b : vector) : result vector :=
  match a, b with
  | Str _, _ | _, Str _ => Raise TypeError
  | Object _, _ | _, Object _ =>
      Object <$> mapM id (zip_with py_sub (objects a) (objects b))
  | Int64 ks, Int64 ms => Ok (Int64 (zip_with (λ k m, wrap64 (k - m)) ks ms))
  | Int64 ks, Float64 ys => Ok (Float64 (zip_with (λ k y, float64 k - y)%Q ks ys))
  | Float64 xs, Int64 ms => Ok (Float64 (zip_with (λ x m, x - float64 m)%Q xs ms))
  | Float64 xs, Float64 ys => Ok (Float64 (zip_with Qminus xs ys))
  end.

(** [np.all(v >= 0)]. *)
Definition all_ge0 (v : vector) : bool :=
  match v with
  | Int64 ks => forallb (Z.leb 0) ks
  | Float64 xs => forallb (Qle_bool 0) xs
  | Str _ => false
  | Object l => forallb (λ e, py2_ge e 0) l
  end.

End np.

(** ** domains.py *)

Inductive Domain : Type :=
| UniversalDomain
| EuclideanDomain (bounds : list (Q * Q))
| IntegralDomain (bounds : list (Z * Z))
| DiscreteDomain (list_of_items : list pyval)
| ProdDiscreteDomain (list_of_list_of_items : list (list pyval)).

Definition get_type (d : Domain) : string :=
  match d with
  | UniversalDomain => "universal"
  | EuclideanDomain _ => "euclidean"
  | IntegralDomain _ => "integral"
  | DiscreteDomain _ => "discrete"
  | ProdDiscreteDomain _ => "prod_discrete"
  end.

Definition get_dim (d : Domain) : option nat :=
  match d with
  | UniversalDomain => None
  | EuclideanDomain bounds => Some (length bounds)
  | IntegralDomain bounds => Some (length bounds)
  | DiscreteDomain _ => Some 1%nat
  | ProdDiscreteDomain lol => Some (length lol)
  end.

Definition is_within_bounds (bounds : np.bounds) (point : pyval) : result bool :=
  let point := np.array point in
  match np.shape_is point (np.rows bounds) with
  | None => Ok false
  | Some point =>
      lb ← np.column bounds 0;
      diff_lb ← np.subtract point lb;
      let above_lb := np.all_ge0 diff_lb in
      ub ← np.column bounds 1;
      diff_ub ← np.subtract ub point;
      let below_ub := np.all_ge0 diff_ub in
      Ok (above_lb && below_ub)
  end.

(** [self.bounds] is built by the constructor: [np.array(bounds)] for the
    Euclidean domain, whose rows are doubles, and
    [np.array(bounds, dtype=np.int)] for the integral domain. *)
Definition is_a_member (d : Domain) (point : pyval) : result bool :=
  match d with
  | UniversalDomain => Ok true
  | EuclideanDomain bounds => is_within_bounds (np.FloatRows bounds) point
  | IntegralDomain bounds =>
      bounds ← np.int_rows bounds;
      xs ← py_iter point;
      let are_ints := is_int <$> xs in
      if forallb id are_ints then is_within_bounds bounds point
      else Ok false
  | DiscreteDomain list_of_items => Ok (py_in point list_of_items)
  | ProdDiscreteDomain lol =>
      if negb (has_iter point) then Ok false
      else
        n ← py_len point;
        if negb (bool_decide (n = length lol)) then Ok false
        else
          elems ← py_iter point;
          let ret := zip_with py_in elems lol in
          Ok (forallb id ret)
  end.


(** ** Namespaces

    A qinfo is an [argparse.Namespace]: attributes are added and read by
    name.  The history columns reached through
    [to_copy_from_qinfo_to_history] are attributes of such a namespace too,
    each one a list. *)

Abbreviation Namespace := (gmap string pyval).

Definition getattr {A} (o : gmap string A) (name : string) : result A :=
  match o !! name with
  | Some v => Ok v
  | None => Raise AttributeError
  end.

Definition hasattr {A} (o : gmap string A) (name : string) : bool :=
  bool_decide (is_Some (o !! name)).

Definition setattr {A} (o : gmap string A) (name : string) (v : A) : gmap string A :=
  <[name := v]> o.

(** ** Dictionaries keyed by Python values

    Kept in insertion order; a key is found by [==]. *)

Abbreviation pydict A := (list (pyval * A)).

Fixpoint hashable (k : pyval) : bool :=
  match k with
  | PyList _ => false
  | PyTuple l => forallb hashable l
  | _ => true
  end.

Fixpoint dict_find {A} (d : pydict A) (k : pyval) : option A :=
  match d with
  | [] => None
  | (k', v) :: d' => if py_eqb k' k then Some v else dict_find d' k
  end.

(** [d[k]] as an expression. *)
Definition dict_getitem {A} (d : pydict A) (k : pyval) : result A :=
  if negb (hashable k) then Raise TypeError
  else match dict_find d k with
       | Some v => Ok v
       | None => Raise KeyError
       end.

(** The dictionary after the value stored under [k] was mutated into [v]. *)
Fixpoint dict_update {A} (d : pydict A) (k : pyval) (v : A) : pydict A :=
  match d with
  | [] => []
  | (k', v') :: d' =>
      if py_eqb k' k then (k', v) :: d' else (k', v') :: dict_update d' k v
  end.

(** ** The objects the designer is built from *)

(** [self.options], as far as the core reads it. *)
Record Options : Type := {
  max_num_steps : Q;
  capital_type : string;
  mode : string;
  build_new_model_every : Z;
  report_results_every : Z;
  num_init_evals : Z;
  prev_evaluations : option (list Namespace);   (* the qinfos of prev_evaluations *)
  get_initial_qinfos : option (Z → list Namespace);
}.

(** The experiment caller, as far as the core reads it. *)
Record ExperimentCaller : Type := {
  ec_domain : Domain;
  is_mf : bool;
  ec_fidel_space : option pyval;
  fidel_to_opt : option pyval;
}.

(** [self.history]. *)
Record History : Type := {
  columns : gmap string (list pyval);
  query_qinfos : list Namespace;
  job_idxs_of_workers : pydict (list pyval);
  history_full_policy_name : option string;
}.

Definition set_columns (v : gmap string (list pyval)) (h : History) : History :=
  {| columns := v; query_qinfos := query_qinfos h;
     job_idxs_of_workers := job_idxs_of_workers h;
     history_full_policy_name := history_full_policy_name h |}.

Definition set_query_qinfos (v : list Namespace) (h : History) : History :=
  {| columns := columns h; query_qinfos := v;
     job_idxs_of_workers := job_idxs_of_workers h;
     history_full_policy_name := history_full_policy_name h |}.

Definition set_job_idxs_of_workers (v : pydict (list pyval)) (h : History) : History :=
  {| columns := columns h; query_qinfos := query_qinfos h;
     job_idxs_of_workers := v;
     history_full_policy_name := history_full_policy_name h |}.

Definition set_history_full_policy_name (v : option string) (h : History) : History :=
  {| columns := columns h; query_qinfos := query_qinfos h;
     job_idxs_of_workers := job_idxs_of_workers h;
     history_full_policy_name := v |}.

(** The designer object [self].  [W] is the state of everything outside the
    driver (worker manager, workers, clocks); [C] is the state a child class
    adds. *)
Record Designer (W C : Type) : Type := {
experiment_caller : ExperimentCaller;
domain : Domain;
worker_manager : W;
options : Options;
reporter : list string;  (* the lines written so far *)
child : C;  (* the model and whatever else a child class keeps *)
available_capital : Q;
num_completed_evals : Z;
step_idx : Z;
num_succ_queries : Z;
num_workers : Z;
last_report_at : Z;
last_model_build_at : Z;
eval_points_in_progress : list pyval;
eval_idxs_in_progress : list pyval;
history : History;
to_copy_from_qinfo_to_history : gmap string string;
full_policy_name : string;
prev_eval_points : list pyval;
prev_eval_vals : list pyval;
fidel_space : option pyval;  (* set by _mf_set_up only *)
prev_eval_fidels : option (list pyval);  (* set by _mf_set_up only *)
spent_capital : option pyval;  (* set by initialise_capital only *)
init_cpu_time_stamp : option Q;  (* set by initialise_capital only *)
init_real_time_stamp : option Q;  (* set by initialise_capital only *)
}.
Arguments experiment_caller {W C} _.
Arguments domain {W C} _.
Arguments worker_manager {W C} _.
Arguments options {W C} _.
Arguments reporter {W C} _.
Arguments child {W C} _.
Arguments available_capital {W C} _.
Arguments num_completed_evals {W C} _.
Arguments step_idx {W C} _.
Arguments num_succ_queries {W C} _.
Arguments num_workers {W C} _.
Arguments last_report_at {W C} _.
Arguments last_model_build_at {W C} _.
Arguments eval_points_in_progress {W C} _.
Arguments eval_idxs_in_progress {W C} _.
Arguments history {W C} _.
Arguments to_copy_from_qinfo_to_history {W C} _.
Arguments full_policy_name {W C} _.
Arguments prev_eval_points {W C} _.
Arguments prev_eval_vals {W C} _.
Arguments fidel_space {W C} _.
Arguments prev_eval_fidels {W C} _.
Arguments spent_capital {W C} _.
Arguments init_cpu_time_stamp {W C} _.
Arguments init_real_time_stamp {W C} _.

(** Attribute assignment [self.x = v]. *)
Section Setters.
Context {W C : Type}.
Implicit Type self : Designer W C.

Definition set_worker_manager (v : W) self : Designer W C :=
  {| experiment_caller := experiment_caller self; domain := domain self;
     worker_manager := v; options := options self; reporter := reporter self;
     child := child self; available_capital := available_capital self;
     num_completed_evals := num_completed_evals self; step_idx := step_idx self;
     num_succ_queries := num_succ_queries self; num_workers := num_workers self;
     last_report_at := last_report_at self;
     last_model_build_at := last_model_build_at self;
     eval_points_in_progress := eval_points_in_progress self;
     eval_idxs_in_progress := eval_idxs_in_progress self; history := history self;
     to_copy_from_qinfo_to_history := to_copy_from_qinfo_to_history self;
     full_policy_name := full_policy_name self;
     prev_eval_points := prev_eval_points self;
     prev_eval_vals := prev_eval_vals self; fidel_space := fidel_space self;
     prev_eval_fidels := prev_eval_fidels self; spent_capital := spent_capital self;
     init_cpu_time_stamp := init_cpu_time_stamp self;
     init_real_time_stamp := init_real_time_stamp self |}.

Definition set_reporter (v : list string) self : Designer W C :=
  {| experiment_caller := experiment_caller self; domain := domain self;
     worker_manager := worker_manager self; options := options self; reporter := v;
     child := child self; available_capital := available_capital self;
     num_completed_evals := num_completed_evals self; step_idx := step_idx self;
     num_succ_queries := num_succ_queries self; num_workers := num_workers self;
     last_report_at := last_report_at self;
     last_model_build_at := last_model_build_at self;
     eval_points_in_progress := eval_points_in_progress self;
     eval_idxs_in_progress := eval_idxs_in_progress self; history := history self;
     to_copy_from_qinfo_to_history := to_copy_from_qinfo_to_history self;
     full_policy_name := full_policy_name self;
     prev_eval_points := prev_eval_points self;
     prev_eval_vals := prev_eval_vals self; fidel_space := fidel_space self;
     prev_eval_fidels := prev_eval_fidels self; spent_capital := spent_capital self;
     init_cpu_time_stamp := init_cpu_time_stamp self;
     init_real_time_stamp := init_real_time_stamp self |}.

Definition set_child (v : C) self : Designer W C :=
  {| experiment_caller := experiment_caller self; domain := domain self;
     worker_manager := worker_manager self; options := options self;
     reporter := reporter self; child := v;
     available_capital := available_capital self;
     num_completed_evals := num_completed_evals self; step_idx := step_idx self;
     num_succ_queries := num_succ_queries self; num_workers := num_workers self;
     last_report_at := last_report_at self;
     last_model_build_at := last_model_build_at self;
     eval_points_in_progress := eval_points_in_progress self;
     eval_idxs_in_progress := eval_idxs_in_progress self; history := history self;
     to_copy_from_qinfo_to_history := to_copy_from_qinfo_to_history self;
     full_policy_name := full_policy_name self;
     prev_eval_points := prev_eval_points self;
     prev_eval_vals := prev_eval_vals self; fidel_space := fidel_space self;
     prev_eval_fidels := prev_eval_fidels self; spent_capital := spent_capital self;
     init_cpu_time_stamp := init_cpu_time_stamp self;
     init_real_time_stamp := init_real_time_stamp self |}.

Definition set_available_capital (v : Q) self : Designer W C :=
  {| experiment_caller := experiment_caller self; domain := domain self;
     worker_manager := worker_manager self; options := options self;
     reporter := reporter self; child := child self; available_capital := v;
     num_completed_evals := num_completed_evals self; step_idx := step_idx self;
     num_succ_queries := num_succ_queries self; num_workers := num_workers self;
     last_report_at := last_report_at self;
     last_model_build_at := last_model_build_at self;
     eval_points_in_progress := eval_points_in_progress self;
     eval_idxs_in_progress := eval_idxs_in_progress self; history := history self;
     to_copy_from_qinfo_to_history := to_copy_from_qinfo_to_history self;
     full_policy_name := full_policy_name self;
     prev_eval_points := prev_eval_points self;
     prev_eval_vals := prev_eval_vals self; fidel_space := fidel_space self;
     prev_eval_fidels := prev_eval_fidels self; spent_capital := spent_capital self;
     init_cpu_time_stamp := init_cpu_time_stamp self;
     init_real_time_stamp := init_real_time_stamp self |}.

Definition set_step_idx (v : Z) self : Designer W C :=
  {| experiment_caller := experiment_caller self; domain := domain self;
     worker_manager := worker_manager self; options := options self;
     reporter := reporter self; child := child self;
     available_capital := available_capital self;
     num_completed_evals := num_completed_evals self; step_idx := v;
     num_succ_queries := num_succ_queries self; num_workers := num_workers self;
     last_report_at := last_report_at self;
     last_model_build_at := last_model_build_at self;
     eval_points_in_progress := eval_points_in_progress self;
     eval_idxs_in_progress := eval_idxs_in_progress self; history := history self;
     to_copy_from_qinfo_to_history := to_copy_from_qinfo_to_history self;
     full_policy_name := full_policy_name self;
     prev_eval_points := prev_eval_points self;
     prev_eval_vals := prev_eval_vals self; fidel_space := fidel_space self;
     prev_eval_fidels := prev_eval_fidels self; spent_capital := spent_capital self;
     init_cpu_time_stamp := init_cpu_time_stamp self;
     init_real_time_stamp := init_real_time_stamp self |}.

Definition set_num_succ_queries (v : Z) self : Designer W C :=
  {| experiment_caller := experiment_caller self; domain := domain self;
     worker_manager := worker_manager self; options := options self;
     reporter := reporter self; child := child self;
     available_capital := available_capital self;
     num_completed_evals := num_completed_evals self; step_idx := step_idx self;
     num_succ_queries := v; num_workers := num_workers self;
     last_report_at := last_report_at self;
     last_model_build_at := last_model_build_at self;
     eval_points_in_progress := eval_points_in_progress self;
     eval_idxs_in_progress := eval_idxs_in_progress self; history := history self;
     to_copy_from_qinfo_to_history := to_copy_from_qinfo_to_history self;
     full_policy_name := full_policy_name self;
     prev_eval_points := prev_eval_points self;
     prev_eval_vals := prev_eval_vals self; fidel_space := fidel_space self;
     prev_eval_fidels := prev_eval_fidels self; spent_capital := spent_capital self;
     init_cpu_time_stamp := init_cpu_time_stamp self;
     init_real_time_stamp := init_real_time_stamp self |}.

Definition set_eval_points_in_progress (v : list pyval) self : Designer W C :=
  {| experiment_caller := experiment_caller self; domain := domain self;
     worker_manager := worker_manager self; options := options self;
     reporter := reporter self; child := child self;
     available_capital := available_capital self;
     num_completed_evals := num_completed_evals self; step_idx := step_idx self;
     num_succ_queries := num_succ_queries self; num_workers := num_workers self;
     last_report_at := last_report_at self;
     last_model_build_at := last_model_build_at self; eval_points_in_progress := v;
     eval_idxs_in_progress := eval_idxs_in_progress self; history := history self;
     to_copy_from_qinfo_to_history := to_copy_from_qinfo_to_history self;
     full_policy_name := full_policy_name self;
     prev_eval_points := prev_eval_points self;
     prev_eval_vals := prev_eval_vals self; fidel_space := fidel_space self;
     prev_eval_fidels := prev_eval_fidels self; spent_capital := spent_capital self;
     init_cpu_time_stamp := init_cpu_time_stamp self;
     init_real_time_stamp := init_real_time_stamp self |}.

Definition set_eval_idxs_in_progress (v : list pyval) self : Designer W C :=
  {| experiment_caller := experiment_caller self; domain := domain self;
     worker_manager := worker_manager self; options := options self;
     reporter := reporter self; child := child self;
     available_capital := available_capital self;
     num_completed_evals := num_completed_evals self; step_idx := step_idx self;
     num_succ_queries := num_succ_queries self; num_workers := num_workers self;
     last_report_at := last_report_at self;
     last_model_build_at := last_model_build_at self;
     eval_points_in_progress := eval_points_in_progress self;
     eval_idxs_in_progress := v; history := history self;
     to_copy_from_qinfo_to_history := to_copy_from_qinfo_to_history self;
     full_policy_name := full_policy_name self;
     prev_eval_points := prev_eval_points self;
     prev_eval_vals := prev_eval_vals self; fidel_space := fidel_space self;
     prev_eval_fidels := prev_eval_fidels self; spent_capital := spent_capital self;
     init_cpu_time_stamp := init_cpu_time_stamp self;
     init_real_time_stamp := init_real_time_stamp self |}.

Definition set_history (v : History) self : Designer W C :=
  {| experiment_caller := experiment_caller self; domain := domain self;
     worker_manager := worker_manager self; options := options self;
     reporter := reporter self; child := child self;
     available_capital := available_capital self;
     num_completed_evals := num_completed_evals self; step_idx := step_idx self;
     num_succ_queries := num_succ_queries self; num_workers := num_workers self;
     last_report_at := last_report_at self;
     last_model_build_at := last_model_build_at self;
     eval_points_in_progress := eval_points_in_progress self;
     eval_idxs_in_progress := eval_idxs_in_progress self; history := v;
     to_copy_from_qinfo_to_history := to_copy_from_qinfo_to_history self;
     full_policy_name := full_policy_name self;
     prev_eval_points := prev_eval_points self;
     prev_eval_vals := prev_eval_vals self; fidel_space := fidel_space self;
     prev_eval_fidels := prev_eval_fidels self; spent_capital := spent_capital self;
     init_cpu_time_stamp := init_cpu_time_stamp self;
     init_real_time_stamp := init_real_time_stamp self |}.

Definition set_to_copy_from_qinfo_to_history (v : gmap string string) self : Designer W C :=
  {| experiment_caller := experiment_caller self; domain := domain self;
     worker_manager := worker_manager self; options := options self;
     reporter := reporter self; child := child self;
     available_capital := available_capital self;
     num_completed_evals := num_completed_evals self; step_idx := step_idx self;
     num_succ_queries := num_succ_queries self; num_workers := num_workers self;
     last_report_at := last_report_at self;
     last_model_build_at := last_model_build_at self;
     eval_points_in_progress := eval_points_in_progress self;
     eval_idxs_in_progress := eval_idxs_in_progress self; history := history self;
     to_copy_from_qinfo_to_history := v; full_policy_name := full_policy_name self;
     prev_eval_points := prev_eval_points self;
     prev_eval_vals := prev_eval_vals self; fidel_space := fidel_space self;
     prev_eval_fidels := prev_eval_fidels self; spent_capital := spent_capital self;
     init_cpu_time_stamp := init_cpu_time_stamp self;
     init_real_time_stamp := init_real_time_stamp self |}.

Definition set_prev_eval_points (v : list pyval) self : Designer W C :=
  {| experiment_caller := experiment_caller self; domain := domain self;
     worker_manager := worker_manager self; options := options self;
     reporter := reporter self; child := child self;
     available_capital := available_capital self;
     num_completed_evals := num_completed_evals self; step_idx := step_idx self;
     num_succ_queries := num_succ_queries self; num_workers := num_workers self;
     last_report_at := last_report_at self;
     last_model_build_at := last_model_build_at self;
     eval_points_in_progress := eval_points_in_progress self;
     eval_idxs_in_progress := eval_idxs_in_progress self; history := history self;
     to_copy_from_qinfo_to_history := to_copy_from_qinfo_to_history self;
     full_policy_name := full_policy_name self; prev_eval_points := v;
     prev_eval_vals := prev_eval_vals self; fidel_space := fidel_space self;
     prev_eval_fidels := prev_eval_fidels self; spent_capital := spent_capital self;
     init_cpu_time_stamp := init_cpu_time_stamp self;
     init_real_time_stamp := init_real_time_stamp self |}.

Definition set_prev_eval_vals (v : list pyval) self : Designer W C :=
  {| experiment_caller := experiment_caller self; domain := domain self;
     worker_manager := worker_manager self; options := options self;
     reporter := reporter self; child := child self;
     available_capital := available_capital self;
     num_completed_evals := num_completed_evals self; step_idx := step_idx self;
     num_succ_queries := num_succ_queries self; num_workers := num_workers self;
     last_report_at := last_report_at self;
     last_model_build_at := last_model_build_at self;
     eval_points_in_progress := eval_points_in_progress self;
     eval_idxs_in_progress := eval_idxs_in_progress self; history := history self;
     to_copy_from_qinfo_to_history := to_copy_from_qinfo_to_history self;
     full_policy_name := full_policy_name self;
     prev_eval_points := prev_eval_points self; prev_eval_vals := v;
     fidel_space := fidel_space self; prev_eval_fidels := prev_eval_fidels self;
     spent_capital := spent_capital self;
     init_cpu_time_stamp := init_cpu_time_stamp self;
     init_real_time_stamp := init_real_time_stamp self |}.

Definition set_fidel_space (v : option pyval) self : Designer W C :=
  {| experiment_caller := experiment_caller self; domain := domain self;
     worker_manager := worker_manager self; options := options self;
     reporter := reporter self; child := child self;
     available_capital := available_capital self;
     num_completed_evals := num_completed_evals self; step_idx := step_idx self;
     num_succ_queries := num_succ_queries self; num_workers := num_workers self;
     last_report_at := last_report_at self;
     last_model_build_at := last_model_build_at self;
     eval_points_in_progress := eval_points_in_progress self;
     eval_idxs_in_progress := eval_idxs_in_progress self; history := history self;
     to_copy_from_qinfo_to_history := to_copy_from_qinfo_to_history self;
     full_policy_name := full_policy_name self;
     prev_eval_points := prev_eval_points self;
     prev_eval_vals := prev_eval_vals self; fidel_space := v;
     prev_eval_fidels := prev_eval_fidels self; spent_capital := spent_capital self;
     init_cpu_time_stamp := init_cpu_time_stamp self;
     init_real_time_stamp := init_real_time_stamp self |}.

Definition set_prev_eval_fidels (v : option (list pyval)) self : Designer W C :=
  {| experiment_caller := experiment_caller self; domain := domain self;
     worker_manager := worker_manager self; options := options self;
     reporter := reporter self; child := child self;
     available_capital := available_capital self;
     num_completed_evals := num_completed_evals self; step_idx := step_idx self;
     num_succ_queries := num_succ_queries self; num_workers := num_workers self;
     last_report_at := last_report_at self;
     last_model_build_at := last_model_build_at self;
     eval_points_in_progress := eval_points_in_progress self;
     eval_idxs_in_progress := eval_idxs_in_progress self; history := history self;
     to_copy_from_qinfo_to_history := to_copy_from_qinfo_to_history self;
     full_policy_name := full_policy_name self;
     prev_eval_points := prev_eval_points self;
     prev_eval_vals := prev_eval_vals self; fidel_space := fidel_space self;
     prev_eval_fidels := v; spent_capital := spent_capital self;
     init_cpu_time_stamp := init_cpu_time_stamp self;
     init_real_time_stamp := init_real_time_stamp self |}.

Definition set_spent_capital (v : option pyval) self : Designer W C :=
  {| experiment_caller := experiment_caller self; domain := domain self;
     worker_manager := worker_manager self; options := options self;
     reporter := reporter self; child := child self;
     available_capital := available_capital self;
     num_completed_evals := num_completed_evals self; step_idx := step_idx self;
     num_succ_queries := num_succ_queries self; num_workers := num_workers self;
     last_report_at := last_report_at self;
     last_model_build_at := last_model_build_at self;
     eval_points_in_progress := eval_points_in_progress self;
     eval_idxs_in_progress := eval_idxs_in_progress self; history := history self;
     to_copy_from_qinfo_to_history := to_copy_from_qinfo_to_history self;
     full_policy_name := full_policy_name self;
     prev_eval_points := prev_eval_points self;
     prev_eval_vals := prev_eval_vals self; fidel_space := fidel_space self;
     prev_eval_fidels := prev_eval_fidels self; spent_capital := v;
     init_cpu_time_stamp := init_cpu_time_stamp self;
     init_real_time_stamp := init_real_time_stamp self |}.

Definition set_init_cpu_time_stamp (v : option Q) self : Designer W C :=
  {| experiment_caller := experiment_caller self; domain := domain self;
     worker_manager := worker_manager self; options := options self;
     reporter := reporter self; child := child self;
     available_capital := available_capital self;
     num_completed_evals := num_completed_evals self; step_idx := step_idx self;
     num_succ_queries := num_succ_queries self; num_workers := num_workers self;
     last_report_at := last_report_at self;
     last_model_build_at := last_model_build_at self;
     eval_points_in_progress := eval_points_in_progress self;
     eval_idxs_in_progress := eval_idxs_in_progress self; history := history self;
     to_copy_from_qinfo_to_history := to_copy_from_qinfo_to_history self;
     full_policy_name := full_policy_name self;
     prev_eval_points := prev_eval_points self;
     prev_eval_vals := prev_eval_vals self; fidel_space := fidel_space self;
     prev_eval_fidels := prev_eval_fidels self; spent_capital := spent_capital self;
     init_cpu_time_stamp := v; init_real_time_stamp := init_real_time_stamp self |}.

Definition set_init_real_time_stamp (v : option Q) self : Designer W C :=
  {| experiment_caller := experiment_caller self; domain := domain self;
     worker_manager := worker_manager self; options := options self;
     reporter := reporter self; child := child self;
     available_capital := available_capital self;
     num_completed_evals := num_completed_evals self; step_idx := step_idx self;
     num_succ_queries := num_succ_queries self; num_workers := num_workers self;
     last_report_at := last_report_at self;
     last_model_build_at := last_model_build_at self;
     eval_points_in_progress := eval_points_in_progress self;
     eval_idxs_in_progress := eval_idxs_in_progress self; history := history self;
     to_copy_from_qinfo_to_history := to_copy_from_qinfo_to_history self;
     full_policy_name := full_policy_name self;
     prev_eval_points := prev_eval_points self;
     prev_eval_vals := prev_eval_vals self; fidel_space := fidel_space self;
     prev_eval_fidels := prev_eval_fidels self; spent_capital := spent_capital self;
     init_cpu_time_stamp := init_cpu_time_stamp self; init_real_time_stamp := v |}.

End Setters.

(** ** What the core consumes *)

(** The worker manager and the [time] module, acting on the outside state.
    The two clocks are read off that state: a reading changes when the
    outside state does, and not between two readings of one state. *)
Record Environment (W : Type) : Type := {
  wm_num_workers : W → Z;
  worker_ids : W → list pyval;
  set_experiment_designer : W → W;
  a_worker_is_free : W → pyval * W;
  all_workers_are_free : W → pyval * W;
  get_poll_time_real : W → Q;
  fetch_latest_results : W → list Namespace * W;
  dispatch_single_experiment : ExperimentCaller → Namespace → W → W;
  dispatch_batch_of_experiments : ExperimentCaller → list Namespace → W → W;
  close_all_queries : W → W;
  time_clock : W → Q;
  time_time : W → Q;
  time_sleep : Q → W → W;
}.
Arguments wm_num_workers {W} _ _.
Arguments worker_ids {W} _ _.
Arguments set_experiment_designer {W} _ _.
Arguments a_worker_is_free {W} _ _.
Arguments all_workers_are_free {W} _ _.
Arguments get_poll_time_real {W} _ _.
Arguments fetch_latest_results {W} _ _.
Arguments dispatch_single_experiment {W} _ _ _ _.
Arguments dispatch_batch_of_experiments {W} _ _ _ _.
Arguments close_all_queries {W} _ _.
Arguments time_clock {W} _ _.
Arguments time_time {W} _ _.
Arguments time_sleep {W} _ _ _.

(** The methods a child class overrides.  A hook reads the designer and
    returns the child's new state: history, in-progress lists, counters and
    capital clock are written by the core only. *)
Record Policy (W C : Type) : Type := {
  is_an_mf_policy : C → result bool;
  _get_problem_str : C → result string;
  _get_policy_str : C → result string;
  _problem_set_up : Designer W C → result C;
  _policy_set_up : Designer W C → result C;
  _problem_update_history : Designer W C → Namespace → result C;
  _policy_update_history : Designer W C → Namespace → result C;
  _problem_handle_prev_evals : Designer W C → result C;
  _get_initial_qinfos : Designer W C → Z → result (list Namespace);
  _problem_run_experiments_initialise : Designer W C → result C;
  _policy_run_experiments_initialise : Designer W C → result C;
  _determine_next_query : Designer W C → result (Namespace * C);
  _determine_next_batch_of_queries : Designer W C → Z → result (list Namespace * C);
  _add_data_to_model : Designer W C → list Namespace → result C;
  func_caller : C → option ExperimentCaller;  (* not an attribute of the core's own *)
}.
Arguments is_an_mf_policy {W C} _ _.
Arguments _get_problem_str {W C} _ _.
Arguments _get_policy_str {W C} _ _.
Arguments _problem_set_up {W C} _ _.
Arguments _policy_set_up {W C} _ _.
Arguments _problem_update_history {W C} _ _ _.
Arguments _policy_update_history {W C} _ _ _.
Arguments _problem_handle_prev_evals {W C} _ _.
Arguments _get_initial_qinfos {W C} _ _ _.
Arguments _problem_run_experiments_initialise {W C} _ _.
Arguments _policy_run_experiments_initialise {W C} _ _.
Arguments _determine_next_query {W C} _ _.
Arguments _determine_next_batch_of_queries {W C} _ _ _.
Arguments _add_data_to_model {W C} _ _ _.
Arguments func_caller {W C} _ _.

(** The bodies [ExperimentDesigner] itself gives these methods. *)
Definition ExperimentDesigner_methods (W C : Type) : Policy W C :=
  {| is_an_mf_policy := λ _, Raise NotImplementedError;
     _get_problem_str := λ _, Raise NotImplementedError;
     _get_policy_str := λ _, Raise NotImplementedError;
     _problem_set_up := λ _, Raise NotImplementedError;
     _policy_set_up := λ _, Raise NotImplementedError;
     _problem_update_history := λ _ _, Raise NotImplementedError;
     _policy_update_history := λ _ _, Raise NotImplementedError;
     _problem_handle_prev_evals := λ _, Raise NotImplementedError;
     _get_initial_qinfos := λ _ _, Ok [];
     _problem_run_experiments_initialise := λ _, Raise NotImplementedError;
     _policy_run_experiments_initialise := λ _, Raise NotImplementedError;
     _determine_next_query := λ _, Raise NotImplementedError;
     _determine_next_batch_of_queries := λ _ _, Raise NotImplementedError;
     _add_data_to_model := λ self _, Ok (child self);
     func_caller := λ _, None |}.

(** An attribute that exists only once it was assigned. *)
Definition attr {A} (o : option A) : result A :=
  match o with
  | Some v => Ok v
  | None => Raise AttributeError
  end.

(** The field-to-history table of [_set_up], and the one after [_mf_set_up]. *)
Definition base_table : gmap string string :=
  <["step_idx" := "query_step_idxs"]> (
  <["point" := "query_points"]> (
  <["val" := "query_vals"]> (
  <["true_val" := "query_true_vals"]> (
  <["send_time" := "query_send_times"]> (
  <["receive_time" := "query_receive_times"]> (
  <["eval_time" := "query_eval_times"]> (
  <["worker_id" := "query_worker_ids"]> ∅))))))).

Definition base_columns : gmap string (list pyval) :=
  <["query_step_idxs" := []]> (
  <["query_points" := []]> (
  <["query_vals" := []]> (
  <["query_true_vals" := []]> (
  <["query_send_times" := []]> (
  <["query_receive_times" := []]> (
  <["query_eval_times" := []]> (
  <["query_worker_ids" := []]> ∅))))))).

Definition mf_table : gmap string string :=
  <["cost_at_fidel" := "query_cost_at_fidels"]> (
  <["fidel" := "query_fidels"]> base_table).

Definition mf_columns : gmap string (list pyval) :=
  <["query_cost_at_fidels" := []]> (
  <["query_fidels" := []]> base_columns).

(** ** exd_core.py: class ExperimentDesigner *)

Section ExperimentDesigner.
Context {W C : Type}.
Context (env : Environment W) (pol : Policy W C).
(** [EVAL_ERROR_CODE] is imported from [exd.exd_utils]. *)
Context (EVAL_ERROR_CODE : pyval).
Implicit Type self : Designer W C.

Definition is_asynchronous (opts : Options) : bool :=
  String.prefix "asy" (lower (mode opts)).

Definition _mf_set_up self : result (Designer W C) :=
  if negb (is_mf (experiment_caller self)) then Raise AssertionError
  else
    fs ← attr (ec_fidel_space (experiment_caller self));
    let self := set_fidel_space (Some fs) self in
    let self :=
      set_history (set_columns (<["query_fidels" := []]> (columns (history self)))
                     (history self)) self in
    let self :=
      set_history (set_columns (<["query_cost_at_fidels" := []]> (columns (history self)))
                     (history self)) self in
    let self :=
      set_to_copy_from_qinfo_to_history
        (<["fidel" := "query_fidels"]> (to_copy_from_qinfo_to_history self)) self in
    let self :=
      set_to_copy_from_qinfo_to_history
        (<["cost_at_fidel" := "query_cost_at_fidels"]>
           (to_copy_from_qinfo_to_history self)) self in
    Ok (set_prev_eval_fidels (Some []) self).

(** [_set_up], on the attributes [__init__] has just assigned. *)
Definition _set_up (experiment_caller : ExperimentCaller) (worker_manager : W)
    (options : Options) (reporter : list string) (model : C)
  : result (Designer W C) :=
  let worker_manager := set_experiment_designer env worker_manager in
  let history :=
    {| columns := base_columns; query_qinfos := [];
       job_idxs_of_workers := (λ k, (k, [])) <$> worker_ids env worker_manager;
       history_full_policy_name := None |} in
  let policy_prefix := if is_asynchronous options then "asy" else "syn" in
  policy_str ← _get_policy_str pol model;
  problem_str ← _get_problem_str pol model;
  let full_policy_name :=
    (policy_prefix +:+ "-" +:+ policy_str +:+ "-" +:+ problem_str)%string in
  let self :=
    {| experiment_caller := experiment_caller;
       domain := ec_domain experiment_caller;
       worker_manager := worker_manager;
       options := options;
       reporter := reporter;
       child := model;
       available_capital := 0;
       num_completed_evals := 0;
       step_idx := 0;
       num_succ_queries := 0;
       num_workers := wm_num_workers env worker_manager;
       last_report_at := 0;
       last_model_build_at := 0;
       eval_points_in_progress := [];
       eval_idxs_in_progress := [];
       history := set_history_full_policy_name (Some full_policy_name) history;
       to_copy_from_qinfo_to_history := base_table;
       full_policy_name := full_policy_name;
       prev_eval_points := [];
       prev_eval_vals := [];
       fidel_space := None;
       prev_eval_fidels := None;
       spent_capital := None;
       init_cpu_time_stamp := None;
       init_real_time_stamp := None |} in
  mf_policy ← is_an_mf_policy pol model;
  self ← (if mf_policy || is_mf experiment_caller then _mf_set_up self else Ok self);
  c ← _problem_set_up pol self;
  let self := set_child c self in
  c ← _policy_set_up pol self;
  Ok (set_child c self).

Definition __init__ (experiment_caller : ExperimentCaller) (worker_manager : W)
    (model : C) (options : Options) (reporter : list string)
  : result (Designer W C) :=
  _set_up experiment_caller worker_manager options reporter model.

(** *** Book-keeping *)

(** The loop of [_update_history] over the field-to-history table. *)
Definition copy_field (qinfo : Namespace) (hist : gmap string (list pyval))
    (entry : string * string) : result (gmap string (list pyval)) :=
  let '(qinfo_name, history_name) := entry in
  attr_list ← getattr hist history_name;
  v ← getattr qinfo qinfo_name;
  Ok (<[history_name := attr_list ++ [v]]> hist).

Definition _update_history self (qinfo : Namespace) : result (Designer W C) :=
  worker_id ← getattr qinfo "worker_id";
  jobs ← dict_getitem (job_idxs_of_workers (history self)) worker_id;
  step ← getattr qinfo "step_idx";
  let self :=
    set_history (set_job_idxs_of_workers
                   (dict_update (job_idxs_of_workers (history self)) worker_id
                      (jobs ++ [step])) (history self)) self in
  let self :=
    set_history (set_query_qinfos (query_qinfos (history self) ++ [qinfo])
                   (history self)) self in
  cols ← for_each (copy_field qinfo)
           (map_to_list (to_copy_from_qinfo_to_history self))
           (columns (history self));
  let self := set_history (set_columns cols (history self)) self in
  c ← _problem_update_history pol self qinfo;
  let self := set_child c self in
  c ← _policy_update_history pol self qinfo;
  let self := set_child c self in
  val ← getattr qinfo "val";
  if py_neb val EVAL_ERROR_CODE
  then Ok (set_num_succ_queries (num_succ_queries self + 1) self)
  else Ok self.

(** *** Capital *)

Definition initialise_capital self : Designer W C :=
  if String.eqb (capital_type (options self)) "return_value" then
    set_spent_capital (Some (PyFloat 0)) self
  else if String.eqb (capital_type (options self)) "cputime" then
    set_init_cpu_time_stamp (Some (time_clock env (worker_manager self))) self
  else if String.eqb (capital_type (options self)) "realtime" then
    set_init_real_time_stamp (Some (time_time env (worker_manager self))) self
  else self.

Definition get_curr_spent_capital self : result pyval :=
  if String.eqb (capital_type (options self)) "return_value" then
    attr (spent_capital self)
  else if String.eqb (capital_type (options self)) "cputime" then
    stamp ← attr (init_cpu_time_stamp self);
    Ok (PyFloat (time_clock env (worker_manager self) - stamp))
  else if String.eqb (capital_type (options self)) "realtime" then
    stamp ← attr (init_real_time_stamp self);
    Ok (PyFloat (time_time env (worker_manager self) - stamp))
  else Ok PyNone.

Definition set_curr_spent_capital (spent_capital : pyval) self : Designer W C :=
  if String.eqb (capital_type (options self)) "return_value" then
    set_spent_capital (Some spent_capital) self
  else self.

Definition add_capital (capital : Q) self : Designer W C :=
  set_available_capital (available_capital self + capital)%Q self.

(** *** Querying *)

Definition _add_to_in_progress self (qinfos : list Namespace) : result (Designer W C) :=
  for_each (λ self qinfo,
      step ← getattr qinfo "step_idx";
      let self := set_eval_idxs_in_progress (eval_idxs_in_progress self ++ [step]) self in
      point ← getattr qinfo "point";
      Ok (set_eval_points_in_progress (eval_points_in_progress self ++ [point]) self))
    qinfos self.

Definition _remove_from_in_progress self (qinfo : Namespace) : result (Designer W C) :=
  step ← getattr qinfo "step_idx";
  match py_index step (eval_idxs_in_progress self) with
  | None => Raise ValueError
  | Some completed_eval_idx =>
      idxs ← py_pop completed_eval_idx (eval_idxs_in_progress self);
      let self := set_eval_idxs_in_progress idxs self in
      points ← py_pop completed_eval_idx (eval_points_in_progress self);
      Ok (set_eval_points_in_progress points self)
  end.

Definition _wait_till_free_body self (qinfo : Namespace) : result (Designer W C * Namespace) :=
  qinfo ← (if is_mf (experiment_caller self) && negb (hasattr qinfo "cost_at_fidel")
           then eval_time ← getattr qinfo "eval_time";
                Ok (setattr qinfo "cost_at_fidel" eval_time)
           else Ok qinfo);
  self ← _update_history self qinfo;
  self ← _remove_from_in_progress self qinfo;
  Ok (self, qinfo).

(** [fuel] bounds the number of polls. *)
Fixpoint _wait_till_free (fuel : nat) (is_free : W → pyval * W) (poll_time : Q) self
  : result (Designer W C) :=
  match fuel with
  | O => OutOfFuel
  | S fuel' =>
      let '(last_receive_time, w) := is_free (worker_manager self) in
      let self := set_worker_manager w self in
      if negb (is_none last_receive_time) then
        let self := set_curr_spent_capital last_receive_time self in
        let '(latest_results, w) := fetch_latest_results env (worker_manager self) in
        let self := set_worker_manager w self in
        '(self, latest_results) ←
          for_each (λ '(self, seen) qinfo,
              '(self, qinfo) ← _wait_till_free_body self qinfo;
              Ok (self, seen ++ [qinfo]))
            latest_results (self, []);
        c ← _add_data_to_model pol self latest_results;
        Ok (set_child c self)
      else
        let self := set_worker_manager (time_sleep env poll_time (worker_manager self)) self in
        _wait_till_free fuel' is_free poll_time self
  end.

Definition _wait_for_a_free_worker (fuel : nat) self : result (Designer W C) :=
  _wait_till_free fuel (a_worker_is_free env)
    (get_poll_time_real env (worker_manager self)) self.

Definition _wait_for_all_free_workers (fuel : nat) self : result (Designer W C) :=
  _wait_till_free fuel (all_workers_are_free env)
    (get_poll_time_real env (worker_manager self)) self.

Definition _dispatch_single_experiment_to_worker_manager self (qinfo : Namespace)
  : result (Designer W C) :=
  send_time ← get_curr_spent_capital self;
  let qinfo := setattr qinfo "send_time" send_time in
  let qinfo := setattr qinfo "step_idx" (PyInt (step_idx self)) in
  let self :=
    set_worker_manager
      (dispatch_single_experiment env (experiment_caller self) qinfo
         (worker_manager self)) self in
  _add_to_in_progress self [qinfo].

Definition _dispatch_batch_of_experiments_to_worker_manager self (qinfos : list Namespace)
  : result (Designer W C) :=
  qinfos ← mapM (M := result) (λ '(idx, qinfo),
      send_time ← get_curr_spent_capital self;
      let qinfo := setattr qinfo "send_time" send_time in
      Ok (setattr qinfo "step_idx" (PyInt (step_idx self + Z.of_nat idx))))
    (imap pair qinfos);
  caller ← attr (func_caller pol (child self));
  let self :=
    set_worker_manager
      (dispatch_batch_of_experiments env caller qinfos (worker_manager self)) self in
  _add_to_in_progress self qinfos.

(** *** Initialisation *)

Definition perform_initial_queries (fuel : nat) self : result (Designer W C) :=
  match prev_evaluations (options self) with
  | Some qinfos =>
      self ← for_each (λ self qinfo,
          point ← getattr qinfo "point";
          let self := set_prev_eval_points (prev_eval_points self ++ [point]) self in
          val ← getattr qinfo "val";
          Ok (set_prev_eval_vals (prev_eval_vals self ++ [val]) self))
        qinfos self;
      c ← _problem_handle_prev_evals pol self;
      Ok (set_child c self)
  | None =>
      let num_init_evals := num_init_evals (options self) in
      if 0 <? num_init_evals then
        let num_init_evals := Z.max (num_workers self) num_init_evals in
        init_qinfos ←
          match get_initial_qinfos (options self) with
          | Some f => Ok (f num_init_evals)
          | None => _get_initial_qinfos pol self num_init_evals
          end;
        for_each (λ self qinfo,
            let self := set_step_idx (step_idx self + 1) self in
            self ← _wait_for_a_free_worker fuel self;
            _dispatch_single_experiment_to_worker_manager self qinfo)
          init_qinfos self
      else Ok self
  end.

Definition run_experiment_initialise (fuel : nat) self : result (Designer W C) :=
  let self := initialise_capital self in
  self ← perform_initial_queries fuel self;
  c ← _problem_run_experiments_initialise pol self;
  let self := set_child c self in
  c ← _policy_run_experiments_initialise pol self;
  Ok (set_child c self).

(** *** Utilities *)

Definition get_past_data self : result (list pyval * list pyval) :=
  query_points ← getattr (columns (history self)) "query_points";
  let X := prev_eval_points self ++ query_points in
  query_vals ← getattr (columns (history self)) "query_vals";
  let Y := prev_eval_vals self ++ query_vals in
  Ok (X, Y).

(** *** Running experiments *)

Definition exceeded_message (opts : Options) : string :=
  ("Exceeded " +:+ fmt_d (max_num_steps opts) +:+ " evaluations. Terminating Now!")%string.

Definition _terminate_now self : result (bool * Designer W C) :=
  if Qle_bool (max_num_steps (options self)) (inject_Z (step_idx self)) then
    Ok (true, set_reporter (reporter self ++ [exceeded_message (options self)]) self)
  else
    spent ← get_curr_spent_capital self;
    Ok (py2_ge spent (available_capital self), self).

(** The argument of [_update_capital]: one qinfo, or a list of them. *)
Inductive qinfos_arg : Type :=
| OneQinfo (q : Namespace)
| ManyQinfos (l : list Namespace).

(** One pass of the loop of [_update_capital], at the loop variable [idx]. *)
Definition _update_capital_body self (st : list Namespace * list Q) (idx : pyval)
  : result (list Namespace * list Q) :=
  let '(qinfos, query_receive_times) := st in
  idx ← py_position idx;
  query_receive_times ←
    (if String.eqb (capital_type (options self)) "return_value" then
       q ← py_getitem idx qinfos;
       send_time ← getattr q "send_time";
       send_time ← py_float send_time;
       eval_time ← getattr q "eval_time";
       eval_time ← py_float eval_time;
       py_setitem idx (send_time + eval_time)%Q query_receive_times
     else if String.eqb (capital_type (options self)) "cputime" then
       stamp ← attr (init_cpu_time_stamp self);
       py_setitem idx (time_clock env (worker_manager self) - stamp)%Q query_receive_times
     else if String.eqb (capital_type (options self)) "realtime" then
       stamp ← attr (init_real_time_stamp self);
       py_setitem idx (time_time env (worker_manager self) - stamp)%Q query_receive_times
     else Ok query_receive_times);
  receive_time ← py_getitem idx query_receive_times;
  q ← py_getitem idx qinfos;
  let q := setattr q "receive_time" (PyFloat receive_time) in
  send_time ← getattr q "send_time";
  send_time ← py_float send_time;
  let q := setattr q "eval_time" (PyFloat (receive_time - send_time)) in
  if negb (Qle_bool 0 (receive_time - send_time)) then Raise ValueError
  else Ok (<[idx := q]> qinfos, query_receive_times).

Definition _update_capital self (qinfos : qinfos_arg) : result (Q * list Namespace) :=
  let qinfos :=
    match qinfos with
    | OneQinfo q => [q]
    | ManyQinfos l => l
    end in
  let query_receive_times := [] in
  idxs ← py_iter (PyInt (Z.of_nat (length qinfos)));
  '(qinfos, query_receive_times) ←
    for_each (_update_capital_body self) idxs (qinfos, query_receive_times);
  match query_receive_times with
  | [] => Raise ValueError
  | t :: ts => Ok (foldr Qmax t ts, qinfos)
  end.

Definition _asynchronous_run_experiment_routine (fuel : nat) self
  : result (Designer W C) :=
  self ← _wait_for_a_free_worker fuel self;
  '(qinfo, c) ← _determine_next_query pol self;
  let self := set_child c self in
  qinfo ← (if is_mf (experiment_caller self) && negb (hasattr qinfo "fidel")
           then fidel ← attr (fidel_to_opt (experiment_caller self));
                Ok (setattr qinfo "fidel" fidel)
           else Ok qinfo);
  self ← _dispatch_single_experiment_to_worker_manager self qinfo;
  Ok (set_step_idx (step_idx self + 1) self).

Definition _synchronous_run_experiment_routine (fuel : nat) self
  : result (Designer W C) :=
  self ← _wait_for_all_free_workers fuel self;
  '(qinfos, c) ← _determine_next_batch_of_queries pol self (num_workers self);
  let self := set_child c self in
  self ← _dispatch_batch_of_experiments_to_worker_manager self qinfos;
  Ok (set_step_idx (step_idx self + num_workers self) self).

End ExperimentDesigner.

(** ** A synthetic worker pool and a constant policy

    A stand-in for the collaborators, to run the core on: workers take jobs
    in the order they are sent, every evaluation lasts one unit of simulated
    time, and a poll that finds every worker busy lets the oldest job finish. *)

Module Sim.

Record world : Type := {
  ids : list pyval;            (* all workers *)
  idle : list pyval;           (* workers without a job *)
  running : list Namespace;    (* jobs sent and not yet finished, oldest first *)
  finished : list Namespace;   (* results not yet fetched *)
  clock : Q;
}.

Definition start (ids : list pyval) : world :=
  {| ids := ids; idle := ids; running := []; finished := []; clock := 0 |}.

(** The evaluation of [qinfo], finishing at time [t]. *)
Definition evaluate (t : Q) (qinfo : Namespace) : Namespace :=
  let qinfo := setattr qinfo "val" (default PyNone (qinfo !! "point")) in
  let qinfo := setattr qinfo "true_val" (default PyNone (qinfo !! "point")) in
  let qinfo := setattr qinfo "eval_time" (PyFloat 1) in
  setattr qinfo "receive_time" (PyFloat t).

(** The oldest running job finishes and frees its worker. *)
Definition finish_one (w : world) : world :=
  match running w with
  | [] => w
  | q :: rest =>
      {| ids := ids w;
         idle := idle w ++ [default PyNone (q !! "worker_id")];
         running := rest;
         finished := finished w ++ [evaluate (clock w + 1) q];
         clock := clock w + 1 |}
  end.

Definition sim_a_worker_is_free (w : world) : pyval * world :=
  match idle w, running w with
  | _ :: _, _ => (PyFloat (clock w), w)
  | [], _ :: _ => let w := finish_one w in (PyFloat (clock w), w)
  | [], [] => (PyNone, w)
  end.

Definition sim_all_workers_are_free (w : world) : pyval * world :=
  match running w with
  | [] => (PyFloat (clock w), w)
  | _ :: _ => (PyNone, finish_one w)
  end.

Definition sim_fetch_latest_results (w : world) : list Namespace * world :=
  (finished w,
   {| ids := ids w; idle := idle w; running := running w; finished := [];
      clock := clock w |}).

Definition sim_dispatch_single_experiment (_ : ExperimentCaller) (qinfo : Namespace)
    (w : world) : world :=
  match idle w with
  | [] => w
  | id :: rest =>
      {| ids := ids w; idle := rest;
         running := running w ++ [setattr qinfo "worker_id" id];
         finished := finished w; clock := clock w |}
  end.

Definition sim_dispatch_batch_of_experiments (caller : ExperimentCaller)
    (qinfos : list Namespace) (w : world) : world :=
  foldl (λ w q, sim_dispatch_single_experiment caller q w) w qinfos.

Definition env : Environment world :=
  {| wm_num_workers := λ w, Z.of_nat (length (ids w));
     worker_ids := ids;
     set_experiment_designer := id;
     a_worker_is_free := sim_a_worker_is_free;
     all_workers_are_free := sim_all_workers_are_free;
     get_poll_time_real := λ _, 0%Q;
     fetch_latest_results := sim_fetch_latest_results;
     dispatch_single_experiment := sim_dispatch_single_experiment;
     dispatch_batch_of_experiments := sim_dispatch_batch_of_experiments;
     close_all_queries := id;
     time_clock := clock;
     time_time := clock;
     time_sleep := λ _ w, w |}.

(** A policy that always asks for the same point; the child keeps no state. *)
Definition query : Namespace := {["point" := PyFloat 0.5]}.

Definition policy (mf : bool) : Policy world unit :=
  {| is_an_mf_policy := λ _, Ok mf;
     _get_problem_str := λ _, Ok "problem";
     _get_policy_str := λ _, Ok "constant";
     _problem_set_up := λ _, Ok ();
     _policy_set_up := λ _, Ok ();
     _problem_update_history := λ _ _, Ok ();
     _policy_update_history := λ _ _, Ok ();
     _problem_handle_prev_evals := λ _, Ok ();
     _get_initial_qinfos := λ _ n, Ok (replicate (Z.to_nat n) query);
     _problem_run_experiments_initialise := λ _, Ok ();
     _policy_run_experiments_initialise := λ _, Ok ();
     _determine_next_query := λ _, Ok (query, ());
     _determine_next_batch_of_queries := λ _ n, Ok (replicate (Z.to_nat n) query, ());
     _add_data_to_model := λ _ _, Ok ();
     func_caller := λ _, None |}.

Definition EVAL_ERROR_CODE : pyval := PyStr "eval_error".

Definition caller (mf : bool) : ExperimentCaller :=
  {| ec_domain := EuclideanDomain [(0, 1)]%Q; is_mf := mf;
     ec_fidel_space := if mf then Some (PyList [PyInt 0; PyInt 1]) else None;
     fidel_to_opt := if mf then Some (PyInt 1) else None |}.

Definition opts (capital_type : string) (num_init_evals : Z) : Options :=
  {| max_num_steps := 10000000; capital_type := capital_type; mode := "asy";
     build_new_model_every := 17; report_results_every := 1;
     num_init_evals := num_init_evals; prev_evaluations := None;
     get_initial_qinfos := None |}.

(** Construction, then the start of [run_experiments max_capital]. *)
Definition designer (capital_type : string) (num_init_evals : Z) (workers : list pyval)
  : result (Designer world unit) :=
  __init__ env (policy false) (caller false) (start workers) ()
    (opts capital_type num_init_evals) [].

Definition initialised (capital_type : string) (num_init_evals : Z)
    (workers : list pyval) (max_capital : Q) : result (Designer world unit) :=
  self ← designer capital_type num_init_evals workers;
  let self := add_capital max_capital self in
  run_experiment_initialise env (policy false) EVAL_ERROR_CODE 1 self.

(** The designer a run has reached. *)
Definition blank : Designer world unit :=
  {| experiment_caller := caller false; domain := UniversalDomain;
     worker_manager := start []; options := opts "return_value" 0; reporter := [];
     child := (); available_capital := 0; num_completed_evals := 0; step_idx := 0;
     num_succ_queries := 0; num_workers := 0; last_report_at := 0;
     last_model_build_at := 0; eval_points_in_progress := [];
     eval_idxs_in_progress := [];
     history := {| columns := ∅; query_qinfos := []; job_idxs_of_workers := [];
                   history_full_policy_name := None |};
     to_copy_from_qinfo_to_history := ∅; full_policy_name := "";
     prev_eval_points := []; prev_eval_vals := []; fidel_space := None;
     prev_eval_fidels := None; spent_capital := None; init_cpu_time_stamp := None;
     init_real_time_stamp := None |}.

Definition reached (r : result (Designer world unit)) : Designer world unit :=
  match r with
  | Ok self => self
  | _ => blank
  end.

(** A result as worker [worker_id] hands it back, with value [val]. *)
Definition completed (worker_id : pyval) (val : pyval) : Namespace :=
  let qinfo := setattr query "send_time" (PyFloat 0) in
  let qinfo := setattr qinfo "step_idx" (PyInt 1) in
  let qinfo := setattr qinfo "worker_id" worker_id in
  setattr (evaluate 1 qinfo) "val" val.

(** Two workers, two initial queries, then one pass of the asynchronous routine. *)
Definition first_async_pass : result (Designer world unit) :=
  self ← initialised "return_value" 2 [PyInt 0; PyInt 1] 10;
  _asynchronous_run_experiment_routine env (policy false) EVAL_ERROR_CODE 1 self.

(** The value a call returned, or [d]. *)
Definition got {A} (d : A) (r : result A) : A :=
  match r with
  | Ok a => a
  | _ => d
  end.

(** Options that carry previous evaluations. *)
Definition opts_with_prev (qinfos : list Namespace) : Options :=
  {| max_num_steps := 10000000; capital_type := "return_value"; mode := "asy";
     build_new_model_every := 17; report_results_every := 1;
     num_init_evals := 2; prev_evaluations := Some qinfos;
     get_initial_qinfos := None |}.

Definition designer_with (options : Options) (workers : list pyval)
  : result (Designer world unit) :=
  __init__ env (policy false) (caller false) (start workers) () options [].

(** A child class that sets [func_caller], for synchronous runs. *)
Definition sync_policy : Policy world unit :=
  {| is_an_mf_policy := λ _, Ok false;
     _get_problem_str := λ _, Ok "problem";
     _get_policy_str := λ _, Ok "constant";
     _problem_set_up := λ _, Ok ();
     _policy_set_up := λ _, Ok ();
     _problem_update_history := λ _ _, Ok ();
     _policy_update_history := λ _ _, Ok ();
     _problem_handle_prev_evals := λ _, Ok ();
     _get_initial_qinfos := λ _ n, Ok (replicate (Z.to_nat n) query);
     _problem_run_experiments_initialise := λ _, Ok ();
     _policy_run_experiments_initialise := λ _, Ok ();
     _determine_next_query := λ _, Ok (query, ());
     _determine_next_batch_of_queries := λ _ n, Ok (replicate (Z.to_nat n) query, ());
     _add_data_to_model := λ _ _, Ok ();
     func_caller := λ _, Some (caller false) |}.

(** A multi-fidelity designer with query 1 in progress, and its result. *)
Definition mf_designer : result (Designer world unit) :=
  self ← __init__ env (policy false) (caller true) (start [PyInt 0]) ()
           (opts "return_value" 0) [];
  Ok (set_eval_points_in_progress [PyFloat 0.5]
        (set_eval_idxs_in_progress [PyInt 1] self)).

Definition mf_result : Namespace :=
  setattr (completed (PyInt 0) (PyFloat 0.5)) "fidel" (PyInt 1).

End Sim.

(** ** Notions the properties are stated with *)

(** The number of positions of [l] holding a value equal to [x]. *)
Fixpoint occurrences (x : pyval) (l : list pyval) : nat :=
  match l with
  | [] => 0
  | y :: l' => (if py_eqb y x then 1 else 0) + occurrences x l'
  end.

(** A call that returns, rather than raising or polling for ever. *)
Definition returns {A} (r : result A) : Prop := ∃ a, r = Ok a.

(** A recorded qinfo whose [val] is not the [EVAL_ERROR_CODE] sentinel. *)
Definition successful (EVAL_ERROR_CODE : pyval) (qinfo : Namespace) : bool :=
  match qinfo !! "val" with
  | Some val => py_neb val EVAL_ERROR_CODE
  | None => false
  end.

Definition num_successful (EVAL_ERROR_CODE : pyval) (qinfos : list Namespace) : Z :=
  Z.of_nat (length (List.filter (successful EVAL_ERROR_CODE) qinfos)).

(** [num_succ_queries] is the number of successful entries of the history. *)
Definition succ_queries_counted {W C} (EVAL_ERROR_CODE : pyval) (self : Designer W C)
  : Prop :=
  num_succ_queries self = num_successful EVAL_ERROR_CODE (query_qinfos (history self)).

(** The two in-progress lists run in parallel. *)
Definition in_progress_aligned {W C} (self : Designer W C) : Prop :=
  length (eval_idxs_in_progress self) = length (eval_points_in_progress self).

(** A list or tuple of [int]s, with the values of its coordinates. *)
Definition int_vector (p : pyval) : option (list Z) :=
  l ← py_seq p; mapM py_int l.

(** The number of jobs recorded over all workers. *)
Definition jobs_total (h : History) : nat :=
  sum_list ((λ kv, length (snd kv)) <$> job_idxs_of_workers h).

(** Every history column of the table holds its field's values over the
    recorded qinfos, in the order they were recorded. *)
Definition columns_synced {W C} (self : Designer W C) : Prop :=
  ∀ name hname,
    to_copy_from_qinfo_to_history self !! name = Some hname →
    ∃ xs,
      mapM (λ q : Namespace, q !! name) (query_qinfos (history self)) = Some xs ∧
      columns (history self) !! hname = Some xs.

(** No two fields of the table share a history column. *)
Definition columns_distinct {W C} (self : Designer W C) : Prop :=
  NoDup (map_to_list (to_copy_from_qinfo_to_history self)).*2.

(** The in-progress step indices are distinct integers, all below [bound]. *)
Definition idxs_fresh_below {W C} (bound : Z) (self : Designer W C) : Prop :=
  ∃ ks : list Z,
    eval_idxs_in_progress self = PyInt <$> ks ∧ NoDup ks ∧
    Forall (λ k, k < bound) ks.

(** What recording a result leaves alone: the dispatch side of the designer. *)
Definition same_dispatch_state {W C} (self self' : Designer W C) : Prop :=
  eval_idxs_in_progress self' = eval_idxs_in_progress self ∧
  eval_points_in_progress self' = eval_points_in_progress self ∧
  step_idx self' = step_idx self ∧
  options self' = options self ∧
  experiment_caller self' = experiment_caller self ∧
  worker_manager self' = worker_manager self ∧
  spent_capital self' = spent_capital self ∧
  init_cpu_time_stamp self' = init_cpu_time_stamp self ∧
  init_real_time_stamp self' = init_real_time_stamp self.

(** Queries sent: those in progress and those recorded. *)
Definition accounted {W C} (self : Designer W C) : nat :=
  length (eval_idxs_in_progress self) + length (query_qinfos (history self)).

(** ** What the specification calls a real vector *)


(** [lo <= x <= hi] for the bound row [b = (lo, hi)]. *)
Definition within (x : Q) (b : Q * Q) : Prop := (fst b <= x)%Q ∧ (x <= snd b)%Q.

(** ** The point as numpy holds it *)

(** A list or tuple of numbers, with its coordinates as doubles: a float is
    itself, an integer is the double nearest to it, and a [long] beyond the
    largest double has none. *)
Definition stored_vector (p : pyval) : option (list Q) :=
  l ← py_seq p; mapM np.py_float64 l.

(** The elements of a one-dimensional array as doubles. *)
Definition doubles (v : np.vector) : option (list Q) :=
  match v with
  | np.Int64 ks => Some (np.float64 <$> ks)
  | np.Float64 xs => Some xs
  | np.Str _ => None
  | np.Object l => mapM np.py_float64 l
  end.

(** A row of integer bounds [lo <= hi] that lies within [-2^62, 2^62): the
    differences that the test takes from a machine integer then wrap over the
    word only where the sign they get is the right one. *)
Definition narrow (b : Z * Z) : Prop :=
  - 2 ^ 62 ≤ fst b ∧ fst b ≤ snd b ∧ snd b < 2 ^ 62.

(** * Properties of the domains *)

Lemma ge0_minus (x y : Q) : Qle_bool 0 (x - y) = true ↔ (y <= x)%Q.
Proof. rewrite Qle_bool_iff. symmetry. apply Qle_minus_iff. Qed.

Lemma all_ge0_within {A} (f : A → Q) (ks : list A) (bounds : list (Q * Q)) :
  length ks = length bounds →
  forallb (Qle_bool 0) (zip_with (λ k lo, f k - lo)%Q ks (fst <$> bounds))
  && forallb (Qle_bool 0) (zip_with (λ hi k, hi - f k)%Q (snd <$> bounds) ks) = true
  ↔ Forall2 within (f <$> ks) bounds.
Proof.
  revert bounds. induction ks as [|x xs IH]; intros [|[lo hi] bounds] Hlen;
    simplify_eq/=.
  - split; [constructor | done].
  - specialize (IH bounds Hlen).
    rewrite andb_true_iff, !andb_true_iff, !ge0_minus in *.
    split.
    + intros [[Hlo Ha] [Hhi Hb]]. constructor; [done | tauto].
    + intros H. inversion H as [|? ? ? ? [Hlo Hhi] Hrest]; subst. simpl in *. tauto.
Qed.

Lemma round53_machine (a : Z) : 0 ≤ a ≤ 2 ^ 63 → np.round53 a < 2 ^ 1024.
Proof.
  intros Ha. unfold np.round53.
  destruct (Z.leb_spec (Z.log2 a - 52) 0) as [Hs|Hs].
  - eapply Z.le_lt_trans; [apply (proj2 Ha) | done].
  - set (s := Z.log2 a - 52) in *.
    assert (s ≤ 11) as Hs11.
    { assert (Z.log2 a ≤ Z.log2 (2 ^ 63)) by (apply Z.log2_le_mono; lia).
      rewrite Z.log2_pow2 in * by lia. lia. }
    rewrite (Z.shiftl_mul_pow2 _ s) by lia.
    set (q := Z.shiftr a s).
    assert (0 ≤ q ≤ 2 ^ 63) as Hq.
    { unfold q. rewrite Z.shiftr_div_pow2 by lia. split.
      - apply Z.div_pos; [lia | apply Z.pow_pos_nonneg; lia].
      - etrans; [| apply (proj2 Ha)]. apply Z.div_le_upper_bound.
        + apply Z.pow_pos_nonneg; lia.
        + assert (1 ≤ 2 ^ s) by (apply (Z.pow_le_mono_r 2 0 s); lia). nia. }
    assert (2 ^ s ≤ 2 ^ 11) as Hp by (apply Z.pow_le_mono_r; lia).
    assert (0 < 2 ^ s) as Hp0 by (apply Z.pow_pos_nonneg; lia).
    match goal with
    | |- context [if ?c then q + 1 else q] => set (q' := if c then q + 1 else q)
    end.
    assert (0 ≤ q' ≤ 2 ^ 63 + 1) as Hq' by (unfold q'; destruct (_ || _); lia).
    eapply Z.le_lt_trans; [apply Z.mul_le_mono_nonneg; [apply (proj1 Hq') | apply (proj2 Hq') | lia | apply Hp] |].
    done.
Qed.

Lemma float_of_machine_int (k : Z) :
  machine_int k = true → np.float_of_int k = Some (np.float64 k).
Proof.
  unfold machine_int, np.float_of_int. intros Hk.
  apply andb_true_iff in Hk as [Hlo Hhi].
  apply Z.leb_le in Hlo. apply Z.ltb_lt in Hhi.
  assert (np.round53 (Z.abs k) < 2 ^ 1024) as Hr by (apply round53_machine; lia).
  apply Z.ltb_lt in Hr. by rewrite Hr.
Qed.

Lemma py_int64_float64 (v : pyval) (k : Z) :
  np.py_int64 v = Some k → np.py_float64 v = Some (np.float64 k).
Proof.
  unfold np.py_int64, np.py_float64. destruct v as [|b|n| | | |]; simpl; try done.
  - destruct b; simpl; intros [= <-]; done.
  - destruct (machine_int n) eqn:Hn; intros [= <-]. by apply float_of_machine_int.
Qed.

Lemma mapM_int64_float64 (l : list pyval) (ks : list Z) :
  mapM np.py_int64 l = Some ks → mapM np.py_float64 l = Some (np.float64 <$> ks).
Proof.
  rewrite !mapM_Some. induction 1; simpl; constructor; eauto using py_int64_float64.
Qed.

Lemma mapM_cons_None {A B} (f : A → option B) (x : A) (l : list A) :
  f x = None ∨ mapM f l = None → mapM f (x :: l) = None.
Proof. intros [H|H]; simpl; rewrite H; [done | by destruct (f x)]. Qed.

Lemma str_has_no_double (l : list pyval) :
  existsb np.is_str l = true → mapM np.py_float64 l = None.
Proof.
  induction l as [|x l IH]; [done |]. intros Hx. apply mapM_cons_None.
  apply orb_true_iff in Hx as [Hx|Hx]; [left | right; by apply IH].
  by destruct x.
Qed.

(** What [np.array] makes of a list or tuple. *)
Lemma array_doubles (p : pyval) (l : list pyval) :
  py_seq p = Some l →
  match np.array p with
  | np.Vector v => np.size v = length l ∧ doubles v = mapM np.py_float64 l
  | np.Matrix => mapM np.py_float64 l = None
  | np.Scalar => False
  end.
Proof.
  assert (match
            (if bool_decide (l = []) then np.Vector (np.Float64 [])
             else if existsb np.is_sequence l then
               if np.rectangular l then np.Matrix else np.Vector (np.Object l)
             else if existsb np.is_object l then np.Vector (np.Object l)
             else if existsb np.is_str l then np.Vector (np.Str (length l))
             else
               match mapM np.py_int64 l with
               | Some ks => np.Vector (np.Int64 ks)
               | None =>
                   match mapM np.py_float64 l with
                   | Some xs => np.Vector (np.Float64 xs)
                   | None => np.Vector (np.Object l)
                   end
               end)
          with
          | np.Vector v => np.size v = length l ∧ doubles v = mapM np.py_float64 l
          | np.Matrix => mapM np.py_float64 l = None
          | np.Scalar => False
          end) as Hseq.
  { case_bool_decide as Hnil; [by subst |].
    destruct (existsb np.is_sequence l) eqn:Hsome.
    { destruct (np.rectangular l) eqn:Hrect; [| done].
      destruct l as [|x l]; [done |]. apply mapM_cons_None. left.
      simpl in Hrect. by destruct x. }
    destruct (existsb np.is_object l); [done |].
    destruct (existsb np.is_str l) eqn:Hstr.
    { split; [done |]. simpl. symmetry. by apply str_has_no_double. }
    destruct (mapM np.py_int64 l) as [ks|] eqn:Hks.
    { split; simpl.
      - symmetry. by apply length_mapM in Hks.
      - symmetry. by apply mapM_int64_float64. }
    destruct (mapM np.py_float64 l) as [xs|] eqn:Hxs; [| done].
    split; simpl; [| done]. symmetry. by apply length_mapM in Hxs. }
  destruct p; intros [= ->]; exact Hseq.
Qed.

Lemma py_sub_float (e : pyval) (y : Q) :
  match np.py_float64 e with
  | Some x =>
      np.py_sub e (PyFloat y) = Ok (PyFloat (x - y)) ∧
      np.py_sub (PyFloat y) e = Ok (PyFloat (y - x))
  | None => ∃ err, np.py_sub e (PyFloat y) = Raise err
  end.
Proof.
  destruct e as [|b|n|x|s|l|l]; simpl; eauto.
  - destruct b; done.
  - unfold np.py_sub. simpl. destruct (np.float_of_int n); eauto.
Qed.

Lemma object_minus_floats (l : list pyval) (cs : list Q) :
  length l = length cs →
  match mapM np.py_float64 l with
  | Some xs =>
      mapM id (zip_with np.py_sub l (PyFloat <$> cs))
        = Ok (PyFloat <$> zip_with Qminus xs cs) ∧
      mapM id (zip_with np.py_sub (PyFloat <$> cs) l)
        = Ok (PyFloat <$> zip_with Qminus cs xs)
  | None => ∃ err, mapM id (zip_with np.py_sub l (PyFloat <$> cs)) = Raise err
  end.
Proof.
  revert cs. induction l as [|e l IH]; intros [|c cs] Hlen; simplify_eq/=; [done |].
  specialize (IH cs Hlen). pose proof (py_sub_float e c) as He.
  destruct (np.py_float64 e) as [x|]; simpl.
  - destruct He as [-> ->]. simpl.
    destruct (mapM np.py_float64 l) as [xs|]; simpl;
      change (@mbind result result_bind) with result_bind.
    + destruct IH as [-> ->]. done.
    + destruct IH as [err ->]. by exists err.
  - destruct He as [err ->]. by exists err.
Qed.

Lemma all_ge0_floats (ds : list Q) :
  np.all_ge0 (np.Object (PyFloat <$> ds)) = forallb (Qle_bool 0) ds.
Proof.
  unfold np.all_ge0. induction ds as [|d ds IH]; [done |].
  change (forallb (λ e, py2_ge e 0) (PyFloat <$> d :: ds))
    with (Qle_bool 0 d && forallb (λ e, py2_ge e 0) (PyFloat <$> ds)).
  by rewrite IH.
Qed.

Lemma is_within_float_rows (bounds : list (Q * Q)) (p : pyval) (v : np.vector) :
  bounds ≠ [] → np.array p = np.Vector v → np.size v = length bounds →
  is_within_bounds (np.FloatRows bounds) p = Ok true ↔
  ∃ xs, doubles v = Some xs ∧ Forall2 within xs bounds.
Proof.
  intros Hne Harr Hlen. unfold is_within_bounds. rewrite Harr.
  cbn [np.shape_is np.rows]. rewrite bool_decide_true by done.
  destruct bounds as [|r rows]; [done |].
  cbn [np.column mbind result_bind]. set (bounds := r :: rows) in *.
  destruct v as [ks|xs|n|l]; cbn [np.subtract doubles np.size] in *.
  - cbn [mbind result_bind np.all_ge0].
    split.
    + intros [= Hin]. eexists. split; [done |].
      by apply (all_ge0_within np.float64 ks bounds Hlen).
    + intros (xs & [= <-] & Hin). f_equal.
      by apply (all_ge0_within np.float64 ks bounds Hlen).
  - cbn [mbind result_bind np.all_ge0].
    pose proof (all_ge0_within id xs bounds Hlen) as Hin.
    rewrite list_fmap_id in Hin. split.
    + intros [= Hall]. eexists. split; [done |]. by apply Hin.
    + intros (xs' & [= <-] & Hall). f_equal. by apply Hin.
  - split; [done | by intros (xs & [=] & _)].
  - cbn [np.objects].
    pose proof (object_minus_floats l (fst <$> bounds)) as Hlb.
    pose proof (object_minus_floats l (snd <$> bounds)) as Hub.
    rewrite length_fmap in Hlb, Hub. specialize (Hlb Hlen). specialize (Hub Hlen).
    destruct (mapM np.py_float64 l) as [xs|] eqn:Hxs.
    + destruct Hlb as [-> _]. destruct Hub as [_ ->].
      cbn [fmap result_fmap mbind result_bind]. rewrite !all_ge0_floats.
      assert (length xs = length bounds) as Hlen'.
      { apply length_mapM in Hxs. congruence. }
      pose proof (all_ge0_within id xs bounds Hlen') as Hin.
      rewrite list_fmap_id in Hin. split.
      * intros [= Hall]. eexists. split; [done |]. by apply Hin.
      * intros (xs' & [= <-] & Hall). f_equal. by apply Hin.
    + destruct Hlb as [err ->]. split; [done | by intros (xs & [=] & _)].
Qed.

Lemma stored_vector_length (p : pyval) (xs : list Q) :
  stored_vector p = Some xs → np.seq_len p = Some (length xs).
Proof.
  unfold stored_vector. destruct p; simpl; try done;
    intros Hxs; apply length_mapM in Hxs; by rewrite Hxs.
Qed.

(** The Euclidean test in terms of the point as numpy holds it. *)
Lemma euclidean_member_stored (bounds : list (Q * Q)) (p : pyval) :
  is_a_member (EuclideanDomain bounds) p = Ok true ↔
  bounds ≠ [] ∧
  ∃ xs, stored_vector p = Some xs ∧ length xs = length bounds ∧
        Forall2 within xs bounds.
Proof.
  cbn [is_a_member]. unfold stored_vector.
  destruct (py_seq p) as [l|] eqn:Hp; cycle 1.
  { assert (np.array p = np.Scalar) as Harr by (by destruct p).
    unfold is_within_bounds. rewrite Harr. simpl.
    split; [done | by intros (_ & xs & [=] & _)]. }
  pose proof (array_doubles p l Hp) as Harr. cbn [mbind option_bind].
  destruct (np.array p) as [|v|] eqn:Hv; [done | |].
  - destruct Harr as [Hsize Hdbl].
    destruct (decide (np.size v = length bounds)) as [Hlen|Hlen].
    + destruct bounds as [|r rows].
      * unfold is_within_bounds. rewrite Hv. simpl. rewrite bool_decide_true by done.
        simpl. split; [done | by intros [? _]].
      * rewrite (is_within_float_rows (r :: rows) p v); [| done..].
        rewrite Hdbl. split.
        -- intros (xs & Hxs & Hin). split; [done |]. exists xs.
           split; [done |]. split; [| done].
           apply length_mapM in Hxs. congruence.
        -- intros (_ & xs & Hxs & _ & Hin). by exists xs.
    + unfold is_within_bounds. rewrite Hv. simpl. rewrite bool_decide_false by done.
      split; [done |]. intros (_ & xs & Hxs & Hlen' & _).
      apply length_mapM in Hxs. congruence.
  - unfold is_within_bounds. rewrite Hv. simpl.
    split; [done |]. intros (_ & xs & Hxs & _). congruence.
Qed.




(** The membership scenarios of the specification. *)
Example euclid_scenario :
  let d := EuclideanDomain [(0, 1); (-1, 1)]%Q in
  is_a_member d (PyTuple [PyFloat 0.5; PyFloat 0]) = Ok true ∧
  is_a_member d (PyTuple [PyFloat 1; PyFloat 1]) = Ok true ∧
  is_a_member d (PyTuple [PyFloat 1.0001; PyInt 0]) = Ok false ∧
  is_a_member d (PyTuple [PyFloat 0.5]) = Ok false.
Proof. vm_compute. done. Qed.

Example integral_scenario :
  let d := IntegralDomain [(0, 3)] in
  is_a_member d (PyList [PyInt 2]) = Ok true ∧
  is_a_member d (PyList [PyFloat 2.5]) = Ok false ∧
  is_a_member d (PyList [PyInt 4]) = Ok false.
Proof. vm_compute. done. Qed.

(** Where [int64] arithmetic wraps and where doubles round. *)
Example wrap_and_round_scenario :
  is_a_member (IntegralDomain [(- 2 ^ 62, 2 ^ 62)]) (PyList [PyInt (2 ^ 62)]) = Ok false ∧
  is_a_member (IntegralDomain [(0, 3)]) (PyList [PyInt (2 ^ 63)]) = Ok false ∧
  is_a_member (IntegralDomain [(0, 2 ^ 63)]) (PyList [PyInt 1]) = Raise OverflowError ∧
  is_a_member (IntegralDomain []) (PyList []) = Raise IndexError ∧
  is_a_member (EuclideanDomain [(0, inject_Z (2 ^ 53))]%Q)
    (PyList [PyInt (2 ^ 53 + 3)]) = Ok false.
Proof. vm_compute. done. Qed.

(** The membership tests that cannot raise. *)
Lemma is_a_member_total (d : Domain) (p : pyval) :
  match d with
  | UniversalDomain | DiscreteDomain _ | ProdDiscreteDomain _ => True
  | _ => False
  end →
  ∃ b, is_a_member d p = Ok b.
Proof.
  destruct d as [| | |items|lol]; try done; intros _; simpl; eauto.
  destruct p; simpl; eauto; case_bool_decide; simpl; eauto.
Qed.

(** C2.  The integral membership test iterates over the point before any
    shape check: on a point that is a bare integer it raises a type error
    instead of returning false. *)
Theorem integral_is_a_member_scalar_raises :
  is_a_member (IntegralDomain [(0, 3)]) (PyInt 2) = Raise TypeError.
Proof. reflexivity. Qed.

(** The Euclidean test raises as well once the shape matches and the
    elements are not numbers. *)
Lemma euclidean_is_a_member_strings_raise :
  is_a_member (EuclideanDomain [(0, 1)]%Q) (PyList [PyStr "a"]) = Raise TypeError.
Proof. reflexivity. Qed.

(** * Properties of the capital clock *)

Section Capital.
Context {W C : Type} (env : Environment W).
Implicit Type self : Designer W C.

(** C3.  [_update_capital] iterates over the integer [len(qinfos)], so every
    call raises a type error before any receive time is written: no batch
    gets its times updated and no maximum is returned. *)
Theorem update_capital_raises self (qinfos : qinfos_arg) :
  _update_capital env self qinfos = Raise TypeError.
Proof. reflexivity. Qed.

(** C4 (as the code has it).  With a [capital_type] outside the three known
    ones nothing raises: [initialise_capital] leaves the designer as it is,
    [get_curr_spent_capital] returns [None] and [set_curr_spent_capital]
    does nothing. *)
Theorem unknown_capital_type_is_silent self (v : pyval) :
  capital_type (options self) ≠ "return_value" →
  capital_type (options self) ≠ "cputime" →
  capital_type (options self) ≠ "realtime" →
  initialise_capital env self = self ∧
  get_curr_spent_capital env self = Ok PyNone ∧
  set_curr_spent_capital v self = self.
Proof.
  intros H1%String.eqb_neq H2%String.eqb_neq H3%String.eqb_neq.
  unfold initialise_capital, get_curr_spent_capital, set_curr_spent_capital.
  by rewrite H1, H2, H3.
Qed.

(** On numbers [py2_ge] is the order of the rationals. *)
Lemma py2_ge_float (x a : Q) : py2_ge (PyFloat x) a = true ↔ (a <= x)%Q.
Proof. apply Qle_bool_iff. Qed.

(** C6.  [_terminate_now] returns true exactly when [step_idx >=
    max_num_steps] or the spent capital is at least [available_capital]; the
    "exceeded" line is written in the first case and only then, and
    otherwise the designer is left as it was. *)
Theorem terminate_now_iff self (spent : pyval) :
  get_curr_spent_capital env self = Ok spent →
  ∃ b self',
    _terminate_now env self = Ok (b, self') ∧
    (b = true ↔
       (max_num_steps (options self) <= inject_Z (step_idx self))%Q ∨
       py2_ge spent (available_capital self) = true) ∧
    ((max_num_steps (options self) <= inject_Z (step_idx self))%Q →
       self' = set_reporter (reporter self ++ [exceeded_message (options self)]) self) ∧
    (¬ (max_num_steps (options self) <= inject_Z (step_idx self))%Q → self' = self).
Proof.
  intros Hspent. unfold _terminate_now. rewrite Hspent. simpl.
  destruct (Qle_bool _ _) eqn:Hcap.
  - apply Qle_bool_iff in Hcap. eexists _, _. split; [done |]. tauto.
  - assert (¬ (max_num_steps (options self) <= inject_Z (step_idx self))%Q) as Hlt.
    { rewrite <- Qle_bool_iff. congruence. }
    eexists _, _. split; [done |]. tauto.
Qed.

End Capital.

(** * Properties of the in-progress lists *)

Section InProgress.
Context {W C : Type}.
Implicit Type self : Designer W C.

Lemma py_index_Some (x : pyval) (l : list pyval) (i : nat) :
  py_index x l = Some i →
  (∃ y, l !! i = Some y ∧ py_eqb y x = true) ∧
  (∀ j y, (j < i)%nat → l !! j = Some y → py_eqb y x = false).
Proof.
  revert i. induction l as [|y l IH]; intros i; simpl; [done |].
  destruct (py_eqb y x) eqn:Heq.
  - intros [= <-]. split; [eauto | intros; lia].
  - destruct (py_index x l) as [i'|]; simpl; [| done].
    intros [= <-]. destruct (IH i' eq_refl) as [Hhit Hbefore]. split; [done |].
    intros [|j] z Hj; simpl; [congruence | apply Hbefore; lia].
Qed.

Lemma py_index_None (x : pyval) (l : list pyval) :
  py_index x l = None ↔ ∀ y, y ∈ l → py_eqb y x = false.
Proof.
  induction l as [|y l IH]; simpl.
  - split; [intros _ z Hz; inversion Hz | done].
  - destruct (py_eqb y x) eqn:Heq.
    + split; [done |]. intros H. specialize (H y (list_elem_of_here _ _)). congruence.
    + destruct (py_index x l); simpl.
      * split; [done |]. intros H. exfalso.
        assert (Some n = None) as [=].
        apply IH. intros z Hz. apply H. by right.
      * split; [| done]. intros _ z [->|Hz]%elem_of_cons; [done |].
        by apply IH.
Qed.

Lemma py_index_lt (x : pyval) (l : list pyval) (i : nat) :
  py_index x l = Some i → (i < length l)%nat.
Proof.
  intros [(y & Hy & _) _]%py_index_Some. by eapply lookup_lt_Some.
Qed.

Lemma py_index_occurrences (x : pyval) (l : list pyval) :
  py_index x l = None ↔ occurrences x l = 0%nat.
Proof.
  induction l as [|y l IH]; simpl; [done |].
  destruct (py_eqb y x); simpl; [split; [done | lia] |].
  rewrite <- IH. destruct (py_index x l); simpl; split; congruence.
Qed.

Lemma occurrences_delete (x : pyval) (l : list pyval) (i : nat) :
  py_index x l = Some i →
  occurrences x (delete i l) = (occurrences x l - 1)%nat.
Proof.
  revert i. induction l as [|y l IH]; intros i; simpl; [done |].
  destruct (py_eqb y x) eqn:Heq.
  - intros [= <-]. simpl. lia.
  - destruct (py_index x l) as [i'|] eqn:Hidx; simpl; [| done].
    intros [= <-]. simpl. rewrite Heq. simpl. by apply IH.
Qed.

Lemma bind_Ok {A B} (m : result A) (f : A → result B) (b : B) :
  m ≫= f = Ok b ↔ ∃ a, m = Ok a ∧ f a = Ok b.
Proof.
  destruct m as [a|e|]; simpl; split; try done.
  - eauto.
  - by intros (a' & [= <-] & Hf).
  - by intros (a' & [=] & _).
  - by intros (a' & [=] & _).
Qed.

Lemma for_each_preserves {A S} (body : S → A → result S) (P : S → Prop) :
  (∀ st x st', P st → body st x = Ok st' → P st') →
  ∀ xs st st', P st → for_each body xs st = Ok st' → P st'.
Proof.
  intros Hbody xs. induction xs as [|x xs IH]; intros st st' HP; simpl.
  - by intros [= <-].
  - intros (st1 & H1 & Hrest)%bind_Ok. eauto.
Qed.

Lemma add_to_in_progress_aligned self (qinfos : list Namespace) self' :
  in_progress_aligned self →
  _add_to_in_progress self qinfos = Ok self' →
  in_progress_aligned self'.
Proof.
  unfold _add_to_in_progress. apply for_each_preserves.
  intros st q st' Hst (step & _ & (point & _ & [= <-])%bind_Ok)%bind_Ok.
  unfold in_progress_aligned in *. simpl. rewrite !length_app, Hst. done.
Qed.

Lemma remove_from_in_progress_aligned self (qinfo : Namespace) self' :
  in_progress_aligned self →
  _remove_from_in_progress self qinfo = Ok self' →
  in_progress_aligned self'.
Proof.
  unfold _remove_from_in_progress, in_progress_aligned.
  intros Hlen (step & _ & H)%bind_Ok.
  destruct (py_index step (eval_idxs_in_progress self)) as [i|] eqn:Hidx; [| done].
  apply py_index_lt in Hidx. unfold py_pop in H.
  rewrite bool_decide_true in H by done. simpl in H.
  rewrite bool_decide_true in H by lia. simpl in H.
  injection H as <-. simpl. rewrite !length_delete; [lia | ..].
  - apply lookup_lt_is_Some. lia.
  - apply lookup_lt_is_Some. lia.
Qed.

(** C8 (as the code has it).  Removing a completed qinfo takes the pair at
    the first position whose step index equals the qinfo's [step_idx] out of
    both lists, whether that index is in the list once or several times:
    one occurrence goes, the others stay, and nothing is raised.  The step
    raises (a value error) only when the index is not in the list at all. *)
Theorem remove_from_in_progress_first self (qinfo : Namespace) (step : pyval) :
  qinfo !! "step_idx" = Some step →
  in_progress_aligned self →
  (occurrences step (eval_idxs_in_progress self) = 0%nat →
     _remove_from_in_progress self qinfo = Raise ValueError) ∧
  ((0 < occurrences step (eval_idxs_in_progress self))%nat →
     ∃ i,
       py_index step (eval_idxs_in_progress self) = Some i ∧
       _remove_from_in_progress self qinfo =
         Ok (set_eval_points_in_progress (delete i (eval_points_in_progress self))
               (set_eval_idxs_in_progress (delete i (eval_idxs_in_progress self)) self)) ∧
       occurrences step (delete i (eval_idxs_in_progress self)) =
         (occurrences step (eval_idxs_in_progress self) - 1)%nat).
Proof.
  intros Hstep Hlen. unfold _remove_from_in_progress, getattr. rewrite Hstep. simpl.
  split.
  - intros Hnone%py_index_occurrences. by rewrite Hnone.
  - intros Hsome.
    destruct (py_index step (eval_idxs_in_progress self)) as [i|] eqn:Hidx.
    + exists i. split; [done |]. split; [| by apply occurrences_delete].
      pose proof (py_index_lt _ _ _ Hidx) as Hi. unfold py_pop.
      unfold in_progress_aligned in Hlen.
      case_bool_decide; [simpl | lia]. case_bool_decide; [done | lia].
    + apply py_index_occurrences in Hidx. lia.
Qed.

End InProgress.

(** * Properties of the history *)

Section History.
Context {W C : Type} (pol : Policy W C) (EVAL_ERROR_CODE : pyval).
Implicit Type self : Designer W C.

Lemma getattr_Ok {A} (o : gmap string A) (name : string) (v : A) :
  getattr o name = Ok v ↔ o !! name = Some v.
Proof. unfold getattr. destruct (o !! name); split; congruence. Qed.

(** The shape of a call of [_update_history] that returns. *)
Lemma update_history_Ok self (qinfo : Namespace) self' :
  _update_history pol EVAL_ERROR_CODE self qinfo = Ok self' →
  ∃ val cols,
    qinfo !! "val" = Some val ∧
    for_each (copy_field qinfo)
      (map_to_list (to_copy_from_qinfo_to_history self))
      (columns (history self)) = Ok cols ∧
    num_succ_queries self' =
      num_succ_queries self + (if py_neb val EVAL_ERROR_CODE then 1 else 0) ∧
    query_qinfos (history self') = query_qinfos (history self) ++ [qinfo] ∧
    columns (history self') = cols ∧
    to_copy_from_qinfo_to_history self' = to_copy_from_qinfo_to_history self.
Proof.
  unfold _update_history.
  intros (worker_id & _ & (jobs & _ & (step & _ & (cols & Hcols &
    (c1 & _ & (c2 & _ & (val & Hval%getattr_Ok & H)%bind_Ok)%bind_Ok)%bind_Ok
    )%bind_Ok)%bind_Ok)%bind_Ok)%bind_Ok.
  exists val, cols. simpl in Hcols. split; [done |]. split; [done |].
  destruct (py_neb val EVAL_ERROR_CODE); injection H as <-; simpl;
    repeat split; lia.
Qed.

Lemma num_successful_app (qs1 qs2 : list Namespace) :
  num_successful EVAL_ERROR_CODE (qs1 ++ qs2) =
  num_successful EVAL_ERROR_CODE qs1 + num_successful EVAL_ERROR_CODE qs2.
Proof. unfold num_successful. rewrite List.filter_app, length_app. lia. Qed.

(** C5.  A call of [_update_history] that returns has added one to
    [num_succ_queries] exactly when the qinfo's [val] differs from
    [EVAL_ERROR_CODE], and has appended the qinfo to the history; so after
    any sequence of recorded completions the counter has grown by the
    number of qinfos whose [val] is not the sentinel, and a counter that
    equalled the number of such history entries before equals it after. *)
Theorem num_succ_queries_counts self :
  (∀ qinfo self',
     _update_history pol EVAL_ERROR_CODE self qinfo = Ok self' →
     ∃ val, qinfo !! "val" = Some val ∧
       (py_neb val EVAL_ERROR_CODE = true →
          num_succ_queries self' = num_succ_queries self + 1) ∧
       (py_neb val EVAL_ERROR_CODE = false →
          num_succ_queries self' = num_succ_queries self)) ∧
  (∀ qinfos self',
     for_each (_update_history pol EVAL_ERROR_CODE) qinfos self = Ok self' →
     num_succ_queries self' =
       num_succ_queries self + num_successful EVAL_ERROR_CODE qinfos ∧
     query_qinfos (history self') = query_qinfos (history self) ++ qinfos ∧
     (succ_queries_counted EVAL_ERROR_CODE self →
      succ_queries_counted EVAL_ERROR_CODE self')).
Proof.
  split.
  - intros qinfo self' (val & cols & Hval & _ & Hnum & _)%update_history_Ok.
    exists val. split; [done |]. split; intros Hne; rewrite Hne in Hnum; lia.
  - intros qinfos. revert self.
    induction qinfos as [|qinfo qinfos IH]; intros self self'; simpl.
    + intros [= <-]. unfold num_successful. simpl.
      rewrite app_nil_r. split; [lia | done].
    + intros (self1 & Hstep & Hrest)%bind_Ok.
      apply update_history_Ok in Hstep
        as (val & cols & Hval & _ & Hnum & Hqs & _).
      destruct (IH self1 self' Hrest) as (Hnum' & Hqs' & _).
      assert (num_succ_queries self' =
              num_succ_queries self +
              num_successful EVAL_ERROR_CODE (qinfo :: qinfos)) as Htotal.
      { rewrite Hnum', Hnum.
        change (qinfo :: qinfos) with ([qinfo] ++ qinfos).
        rewrite num_successful_app. unfold num_successful at 2. simpl.
        unfold successful. rewrite Hval.
        destruct (py_neb val EVAL_ERROR_CODE); simpl; lia. }
      assert (query_qinfos (history self') =
              query_qinfos (history self) ++ qinfo :: qinfos) as Hhist.
      { rewrite Hqs', Hqs, <- app_assoc. done. }
      split; [done |]. split; [done |].
      unfold succ_queries_counted. intros Hcounted.
      rewrite Htotal, Hhist, num_successful_app, Hcounted. done.
Qed.

(** The loop over the field-to-history table either completes or fails
    with an attribute error. *)
Lemma copy_fields_result (qinfo : Namespace) (l : list (string * string))
    (cols : gmap string (list pyval)) :
  returns (for_each (copy_field qinfo) l cols) ∨
  for_each (copy_field qinfo) l cols = Raise AttributeError.
Proof.
  revert cols. induction l as [|[name hname] l IH]; intros cols; simpl.
  - left. by eexists.
  - unfold getattr. destruct (cols !! hname) as [xs|]; simpl; [| by right].
    destruct (qinfo !! name) as [v|]; simpl; [| by right]. apply IH.
Qed.

Lemma copy_fields_missing (qinfo : Namespace) (l : list (string * string))
    (cols : gmap string (list pyval)) (name hname : string) :
  (name, hname) ∈ l → qinfo !! name = None →
  for_each (copy_field qinfo) l cols = Raise AttributeError.
Proof.
  intros Hin Hnone.
  destruct (copy_fields_result qinfo l cols) as [[cols' Hok]|]; [| done].
  exfalso. revert cols Hok.
  induction l as [|[name' hname'] l IH]; intros cols; simpl.
  - inversion Hin.
  - intros (cols1 & Hfirst & Hrest)%bind_Ok.
    apply elem_of_cons in Hin as [[= <- <-]|Hin]; [| eauto].
    apply bind_Ok in Hfirst as (xs & _ & (v & Hv%getattr_Ok & _)%bind_Ok).
    congruence.
Qed.

(** When it completes, every listed column has gained the value of its
    field, and no other column has changed. *)
Lemma copy_fields_lookup (qinfo : Namespace) (l : list (string * string))
    (cols cols' : gmap string (list pyval)) :
  NoDup l.*2 →
  for_each (copy_field qinfo) l cols = Ok cols' →
  (∀ name hname, (name, hname) ∈ l →
     ∃ xs v, cols !! hname = Some xs ∧ qinfo !! name = Some v ∧
             cols' !! hname = Some (xs ++ [v])) ∧
  (∀ hname, hname ∉ l.*2 → cols' !! hname = cols !! hname).
Proof.
  revert cols. induction l as [|[name0 hname0] l IH]; intros cols Hnodup; simpl.
  - intros [= <-]. split; [intros ? ? Hin; inversion Hin | done].
  - apply NoDup_cons in Hnodup as [Hfresh Hnodup].
    intros (cols1 & Hfirst & Hrest)%bind_Ok.
    apply bind_Ok in Hfirst
      as (xs0 & Hxs0%getattr_Ok & (v0 & Hv0%getattr_Ok & [= <-])%bind_Ok).
    destruct (IH _ Hnodup Hrest) as [Hin Hout]. split.
    + intros name hname [[= -> ->]|Hmem]%elem_of_cons.
      * exists xs0, v0. rewrite (Hout hname0 Hfresh), lookup_insert_eq. done.
      * destruct (Hin name hname Hmem) as (xs & v & Hxs & Hv & Hnew).
        exists xs, v. split; [| done].
        rewrite lookup_insert_ne in Hxs; [done |].
        intros ->. apply Hfresh. apply list_elem_of_fmap. by exists (name, hname).
    + intros hname Hnotin. rewrite not_elem_of_cons in Hnotin.
      destruct Hnotin as [Hne Hnotin]. rewrite (Hout hname Hnotin).
      by rewrite lookup_insert_ne.
Qed.

Lemma copy_fields_returns (qinfo : Namespace) (l : list (string * string))
    (cols : gmap string (list pyval)) :
  (∀ name hname, (name, hname) ∈ l → is_Some (qinfo !! name)) →
  (∀ name hname, (name, hname) ∈ l → is_Some (cols !! hname)) →
  returns (for_each (copy_field qinfo) l cols).
Proof.
  revert cols. induction l as [|[name0 hname0] l IH]; intros cols Hq Hcols; simpl.
  - by eexists.
  - destruct (Hq name0 hname0) as [v Hv]; [by left |].
    destruct (Hcols name0 hname0) as [xs Hxs]; [by left |].
    unfold getattr. rewrite Hxs, Hv. simpl. apply IH.
    + intros name hname Hin. apply (Hq name hname). by right.
    + intros name hname Hin.
      destruct (decide (hname0 = hname)) as [->|Hne].
      * rewrite lookup_insert_eq. by eexists.
      * rewrite lookup_insert_ne by done. apply (Hcols name hname). by right.
Qed.

(** C10 (as the code has it).  A qinfo without [worker_id] fails with an
    attribute error.  A qinfo whose [worker_id] is a key of
    [job_idxs_of_workers] and which lacks any registered field fails with an
    attribute error too.  When the [worker_id] is a key, every registered
    field is present and the two child hooks return, the call returns and
    each history column of the table has gained exactly one element, the
    value of its field, the other columns being unchanged; so columns of one
    length keep one length.  With a [worker_id] that is not a key the lookup
    fails first, whatever else is missing or present: with a key error when
    the [worker_id] is hashable, with a type error when it is not (a list,
    or a tuple that holds one). *)
Theorem update_history_fields self (qinfo : Namespace) :
  let table := to_copy_from_qinfo_to_history self in
  let cols := columns (history self) in
  (qinfo !! "worker_id" = None →
   _update_history pol EVAL_ERROR_CODE self qinfo = Raise AttributeError) ∧
  (∀ worker_id jobs name hname,
     qinfo !! "worker_id" = Some worker_id →
     dict_getitem (job_idxs_of_workers (history self)) worker_id = Ok jobs →
     table !! name = Some hname → qinfo !! name = None →
     _update_history pol EVAL_ERROR_CODE self qinfo = Raise AttributeError) ∧
  (∀ worker_id jobs,
     qinfo !! "worker_id" = Some worker_id →
     dict_getitem (job_idxs_of_workers (history self)) worker_id = Ok jobs →
     base_table ⊆ table →
     map_Forall (λ name _, is_Some (qinfo !! name)) table →
     map_Forall (λ _ hname, is_Some (cols !! hname)) table →
     NoDup (map_to_list table).*2 →
     (∀ d, returns (_problem_update_history pol d qinfo)) →
     (∀ d, returns (_policy_update_history pol d qinfo)) →
     ∃ self',
       _update_history pol EVAL_ERROR_CODE self qinfo = Ok self' ∧
       (∀ name hname, table !! name = Some hname →
          ∃ xs v, cols !! hname = Some xs ∧ qinfo !! name = Some v ∧
                  columns (history self') !! hname = Some (xs ++ [v])) ∧
       (∀ hname, (∀ name, table !! name ≠ Some hname) →
          columns (history self') !! hname = cols !! hname) ∧
       (∀ n,
          (∀ name hname xs, table !! name = Some hname →
             cols !! hname = Some xs → length xs = n) →
          (∀ name hname xs, table !! name = Some hname →
             columns (history self') !! hname = Some xs → length xs = S n))) ∧
  (∀ worker_id,
     qinfo !! "worker_id" = Some worker_id →
     hashable worker_id = true →
     dict_find (job_idxs_of_workers (history self)) worker_id = None →
     _update_history pol EVAL_ERROR_CODE self qinfo = Raise KeyError) ∧
  (∀ worker_id,
     qinfo !! "worker_id" = Some worker_id →
     hashable worker_id = false →
     _update_history pol EVAL_ERROR_CODE self qinfo = Raise TypeError).
Proof.
  intros table cols. split; [| split; [| split; [| split]]]; cycle 3.
  - intros worker_id Hw Hhash Hfind.
    unfold _update_history, getattr, dict_getitem. rewrite Hw. simpl.
    by rewrite Hhash, Hfind.
  - intros worker_id Hw Hhash.
    unfold _update_history, getattr, dict_getitem. rewrite Hw. simpl.
    by rewrite Hhash.
  - intros Hw. unfold _update_history, getattr. by rewrite Hw.
  - intros worker_id jobs name hname Hw Hjobs Hreg Hmissing.
    unfold _update_history, getattr. rewrite Hw. simpl. rewrite Hjobs. simpl.
    destruct (qinfo !! "step_idx") as [step|]; simpl; [| done].
    erewrite copy_fields_missing; [done | | exact Hmissing].
    apply elem_of_map_to_list. exact Hreg.
  - intros worker_id jobs Hw Hjobs Hbase Hfields Hcols Hnodup Hprob Hpol.
    assert (is_Some (qinfo !! "step_idx")) as [step Hstep].
    { apply (Hfields "step_idx" "query_step_idxs").
      by apply (lookup_weaken base_table). }
    assert (is_Some (qinfo !! "val")) as [val Hval].
    { apply (Hfields "val" "query_vals"). by apply (lookup_weaken base_table). }
    destruct (copy_fields_returns qinfo (map_to_list table) cols) as [cols' Hcopy].
    { intros name hname Hin%elem_of_map_to_list. exact (Hfields name hname Hin). }
    { intros name hname Hin%elem_of_map_to_list. exact (Hcols name hname Hin). }
    destruct (copy_fields_lookup qinfo _ cols cols' Hnodup Hcopy) as [Hin Hout].
    assert (∀ name hname, table !! name = Some hname →
              ∃ xs v, cols !! hname = Some xs ∧ qinfo !! name = Some v ∧
                      cols' !! hname = Some (xs ++ [v])) as Hgain.
    { intros name hname Hreg. apply Hin. by apply elem_of_map_to_list. }
    assert (∃ self', _update_history pol EVAL_ERROR_CODE self qinfo = Ok self' ∧
                     columns (history self') = cols') as (self' & Hcall & Hcols').
    { unfold _update_history, getattr. rewrite Hw. simpl. rewrite Hjobs. simpl.
      rewrite Hstep. simpl. fold table cols. rewrite Hcopy. simpl.
      match goal with
      | |- context [_problem_update_history pol ?d qinfo] =>
          destruct (Hprob d) as [c1 Hc1]; rewrite Hc1
      end. simpl.
      match goal with
      | |- context [_policy_update_history pol ?d qinfo] =>
          destruct (Hpol d) as [c2 Hc2]; rewrite Hc2
      end. simpl. rewrite Hval. simpl.
      destruct (py_neb val EVAL_ERROR_CODE); eexists; split; done. }
    exists self'. rewrite Hcols'. split; [done |]. split; [done |]. split.
    + intros hname Hunreg. apply Hout. intros Hmem.
      apply list_elem_of_fmap in Hmem as ([name hname'] & -> & Hmem).
      apply elem_of_map_to_list in Hmem. by apply (Hunreg name).
    + intros n Hlen name hname xs' Hreg Hxs'.
      destruct (Hgain name hname Hreg) as (xs & v & Hxs & _ & Hnew).
      rewrite Hnew in Hxs'. injection Hxs' as <-.
      rewrite length_app, (Hlen name hname xs Hreg Hxs). simpl. lia.
Qed.

End History.

(** * Properties of the set-up *)

Section SetUp.
Context {W C : Type} (env : Environment W) (pol : Policy W C).
Implicit Type self : Designer W C.


End SetUp.

(** * Runs on the synthetic worker pool *)

(** C1.  The loop over the initial queries adds one to [step_idx] before
    each dispatch, the asynchronous routine after it: with two workers and
    two initial queries, the first query of the main loop is stamped with
    step index 2 while the second initial query, stamped 2 as well, is still
    in progress, so [eval_idxs_in_progress] holds the same index twice. *)
Theorem first_async_pass_repeats_step_idx :
  eval_idxs_in_progress <$> Sim.first_async_pass = Ok [PyInt 2; PyInt 2] ∧
  eval_points_in_progress <$> Sim.first_async_pass = Ok [PyFloat 0.5; PyFloat 0.5] ∧
  step_idx <$> Sim.first_async_pass = Ok 3.
Proof. vm_compute. done. Qed.

(** The initial queries alone get the indices 1 and 2. *)
Lemma initial_queries_step_idxs :
  eval_idxs_in_progress <$> Sim.initialised "return_value" 2 [PyInt 0; PyInt 1] 10
  = Ok [PyInt 1; PyInt 2].
Proof. vm_compute. done. Qed.

(** With [capital_type = 'wallclock'] construction and initialisation go
    through: nothing is raised, and [initialise_capital] changes nothing. *)
Lemma unknown_capital_type_initialises :
  let self := Sim.reached (Sim.designer "wallclock" 2 [PyInt 0; PyInt 1]) in
  Sim.designer "wallclock" 2 [PyInt 0; PyInt 1] = Ok self ∧
  initialise_capital Sim.env self = self ∧
  returns (Sim.initialised "wallclock" 2 [PyInt 0; PyInt 1] 10).
Proof.
  split; [vm_compute; reflexivity |]. split; [vm_compute; reflexivity |].
  eexists. vm_compute. reflexivity.
Qed.

Lemma unknown_capital_type_is_silent_witness :
  let self := Sim.reached (Sim.designer "wallclock" 2 [PyInt 0; PyInt 1]) in
  initialise_capital Sim.env self = self ∧
  get_curr_spent_capital Sim.env self = Ok PyNone ∧
  set_curr_spent_capital (PyFloat 1) self = self.
Proof.
  apply (unknown_capital_type_is_silent Sim.env
           (Sim.reached (Sim.designer "wallclock" 2 [PyInt 0; PyInt 1])));
    vm_compute; discriminate.
Defined.

Lemma terminate_now_iff_witness :
  let self := Sim.reached (Sim.initialised "return_value" 2 [PyInt 0; PyInt 1] 10) in
  ∃ b self',
    _terminate_now Sim.env self = Ok (b, self') ∧
    (b = true ↔
       (max_num_steps (options self) <= inject_Z (step_idx self))%Q ∨
       py2_ge (PyFloat 0) (available_capital self) = true) ∧
    ((max_num_steps (options self) <= inject_Z (step_idx self))%Q →
       self' = set_reporter (reporter self ++ [exceeded_message (options self)]) self) ∧
    (¬ (max_num_steps (options self) <= inject_Z (step_idx self))%Q → self' = self).
Proof.
  apply (terminate_now_iff Sim.env
           (Sim.reached (Sim.initialised "return_value" 2 [PyInt 0; PyInt 1] 10))
           (PyFloat 0)).
  vm_compute. reflexivity.
Defined.

(** With step index 2 twice in progress, removing a qinfo with that index
    raises nothing and leaves one of the two. *)
Lemma remove_duplicate_is_silent :
  let self := Sim.reached Sim.first_async_pass in
  occurrences (PyInt 2) (eval_idxs_in_progress self) = 2%nat ∧
  eval_idxs_in_progress <$>
    _remove_from_in_progress self {["step_idx" := PyInt 2]} = Ok [PyInt 2].
Proof. vm_compute. done. Qed.

Lemma remove_from_in_progress_first_witness :
  let self := Sim.reached Sim.first_async_pass in
  let qinfo : Namespace := {["step_idx" := PyInt 2]} in
  (occurrences (PyInt 2) (eval_idxs_in_progress self) = 0%nat →
     _remove_from_in_progress self qinfo = Raise ValueError) ∧
  ((0 < occurrences (PyInt 2) (eval_idxs_in_progress self))%nat →
     ∃ i,
       py_index (PyInt 2) (eval_idxs_in_progress self) = Some i ∧
       _remove_from_in_progress self qinfo =
         Ok (set_eval_points_in_progress (delete i (eval_points_in_progress self))
               (set_eval_idxs_in_progress (delete i (eval_idxs_in_progress self)) self)) ∧
       occurrences (PyInt 2) (delete i (eval_idxs_in_progress self)) =
         (occurrences (PyInt 2) (eval_idxs_in_progress self) - 1)%nat).
Proof.
  apply (remove_from_in_progress_first (Sim.reached Sim.first_async_pass)
           {["step_idx" := PyInt 2]} (PyInt 2)).
  - vm_compute. reflexivity.
  - vm_compute. reflexivity.
Defined.



(** A qinfo with every registered field, sent back under a worker id the
    pool does not have: the call fails with a key error and appends nothing;
    under a worker id that is a list it fails with a type error. *)
Lemma unknown_worker_id_is_a_key_error :
  let self := Sim.reached (Sim.designer "return_value" 2 [PyInt 0; PyInt 1]) in
  let qinfo := Sim.completed (PyInt 7) (PyFloat 0.5) in
  map_Forall (λ name _, is_Some (qinfo !! name)) (to_copy_from_qinfo_to_history self) ∧
  _update_history (Sim.policy false) Sim.EVAL_ERROR_CODE self qinfo = Raise KeyError ∧
  _update_history (Sim.policy false) Sim.EVAL_ERROR_CODE self (delete "point" qinfo)
    = Raise KeyError ∧
  _update_history (Sim.policy false) Sim.EVAL_ERROR_CODE self
    (<["worker_id" := PyList [PyInt 0]]> qinfo) = Raise TypeError.
Proof.
  split; [| vm_compute; done].
  apply map_Forall_to_list. vm_compute. repeat (constructor; [by eexists |]).
  constructor.
Qed.

Lemma num_succ_queries_counts_witness :
  let self := Sim.reached (Sim.designer "return_value" 2 [PyInt 0; PyInt 1]) in
  let qinfos := [Sim.completed (PyInt 0) (PyFloat 0.5);
                 Sim.completed (PyInt 1) Sim.EVAL_ERROR_CODE;
                 Sim.completed (PyInt 0) (PyFloat 0.25)] in
  let self' :=
    Sim.reached
      (for_each (_update_history (Sim.policy false) Sim.EVAL_ERROR_CODE) qinfos self) in
  num_succ_queries self' =
    num_succ_queries self + num_successful Sim.EVAL_ERROR_CODE qinfos ∧
  query_qinfos (history self') = query_qinfos (history self) ++ qinfos ∧
  (succ_queries_counted Sim.EVAL_ERROR_CODE self →
   succ_queries_counted Sim.EVAL_ERROR_CODE self').
Proof.
  apply (proj2 (num_succ_queries_counts (Sim.policy false) Sim.EVAL_ERROR_CODE
                  (Sim.reached (Sim.designer "return_value" 2 [PyInt 0; PyInt 1])))).
  vm_compute. reflexivity.
Defined.

(** Three completions, one of them an evaluation error: two successes. *)
Lemma eval_error_is_not_counted :
  num_succ_queries <$>
    (self ← Sim.designer "return_value" 2 [PyInt 0; PyInt 1];
     for_each (_update_history (Sim.policy false) Sim.EVAL_ERROR_CODE)
       [Sim.completed (PyInt 0) (PyFloat 0.5);
        Sim.completed (PyInt 1) Sim.EVAL_ERROR_CODE;
        Sim.completed (PyInt 0) (PyFloat 0.25)] self)
  = Ok 2.
Proof. vm_compute. done. Qed.

Lemma update_history_fields_witness :
  let self := Sim.reached (Sim.designer "return_value" 2 [PyInt 0; PyInt 1]) in
  let qinfo := Sim.completed (PyInt 0) (PyFloat 0.5) in
  ∃ self',
    _update_history (Sim.policy false) Sim.EVAL_ERROR_CODE self qinfo = Ok self' ∧
    (∀ name hname, to_copy_from_qinfo_to_history self !! name = Some hname →
       ∃ xs v, columns (history self) !! hname = Some xs ∧ qinfo !! name = Some v ∧
               columns (history self') !! hname = Some (xs ++ [v])).
Proof.
  intros self qinfo.
  destruct (proj1 (proj2 (proj2 (update_history_fields (Sim.policy false)
                                   Sim.EVAL_ERROR_CODE self qinfo))) (PyInt 0) [])
    as (self' & Hcall & Hgain & _).
  - vm_compute. reflexivity.
  - vm_compute. reflexivity.
  - assert (to_copy_from_qinfo_to_history self = base_table) as ->
      by (vm_compute; reflexivity).
    done.
  - apply map_Forall_to_list. vm_compute. repeat (constructor; [by eexists |]).
    constructor.
  - apply map_Forall_to_list. vm_compute. repeat (constructor; [by eexists |]).
    constructor.
  - compute_done.
  - intros d. by eexists.
  - intros d. by eexists.
  - exists self'. split; assumption.
Defined.

(** * Further properties of the domains *)

Lemma wrap64_between (k lo hi : Z) :
  machine_int k = true → - 2 ^ 62 ≤ lo → lo ≤ hi → hi < 2 ^ 62 →
  (0 <=? np.wrap64 (k - lo)) && (0 <=? np.wrap64 (hi - k)) = true ↔ lo ≤ k ≤ hi.
Proof.
  unfold machine_int, np.wrap64. intros Hk Hlo Hle Hhi.
  apply andb_true_iff in Hk as [Hk1 Hk2].
  apply Z.leb_le in Hk1. apply Z.ltb_lt in Hk2.
  rewrite andb_true_iff, !Z.leb_le.
  change (2 ^ 64) with 18446744073709551616.
  change (2 ^ 63) with 9223372036854775808 in *.
  change (2 ^ 62) with 4611686018427387904 in *.
  Z.div_mod_to_equations. lia.
Qed.

Lemma between_machine_int (k lo hi : Z) :
  - 2 ^ 62 ≤ lo → hi < 2 ^ 62 → lo ≤ k ≤ hi → machine_int k = true.
Proof.
  unfold machine_int. intros Hlo Hhi Hk.
  apply andb_true_iff. rewrite Z.leb_le, Z.ltb_lt.
  change (2 ^ 63) with 9223372036854775808.
  change (2 ^ 62) with 4611686018427387904 in *. lia.
Qed.

Lemma all_ge0_between (ks : list Z) (bounds : list (Z * Z)) :
  length ks = length bounds →
  Forall (λ k, machine_int k = true) ks → Forall narrow bounds →
  forallb (Z.leb 0) (zip_with (λ k m, np.wrap64 (k - m)) ks (fst <$> bounds))
  && forallb (Z.leb 0) (zip_with (λ k m, np.wrap64 (k - m)) (snd <$> bounds) ks) = true
  ↔ Forall2 (λ k b, fst b ≤ k ≤ snd b) ks bounds.
Proof.
  revert bounds. induction ks as [|k ks IH]; intros [|[lo hi] bounds] Hlen Hks Hbs;
    simplify_eq/=.
  - split; [constructor | done].
  - inversion Hks as [|? ? Hk Hks']; subst.
    inversion Hbs as [|? ? (Hlo & Hle & Hhi) Hbs']; subst. simpl in *.
    specialize (IH bounds Hlen Hks' Hbs').
    pose proof (wrap64_between k lo hi Hk Hlo Hle Hhi) as Hw.
    rewrite andb_true_iff in Hw, IH. rewrite !andb_true_iff. split.
    + intros [[H1 H2] [H3 H4]]. constructor; [apply Hw; done | apply IH; done].
    + intros H. inversion H as [|? ? ? ? Hin Hrest]; subst.
      apply Hw in Hin. apply IH in Hrest. tauto.
Qed.

Lemma int_rows_narrow (bounds : list (Z * Z)) :
  Forall narrow bounds → np.int_rows bounds = Ok (np.IntRows bounds).
Proof.
  intros Hbs. unfold np.int_rows.
  assert (forallb (λ b, machine_int b.1 && machine_int b.2) bounds = true) as ->; [| done].
  induction Hbs as [|[lo hi] bounds (Hlo & Hle & Hhi) _ IH]; [done |]. simpl in *.
  rewrite IH, (between_machine_int lo lo hi), (between_machine_int hi lo hi); [done | lia..].
Qed.

Lemma py_int64_int (v : pyval) (k : Z) :
  np.py_int64 v = Some k ↔ py_int v = Some k ∧ machine_int k = true.
Proof.
  unfold np.py_int64. destruct (py_int v) as [n|]; simpl.
  - destruct (machine_int n) eqn:Hn; split.
    + intros [= <-]. done.
    + intros [[= <-] _]. done.
    + done.
    + intros [[= <-] Hk]. congruence.
  - split; [done | by intros [[=] _]].
Qed.

Lemma is_int_int64 (v : pyval) : is_int v = true ↔ is_Some (np.py_int64 v).
Proof.
  unfold np.py_int64.
  destruct v as [|b|n| | | |]; simpl;
    try (split; [done | by intros [? [=]]]).
  - destruct b; split; [by eexists | done | by eexists | done].
  - destruct (machine_int n); split; [by eexists | done | done | by intros [? [=]]].
Qed.

Lemma all_ints_mapM (l : list pyval) :
  forallb id (is_int <$> l) = true ↔ is_Some (mapM np.py_int64 l).
Proof.
  rewrite mapM_is_Some. induction l as [|v l IH]; simpl.
  - split; [constructor | done].
  - rewrite andb_true_iff, IH, Forall_cons. unfold id, compose. by rewrite is_int_int64.
Qed.

Lemma mapM_int64_int (l : list pyval) (ks : list Z) :
  mapM np.py_int64 l = Some ks ↔
  mapM py_int l = Some ks ∧ Forall (λ k, machine_int k = true) ks.
Proof.
  rewrite !mapM_Some. split.
  - induction 1 as [|v k l ks Hv _ [IH1 IH2]]; [by split; constructor |].
    apply py_int64_int in Hv as [Hv Hk]. split; by constructor.
  - intros [Hall Hks]. induction Hall as [|v k l ks Hv _ IH]; [constructor |].
    inversion Hks; subst. constructor; [by apply py_int64_int | by apply IH].
Qed.

Lemma int64_array (p : pyval) (l : list pyval) (ks : list Z) :
  py_seq p = Some l → l ≠ [] → mapM np.py_int64 l = Some ks →
  np.array p = np.Vector (np.Int64 ks).
Proof.
  intros Hp Hne Hks.
  assert (existsb np.is_sequence l = false ∧ existsb np.is_object l = false ∧
          existsb np.is_str l = false) as (Hseq & Hobj & Hstr).
  { clear Hp Hne. apply mapM_Some in Hks.
    induction Hks as [|v k l ks Hv _ (IH1 & IH2 & IH3)]; [done |]. simpl.
    rewrite IH1, IH2, IH3, !orb_false_r.
    apply py_int64_int in Hv as [Hv Hk].
    destruct v as [|b|n| | | |]; simplify_eq/=; try done.
    repeat split. unfold machine_int in Hk.
    apply andb_true_iff in Hk as [Hk1 Hk2]. rewrite Hk1. simpl.
    apply Z.ltb_lt in Hk2. apply negb_false_iff, Z.ltb_lt.
    change (2 ^ 63) with 9223372036854775808 in *.
    change (2 ^ 64) with 18446744073709551616. lia. }
  destruct p; try done; simpl in Hp; injection Hp as ->; cbn [np.array];
    rewrite bool_decide_false, Hseq, Hobj, Hstr, Hks by done; done.
Qed.

Lemma is_within_int_rows (bounds : list (Z * Z)) (p : pyval) (ks : list Z) :
  bounds ≠ [] → Forall narrow bounds →
  np.array p = np.Vector (np.Int64 ks) → Forall (λ k, machine_int k = true) ks →
  is_within_bounds (np.IntRows bounds) p = Ok true ↔
  length ks = length bounds ∧ Forall2 (λ k b, fst b ≤ k ≤ snd b) ks bounds.
Proof.
  intros Hne Hbs Harr Hks. unfold is_within_bounds. rewrite Harr.
  cbn [np.shape_is np.rows np.size]. case_bool_decide as Hlen; [| split; [done | tauto]].
  destruct bounds as [|r rows]; [done |].
  cbn [np.column mbind result_bind np.subtract np.all_ge0].
  set (bounds := r :: rows) in *.
  pose proof (all_ge0_between ks bounds Hlen Hks Hbs) as Hin. split.
  - intros [= Hall]. split; [done | by apply Hin].
  - intros [_ Hall]. f_equal. by apply Hin.
Qed.

(** X1.  For an integral domain with at least one bound row, every row
    with [lo <= hi] and within [-2^62, 2^62), [is_a_member] returns true
    exactly when the point is a list or tuple of integers, as many as there
    are bound rows, each within its row's bounds, both ends included. *)
Theorem integral_is_a_member_iff (bounds : list (Z * Z)) (p : pyval) :
  bounds ≠ [] →
  Forall narrow bounds →
  is_a_member (IntegralDomain bounds) p = Ok true ↔
  ∃ ks, int_vector p = Some ks ∧ length ks = length bounds ∧
        Forall2 (λ k b, fst b ≤ k ≤ snd b) ks bounds.
Proof.
  intros Hne Hbs. cbn [is_a_member]. rewrite (int_rows_narrow bounds Hbs).
  cbn [mbind result_bind]. unfold int_vector.
  destruct (py_seq p) as [l|] eqn:Hp; cycle 1.
  { cbn [mbind option_bind]. destruct p as [| | | |s| |]; simplify_eq/=;
      try (split; [done | by intros (ks & [=] & _)]).
    destruct (forallb id _); [| split; [done | by intros (ks & [=] & _)]].
    split; [done | by intros (ks & [=] & _)]. }
  assert (py_iter p = Ok l) as -> by (destruct p; simplify_eq/=; done).
  cbn [mbind result_bind option_bind].
  assert (∀ ks, mapM py_int l = Some ks → length ks = length bounds →
            Forall2 (λ k b, fst b ≤ k ≤ snd b) ks bounds →
            Forall (λ k, machine_int k = true) ks) as Hmachine.
  { intros ks _ _ Hin. clear -Hin Hbs.
    induction Hin as [|k [lo hi] ks bs Hk _ IH]; [constructor |].
    inversion Hbs as [|? ? (Hlo & Hle & Hhi) Hbs']; subst.
    constructor; [by apply (between_machine_int k lo hi) | by apply IH]. }
  destruct (forallb id (is_int <$> l)) eqn:Hints.
  - apply all_ints_mapM in Hints as [ks Hks].
    pose proof Hks as [Hint Hword]%mapM_int64_int. rewrite Hint.
    destruct (decide (l = [])) as [->|Hl].
    + pose proof (length_mapM _ _ _ Hks) as Hl0. destruct ks; [| done].
      simplify_eq/=. unfold is_within_bounds.
      assert (np.array p = np.Vector (np.Float64 [])) as -> by (destruct p; simplify_eq/=; done).
      cbn [np.shape_is np.rows np.size]. rewrite bool_decide_false by (by destruct bounds).
      split; [done |]. intros (ks' & [= <-] & Hlen & _). by destruct bounds.
    + rewrite (is_within_int_rows bounds p ks Hne Hbs (int64_array p l ks Hp Hl Hks) Hword).
      split.
      * intros [Hlen Hin]. by exists ks.
      * intros (ks' & [= <-] & Hlen & Hin). done.
  - split; [done |]. intros (ks & Hks & Hlen & Hin).
    assert (is_Some (mapM np.py_int64 l)) as Hsome.
    { exists ks. apply mapM_int64_int. split; [done | by apply Hmachine]. }
    apply all_ints_mapM in Hsome. congruence.
Qed.

Lemma integral_is_a_member_iff_witness :
  is_a_member (IntegralDomain [(0, 3); (-5, 5)]) (PyTuple [PyInt 3; PyBool true]) = Ok true ↔
  ∃ ks, int_vector (PyTuple [PyInt 3; PyBool true]) = Some ks ∧
        length ks = length [(0, 3); (-5, 5)] ∧
        Forall2 (λ k b, fst b ≤ k ≤ snd b) ks [(0, 3); (-5, 5)].
Proof.
  apply (integral_is_a_member_iff [(0, 3); (-5, 5)] (PyTuple [PyInt 3; PyBool true])).
  - discriminate.
  - repeat constructor; simpl; lia.
Defined.

Lemma forallb_zip_with_py_in (l : list pyval) (lol : list (list pyval)) :
  length l = length lol →
  forallb id (zip_with py_in l lol) = true ↔
  Forall2 (λ x loi, py_in x loi = true) l lol.
Proof.
  revert lol. induction l as [|x l IH]; intros [|loi lol] Hlen; simplify_eq/=.
  - split; [constructor | done].
  - rewrite andb_true_iff, (IH lol Hlen). split.
    + intros [Hx Hrest]. by constructor.
    + intros H. inversion H; subst. done.
Qed.

(** X2.  For a product of discrete domains, [is_a_member] never raises, and
    returns true exactly when the point is a list or tuple with one
    component per factor, each a member of its factor. *)
Theorem prod_discrete_is_a_member_iff (lol : list (list pyval)) (p : pyval) :
  ∃ b,
    is_a_member (ProdDiscreteDomain lol) p = Ok b ∧
    (b = true ↔
       ∃ l, py_seq p = Some l ∧ length l = length lol ∧
            Forall2 (λ x loi, py_in x loi = true) l lol).
Proof.
  assert (∀ l, ∃ b,
            (if negb (bool_decide (length l = length lol)) then Ok false
             else Ok (forallb id (zip_with py_in l lol))) = Ok b ∧
            (b = true ↔
               ∃ l', Some l = Some l' ∧ length l' = length lol ∧
                     Forall2 (λ x loi, py_in x loi = true) l' lol)) as Hseq.
  { intros l. case_bool_decide as Hlen; simpl; eexists; (split; [done |]).
    - rewrite (forallb_zip_with_py_in l lol Hlen). split.
      + intros Hin. by exists l.
      + by intros (l' & [= <-] & _ & Hin).
    - split; [done |]. by intros (l' & [= <-] & Hlen' & _). }
  destruct p as [| | | | |l|l]; simpl;
    try (exists false; split; [done |]; split; [done | by intros (l & [=] & _)]).
  - apply Hseq.
  - apply Hseq.
Qed.

Lemma Forall2_within_lower (bounds : list (Q * Q)) :
  Forall (λ b, (fst b <= snd b)%Q) bounds → Forall2 within (fst <$> bounds) bounds.
Proof.
  induction 1 as [|[lo hi] bounds Hb _ IH]; simpl; constructor; [| done].
  split; simpl in *; [apply Qle_refl | done].
Qed.

Lemma Forall2_within_upper (bounds : list (Q * Q)) :
  Forall (λ b, (fst b <= snd b)%Q) bounds → Forall2 within (snd <$> bounds) bounds.
Proof.
  induction 1 as [|[lo hi] bounds Hb _ IH]; simpl; constructor; [| done].
  split; simpl in *; [done | apply Qle_refl].
Qed.

(** X3.  When there is at least one bound row and every row has
    [lo <= hi], the vector of lower bounds and the vector of upper bounds
    are both members of the Euclidean domain. *)
Theorem euclidean_corners_are_members (bounds : list (Q * Q)) :
  bounds ≠ [] →
  Forall (λ b, (fst b <= snd b)%Q) bounds →
  is_a_member (EuclideanDomain bounds) (PyList (PyFloat <$> (fst <$> bounds))) = Ok true ∧
  is_a_member (EuclideanDomain bounds) (PyList (PyFloat <$> (snd <$> bounds))) = Ok true.
Proof.
  intros Hne Hbounds.
  split; apply euclidean_member_stored; (split; [done |]).
  - exists (fst <$> bounds). split; [by apply mapM_fmap_Some |].
    split; [by rewrite length_fmap | by apply Forall2_within_lower].
  - exists (snd <$> bounds). split; [by apply mapM_fmap_Some |].
    split; [by rewrite length_fmap | by apply Forall2_within_upper].
Qed.

Lemma euclidean_corners_are_members_witness :
  is_a_member (EuclideanDomain [(0, 1); (-1, 1)]%Q)
    (PyList (PyFloat <$> (fst <$> [(0, 1); (-1, 1)]%Q))) = Ok true ∧
  is_a_member (EuclideanDomain [(0, 1); (-1, 1)]%Q)
    (PyList (PyFloat <$> (snd <$> [(0, 1); (-1, 1)]%Q))) = Ok true.
Proof.
  apply (euclidean_corners_are_members [(0, 1); (-1, 1)]%Q).
  - discriminate.
  - repeat constructor; simpl; discriminate.
Defined.



(** * Further properties of the history *)

Section HistoryMore.
Context {W C : Type} (pol : Policy W C) (EVAL_ERROR_CODE : pyval).
Implicit Type self : Designer W C.

Lemma dict_getitem_find {A} (d : pydict A) (k : pyval) (v : A) :
  dict_getitem d k = Ok v → dict_find d k = Some v.
Proof.
  unfold dict_getitem. destruct (negb (hashable k)); [done |].
  destruct (dict_find d k); congruence.
Qed.

Lemma dict_find_update {A} (d : pydict A) (k : pyval) (v0 v : A) :
  dict_find d k = Some v0 → dict_find (dict_update d k v) k = Some v.
Proof.
  induction d as [|[k' v'] d IH]; simpl; [done |].
  destruct (py_eqb k' k) eqn:Heq; simpl; rewrite Heq; [done | exact IH].
Qed.

Lemma dict_update_total (d : pydict (list pyval)) (k x : pyval) (jobs : list pyval) :
  dict_find d k = Some jobs →
  sum_list ((λ kv, length (snd kv)) <$> dict_update d k (jobs ++ [x])) =
  S (sum_list ((λ kv, length (snd kv)) <$> d)).
Proof.
  induction d as [|[k' v'] d IH]; simpl; [done |].
  destruct (py_eqb k' k) eqn:Heq; simpl.
  - intros [= ->]. rewrite length_app. simpl. lia.
  - intros Hfind. rewrite <- Nat.add_succ_r. f_equal. exact (IH Hfind).
Qed.

(** Everything a call of [_update_history] that returns has done. *)
Lemma update_history_inv self (qinfo : Namespace) self' :
  _update_history pol EVAL_ERROR_CODE self qinfo = Ok self' →
  ∃ worker_id jobs step cols,
    qinfo !! "worker_id" = Some worker_id ∧
    qinfo !! "step_idx" = Some step ∧
    dict_find (job_idxs_of_workers (history self)) worker_id = Some jobs ∧
    for_each (copy_field qinfo)
      (map_to_list (to_copy_from_qinfo_to_history self))
      (columns (history self)) = Ok cols ∧
    job_idxs_of_workers (history self') =
      dict_update (job_idxs_of_workers (history self)) worker_id (jobs ++ [step]) ∧
    columns (history self') = cols ∧
    query_qinfos (history self') = query_qinfos (history self) ++ [qinfo] ∧
    to_copy_from_qinfo_to_history self' = to_copy_from_qinfo_to_history self ∧
    prev_eval_points self' = prev_eval_points self ∧
    prev_eval_vals self' = prev_eval_vals self ∧
    same_dispatch_state self self'.
Proof.
  unfold _update_history.
  intros (worker_id & Hw%getattr_Ok & (jobs & Hjobs%dict_getitem_find &
    (step & Hstep%getattr_Ok & (cols & Hcols &
    (c1 & _ & (c2 & _ & (val & _ & H)%bind_Ok)%bind_Ok)%bind_Ok
    )%bind_Ok)%bind_Ok)%bind_Ok)%bind_Ok.
  exists worker_id, jobs, step, cols. simpl in Hcols.
  unfold same_dispatch_state.
  destruct (py_neb val EVAL_ERROR_CODE); injection H as <-; simpl; done.
Qed.

(** X5.  A call of [_update_history] that returns has appended the qinfo's
    step index to the job list of the qinfo's worker, and the number of jobs
    over all workers has grown by one; so after any sequence of recorded
    completions that number has grown by their count, and it equals the
    length of [query_qinfos] whenever it did before. *)
Theorem update_history_jobs self :
  (∀ qinfo self',
     _update_history pol EVAL_ERROR_CODE self qinfo = Ok self' →
     ∃ worker_id jobs step,
       qinfo !! "worker_id" = Some worker_id ∧ qinfo !! "step_idx" = Some step ∧
       dict_find (job_idxs_of_workers (history self)) worker_id = Some jobs ∧
       dict_find (job_idxs_of_workers (history self')) worker_id =
         Some (jobs ++ [step]) ∧
       jobs_total (history self') = S (jobs_total (history self))) ∧
  (∀ qinfos self',
     for_each (_update_history pol EVAL_ERROR_CODE) qinfos self = Ok self' →
     jobs_total (history self') = (jobs_total (history self) + length qinfos)%nat ∧
     (jobs_total (history self) = length (query_qinfos (history self)) →
      jobs_total (history self') = length (query_qinfos (history self')))).
Proof.
  assert (∀ self qinfo self',
            _update_history pol EVAL_ERROR_CODE self qinfo = Ok self' →
            jobs_total (history self') = S (jobs_total (history self)) ∧
            length (query_qinfos (history self')) =
              S (length (query_qinfos (history self)))) as Hstep.
  { intros s q s' (w & jobs & step & cols & _ & _ & Hfind & _ & Hjobs & _ & Hqs & _)
      %update_history_inv.
    unfold jobs_total. rewrite Hjobs, Hqs, length_app. simpl.
    split; [by apply dict_update_total | lia]. }
  split.
  - intros qinfo self' Hcall. destruct (Hstep _ _ _ Hcall) as [Htotal _].
    apply update_history_inv in Hcall
      as (w & jobs & step & cols & Hw & Hs & Hfind & _ & Hjobs & _).
    exists w, jobs, step. rewrite Hjobs.
    repeat split; try done. by eapply dict_find_update.
  - intros qinfos. revert self.
    induction qinfos as [|qinfo qinfos IH]; intros self self'; simpl.
    + intros [= <-]. split; [lia | done].
    + intros (self1 & Hcall & Hrest)%bind_Ok.
      destruct (Hstep _ _ _ Hcall) as [Htotal Hlen].
      destruct (IH _ _ Hrest) as [Hsum Hinv]. split; [lia |].
      intros Heq. apply Hinv. lia.
Qed.

Lemma mapM_snoc {A B} (f : A → option B) (l : list A) (x : A) (ys : list B) (y : B) :
  mapM f l = Some ys → f x = Some y → mapM f (l ++ [x]) = Some (ys ++ [y]).
Proof.
  rewrite !mapM_Some. intros Hl Hx. apply Forall2_app; [done |]. by constructor.
Qed.

Lemma update_history_synced self (qinfo : Namespace) self' :
  columns_distinct self → columns_synced self →
  _update_history pol EVAL_ERROR_CODE self qinfo = Ok self' →
  columns_distinct self' ∧ columns_synced self'.
Proof.
  unfold columns_distinct, columns_synced.
  intros Hnodup Hsync (w & jobs & step & cols & _ & _ & _ & Hcopy & _ & Hcols &
    Hqs & Htab & _)%update_history_inv.
  rewrite Htab, Hcols, Hqs. split; [done |].
  destruct (copy_fields_lookup qinfo _ _ cols Hnodup Hcopy) as [Hin _].
  intros name hname Hreg.
  destruct (Hin name hname) as (xs & v & Hxs & Hv & Hnew);
    [by apply elem_of_map_to_list |].
  destruct (Hsync name hname Hreg) as (xs' & Hmap & Hold).
  assert (xs' = xs) as -> by congruence.
  exists (xs ++ [v]). split; [| done]. by apply mapM_snoc.
Qed.

(** X6.  While no two fields of the table share a column, recording keeps
    every history column equal to the list of its field's values over
    [query_qinfos], in the order the results were recorded. *)
Theorem history_columns_follow_records self (qinfos : list Namespace) self' :
  columns_distinct self → columns_synced self →
  for_each (_update_history pol EVAL_ERROR_CODE) qinfos self = Ok self' →
  columns_distinct self' ∧ columns_synced self' ∧
  query_qinfos (history self') = query_qinfos (history self) ++ qinfos.
Proof.
  revert self. induction qinfos as [|qinfo qinfos IH]; intros self Hd Hs; simpl.
  - intros [= <-]. by rewrite app_nil_r.
  - intros (self1 & Hcall & Hrest)%bind_Ok.
    destruct (update_history_synced _ _ _ Hd Hs Hcall) as [Hd1 Hs1].
    destruct (IH _ Hd1 Hs1 Hrest) as (Hd' & Hs' & Hqs'). split; [done |].
    split; [done |].
    apply update_history_inv in Hcall
      as (w & jobs & step & cols & _ & _ & _ & _ & _ & _ & Hqs & _).
    rewrite Hqs', Hqs, <- app_assoc. done.
Qed.

(** X7.  With the history columns in step with the records, [get_past_data]
    returns the prior points followed by the recorded points, and the prior
    values followed by the recorded values, in recording order. *)
Theorem get_past_data_order self :
  base_table ⊆ to_copy_from_qinfo_to_history self →
  columns_synced self →
  ∃ points vals,
    mapM (λ q : Namespace, q !! "point") (query_qinfos (history self)) = Some points ∧
    mapM (λ q : Namespace, q !! "val") (query_qinfos (history self)) = Some vals ∧
    get_past_data self =
      Ok (prev_eval_points self ++ points, prev_eval_vals self ++ vals).
Proof.
  intros Hbase Hsync.
  destruct (Hsync "point" "query_points") as (points & Hpoints & Hcp);
    [by apply (lookup_weaken base_table) |].
  destruct (Hsync "val" "query_vals") as (vals & Hvals & Hcv);
    [by apply (lookup_weaken base_table) |].
  exists points, vals. split; [done |]. split; [done |].
  unfold get_past_data, getattr. rewrite Hcp, Hcv. done.
Qed.

End HistoryMore.

(** * Further properties of the set-up *)

Section SetUpMore.
Context {W C : Type} (env : Environment W) (pol : Policy W C).
Implicit Type self : Designer W C.

Lemma prefix_nil (s : string) : String.prefix "" s = true.
Proof. by destruct s. Qed.

Lemma mf_set_up_inv self self' :
  _mf_set_up self = Ok self' →
  columns (history self') =
    <["query_cost_at_fidels" := []]> (<["query_fidels" := []]> (columns (history self))) ∧
  to_copy_from_qinfo_to_history self' =
    <["cost_at_fidel" := "query_cost_at_fidels"]>
      (<["fidel" := "query_fidels"]> (to_copy_from_qinfo_to_history self)) ∧
  query_qinfos (history self') = query_qinfos (history self) ∧
  job_idxs_of_workers (history self') = job_idxs_of_workers (history self) ∧
  history_full_policy_name (history self') = history_full_policy_name (history self) ∧
  full_policy_name self' = full_policy_name self ∧
  step_idx self' = step_idx self ∧
  num_succ_queries self' = num_succ_queries self ∧
  num_workers self' = num_workers self ∧
  worker_manager self' = worker_manager self ∧
  eval_idxs_in_progress self' = eval_idxs_in_progress self ∧
  eval_points_in_progress self' = eval_points_in_progress self.
Proof.
  unfold _mf_set_up. destruct (is_mf (experiment_caller self)); simpl; [| done].
  destruct (ec_fidel_space (experiment_caller self)); simpl; [| done].
  intros [= <-]. simpl. done.
Qed.

Lemma base_table_columns :
  map_Forall (λ _ hname, base_columns !! hname = Some []) base_table.
Proof. apply map_Forall_to_list. vm_compute. repeat constructor. Qed.

Lemma mf_table_columns :
  map_Forall (λ _ hname, mf_columns !! hname = Some []) mf_table.
Proof. apply map_Forall_to_list. vm_compute. repeat constructor. Qed.

Lemma base_table_mf_table : base_table ⊆ mf_table.
Proof.
  unfold mf_table. etrans; [| apply insert_subseteq; by vm_compute].
  apply insert_subseteq. by vm_compute.
Qed.

(** The designer [_set_up] returns, up to the child's state. *)
Lemma set_up_inv (caller : ExperimentCaller) (wm : W) (opts : Options)
    (rep : list string) (model : C) self :
  _set_up env pol caller wm opts rep model = Ok self →
  ∃ policy_str problem_str,
    _get_policy_str pol model = Ok policy_str ∧
    _get_problem_str pol model = Ok problem_str ∧
    full_policy_name self =
      ((if is_asynchronous opts then "asy" else "syn") +:+ "-" +:+ policy_str
       +:+ "-" +:+ problem_str)%string ∧
    history_full_policy_name (history self) = Some (full_policy_name self) ∧
    (to_copy_from_qinfo_to_history self = base_table ∧
     columns (history self) = base_columns ∨
     to_copy_from_qinfo_to_history self = mf_table ∧
     columns (history self) = mf_columns) ∧
    query_qinfos (history self) = [] ∧
    job_idxs_of_workers (history self) =
      (λ k, (k, [])) <$> worker_ids env (set_experiment_designer env wm) ∧
    step_idx self = 0 ∧ num_succ_queries self = 0 ∧
    num_workers self = wm_num_workers env (set_experiment_designer env wm) ∧
    worker_manager self = set_experiment_designer env wm ∧
    eval_idxs_in_progress self = [] ∧ eval_points_in_progress self = [].
Proof.
  unfold _set_up.
  intros (ps & Hps & (prs & Hprs & (mf & _ & (self1 & Hmf &
    (c1 & _ & (c2 & _ & [= <-])%bind_Ok)%bind_Ok)%bind_Ok)%bind_Ok)%bind_Ok)%bind_Ok.
  exists ps, prs. split; [done |]. split; [done |]. simpl.
  destruct (mf || is_mf caller).
  - apply mf_set_up_inv in Hmf
      as (Hcols & Htab & Hqs & Hjobs & Hname & Hfull & Hstep & Hsucc & Hnw & Hwm &
          Hidxs & Hpoints).
    simpl in *. rewrite Hcols, Htab, Hqs, Hjobs, Hname, Hfull, Hstep, Hsucc, Hnw, Hwm,
      Hidxs, Hpoints.
    repeat split; try done. by right.
  - injection Hmf as <-. simpl. repeat split; try done. by left.
Qed.

(** X8.  The designer that [_set_up] returns starts from nothing: step index
    and success counter are zero, nothing is in progress or recorded, every
    worker of the pool has an empty job list, the basic fields are all
    registered, no two fields share a column and every registered column is
    empty, in step with the (empty) list of records. *)
Theorem set_up_initial_state (caller : ExperimentCaller) (wm : W) (opts : Options)
    (rep : list string) (model : C) self :
  _set_up env pol caller wm opts rep model = Ok self →
  step_idx self = 0 ∧ num_succ_queries self = 0 ∧
  eval_idxs_in_progress self = [] ∧ eval_points_in_progress self = [] ∧
  query_qinfos (history self) = [] ∧
  job_idxs_of_workers (history self) =
    (λ k, (k, [])) <$> worker_ids env (set_experiment_designer env wm) ∧
  jobs_total (history self) = 0%nat ∧
  base_table ⊆ to_copy_from_qinfo_to_history self ∧
  columns_distinct self ∧ columns_synced self.
Proof.
  intros (ps & prs & _ & _ & _ & _ & Htables & Hqs & Hjobs & Hstep & Hsucc & _ & _ &
          Hidxs & Hpoints)%set_up_inv.
  repeat (split; [done |]). split.
  { unfold jobs_total. rewrite Hjobs. clear.
    induction (worker_ids env (set_experiment_designer env wm)) as [|k ks IH];
      [done | exact IH]. }
  unfold columns_distinct, columns_synced. rewrite Hqs.
  destruct Htables as [[-> ->] | [-> ->]].
  - split; [done |]. split; [compute_done |].
    intros name hname Hreg. exists []. split; [done |].
    exact (base_table_columns name hname Hreg).
  - split; [apply base_table_mf_table |]. split; [compute_done |].
    intros name hname Hreg. exists []. split; [done |].
    exact (mf_table_columns name hname Hreg).
Qed.

(** X9.  The policy name [_set_up] composes is
    [{asy|syn}-{policy string}-{problem string}], stored in the history as
    well, and it begins with [asy-] exactly when the configured mode, in
    lower case, begins with [asy]. *)
Theorem set_up_full_policy_name (caller : ExperimentCaller) (wm : W) (opts : Options)
    (rep : list string) (model : C) self :
  _set_up env pol caller wm opts rep model = Ok self →
  ∃ policy_str problem_str,
    _get_policy_str pol model = Ok policy_str ∧
    _get_problem_str pol model = Ok problem_str ∧
    full_policy_name self =
      ((if String.prefix "asy" (lower (mode opts)) then "asy" else "syn")
       +:+ "-" +:+ policy_str +:+ "-" +:+ problem_str)%string ∧
    history_full_policy_name (history self) = Some (full_policy_name self) ∧
    String.prefix "asy-" (full_policy_name self) = String.prefix "asy" (lower (mode opts)).
Proof.
  intros (ps & prs & Hps & Hprs & Hname & Hhist & _)%set_up_inv.
  exists ps, prs. repeat (split; [done |]). rewrite Hname. unfold is_asynchronous.
  destruct (String.prefix "asy" (lower (mode opts))); [| reflexivity].
  apply (prefix_nil (ps +:+ "-" +:+ prs)).
Qed.

End SetUpMore.

(** * Further properties of the in-progress lists *)

Section InProgressMore.
Context {W C : Type}.
Implicit Type self : Designer W C.

Lemma py_eqb_int (k : Z) : py_eqb (PyInt k) (PyInt k) = true.
Proof. simpl. apply Qeq_bool_refl. Qed.

Lemma py_index_snoc (x y : pyval) (l : list pyval) :
  py_index x l = None → py_eqb y x = true →
  py_index x (l ++ [y]) = Some (length l).
Proof.
  intros Hnone Hyx. induction l as [|z l IH]; simpl in *.
  - by rewrite Hyx.
  - destruct (py_eqb z x); [done |].
    destruct (py_index x l); [done |]. by rewrite IH.
Qed.

Lemma delete_snoc {A} (l : list A) (x : A) : delete (length l) (l ++ [x]) = l.
Proof. induction l as [|y l IH]; simpl; [done | by rewrite IH]. Qed.

Lemma delete_zip {A B} (i : nat) (l : list A) (k : list B) :
  delete i (zip l k) = zip (delete i l) (delete i k).
Proof.
  revert i k. induction l as [|x l IH]; intros [|i] [|y k]; simpl; try done.
  - by destruct l.
  - by rewrite IH.
Qed.

Lemma designer_eta self :
  set_eval_points_in_progress (eval_points_in_progress self)
    (set_eval_idxs_in_progress (eval_idxs_in_progress self) self) = self.
Proof. by destruct self. Qed.

(** Adding a batch appends its step indices and its points. *)
Lemma add_to_in_progress_Ok self (qinfos : list Namespace) (steps points : list pyval) :
  mapM (λ q : Namespace, q !! "step_idx") qinfos = Some steps →
  mapM (λ q : Namespace, q !! "point") qinfos = Some points →
  _add_to_in_progress self qinfos =
    Ok (set_eval_points_in_progress (eval_points_in_progress self ++ points)
          (set_eval_idxs_in_progress (eval_idxs_in_progress self ++ steps) self)).
Proof.
  rewrite !mapM_Some. intros Hsteps. revert self points.
  unfold _add_to_in_progress.
  induction Hsteps as [|q step qinfos steps Hstep _ IH]; intros self points Hpoints.
  - inversion Hpoints; subst. simpl. rewrite !app_nil_r. by destruct self.
  - inversion Hpoints as [|? pt ? points' Hpt Hrest]; subst. simpl in *.
    apply getattr_Ok in Hstep, Hpt. rewrite Hstep. simpl. rewrite Hpt. simpl.
    rewrite (IH _ points' Hrest). simpl. rewrite <- !app_assoc. done.
Qed.

(** X10.  Putting a query with a step index that is not in progress into
    the in-progress lists and taking it out again gives back the designer
    as it was. *)
Theorem add_then_remove_restores self (qinfo : Namespace) (k : Z) (point : pyval) :
  qinfo !! "step_idx" = Some (PyInt k) →
  qinfo !! "point" = Some point →
  in_progress_aligned self →
  occurrences (PyInt k) (eval_idxs_in_progress self) = 0%nat →
  ∃ self1,
    _add_to_in_progress self [qinfo] = Ok self1 ∧
    eval_idxs_in_progress self1 = eval_idxs_in_progress self ++ [PyInt k] ∧
    eval_points_in_progress self1 = eval_points_in_progress self ++ [point] ∧
    _remove_from_in_progress self1 qinfo = Ok self.
Proof.
  intros Hstep Hpoint Hlen Hfresh%py_index_occurrences.
  eexists. split.
  { apply (add_to_in_progress_Ok self [qinfo] [PyInt k] [point]);
      apply mapM_Some; by repeat constructor. }
  simpl. split; [done |]. split; [done |].
  unfold _remove_from_in_progress, getattr. rewrite Hstep. simpl.
  rewrite (py_index_snoc _ _ _ Hfresh (py_eqb_int k)). unfold py_pop. simpl.
  rewrite !length_app. simpl. unfold in_progress_aligned in Hlen.
  case_bool_decide; [simpl | lia].
  case_bool_decide; [simpl | lia].
  rewrite delete_snoc, Hlen, delete_snoc. by destruct self.
Qed.

(** X11.  Taking a completed query out of the in-progress lists removes one
    position from both: the lists get one shorter and the remaining indices
    keep the points they were paired with. *)
Theorem remove_keeps_pairing self (qinfo : Namespace) self' :
  in_progress_aligned self →
  _remove_from_in_progress self qinfo = Ok self' →
  ∃ i step,
    qinfo !! "step_idx" = Some step ∧
    py_index step (eval_idxs_in_progress self) = Some i ∧
    zip (eval_idxs_in_progress self') (eval_points_in_progress self') =
      delete i (zip (eval_idxs_in_progress self) (eval_points_in_progress self)) ∧
    S (length (eval_idxs_in_progress self')) = length (eval_idxs_in_progress self) ∧
    history self' = history self ∧ step_idx self' = step_idx self.
Proof.
  unfold _remove_from_in_progress, in_progress_aligned.
  intros Hlen (step & Hstep%getattr_Ok & H)%bind_Ok.
  destruct (py_index step (eval_idxs_in_progress self)) as [i|] eqn:Hidx; [| done].
  pose proof (py_index_lt _ _ _ Hidx) as Hi. unfold py_pop in H.
  case_bool_decide; [simpl in H | lia].
  case_bool_decide; [simpl in H | lia].
  injection H as <-. exists i, step. simpl.
  rewrite delete_zip, length_delete by (apply lookup_lt_is_Some; lia).
  repeat split; try done. lia.
Qed.

End InProgressMore.

(** * Further properties of the capital clock *)

Section CapitalMore.
Context {W C : Type} (env : Environment W).
Implicit Type self : Designer W C.


(** X13.  [set_curr_spent_capital] is what [get_curr_spent_capital] returns
    next in the [return_value] mode, and changes nothing that the clock
    reads in any other mode. *)
Theorem set_then_get_spent_capital self (v : pyval) :
  get_curr_spent_capital env (set_curr_spent_capital v self) =
  if String.eqb (capital_type (options self)) "return_value" then Ok v
  else get_curr_spent_capital env self.
Proof.
  unfold set_curr_spent_capital, get_curr_spent_capital.
  destruct (String.eqb (capital_type (options self)) "return_value") eqn:H; simpl.
  - by rewrite H.
  - by rewrite H.
Qed.

(** Stamping and sending one query. *)
Lemma dispatch_single_Ok self (qinfo : Namespace) (send_time point : pyval) :
  get_curr_spent_capital env self = Ok send_time →
  qinfo !! "point" = Some point →
  _dispatch_single_experiment_to_worker_manager env self qinfo =
    Ok (set_eval_points_in_progress (eval_points_in_progress self ++ [point])
          (set_eval_idxs_in_progress
             (eval_idxs_in_progress self ++ [PyInt (step_idx self)])
             (set_worker_manager
                (dispatch_single_experiment env (experiment_caller self)
                   (<["step_idx" := PyInt (step_idx self)]>
                      (<["send_time" := send_time]> qinfo))
                   (worker_manager self)) self))).
Proof.
  intros Hspent Hpoint. unfold _dispatch_single_experiment_to_worker_manager.
  rewrite Hspent. simpl. unfold setattr.
  match goal with
  | |- _add_to_in_progress ?s ?qs = _ =>
      rewrite (add_to_in_progress_Ok s qs [PyInt (step_idx self)] [point])
  end.
  - done.
  - apply mapM_Some. repeat constructor. apply lookup_insert_eq.
  - apply mapM_Some. repeat constructor. rewrite !lookup_insert_ne by done. done.
Qed.

(** X14.  Dispatching one query, with a clock that can be read: the query
    is stamped with the current capital as [send_time] and with the
    designer's [step_idx], handed to the worker manager, and its index and
    point are appended to the in-progress lists; [step_idx] and the history
    stay as they are.  A query without [point] fails with an attribute
    error. *)
Theorem dispatch_single_stamps self (qinfo : Namespace) (send_time : pyval) :
  get_curr_spent_capital env self = Ok send_time →
  (qinfo !! "point" = None →
   _dispatch_single_experiment_to_worker_manager env self qinfo = Raise AttributeError) ∧
  (∀ point, qinfo !! "point" = Some point →
     ∃ self',
       _dispatch_single_experiment_to_worker_manager env self qinfo = Ok self' ∧
       worker_manager self' =
         dispatch_single_experiment env (experiment_caller self)
           (<["step_idx" := PyInt (step_idx self)]>
              (<["send_time" := send_time]> qinfo))
           (worker_manager self) ∧
       eval_idxs_in_progress self' =
         eval_idxs_in_progress self ++ [PyInt (step_idx self)] ∧
       eval_points_in_progress self' = eval_points_in_progress self ++ [point] ∧
       step_idx self' = step_idx self ∧ history self' = history self).
Proof.
  intros Hspent. split.
  - intros Hnone.
    unfold _dispatch_single_experiment_to_worker_manager, _add_to_in_progress.
    rewrite Hspent. simpl. unfold getattr, setattr.
    rewrite lookup_insert_eq. simpl.
    rewrite !lookup_insert_ne by done. by rewrite Hnone.
  - intros point Hpoint. eexists. split; [by apply dispatch_single_Ok |]. done.
Qed.

End CapitalMore.

(** * Properties of the waiting and dispatching routines *)

Section Loop.
Context {W C : Type} (env : Environment W) (pol : Policy W C).
Context (EVAL_ERROR_CODE : pyval).
Implicit Type self : Designer W C.

Lemma remove_inv self (qinfo : Namespace) self' :
  _remove_from_in_progress self qinfo = Ok self' →
  ∃ i,
    (i < length (eval_idxs_in_progress self))%nat ∧
    eval_idxs_in_progress self' = delete i (eval_idxs_in_progress self) ∧
    eval_points_in_progress self' = delete i (eval_points_in_progress self) ∧
    history self' = history self ∧ step_idx self' = step_idx self.
Proof.
  unfold _remove_from_in_progress. intros (step & _ & H)%bind_Ok.
  destruct (py_index step (eval_idxs_in_progress self)) as [i|] eqn:Hidx; [| done].
  apply py_index_lt in Hidx.
  apply bind_Ok in H as (idxs & Hidxs & (points & Hpoints & [= <-])%bind_Ok).
  unfold py_pop in *. repeat case_bool_decide; simplify_eq. exists i. done.
Qed.

(** One result of a wait: recorded, then taken out of the in-progress lists. *)
Lemma wait_body_inv self (qinfo : Namespace) self' (qinfo' : Namespace) :
  _wait_till_free_body pol EVAL_ERROR_CODE self qinfo = Ok (self', qinfo') →
  ∃ self1,
    _update_history pol EVAL_ERROR_CODE self qinfo' = Ok self1 ∧
    _remove_from_in_progress self1 qinfo' = Ok self'.
Proof.
  unfold _wait_till_free_body.
  intros (q & _ & (self1 & Hrec & (self2 & Hrem & [= <- <-])%bind_Ok)%bind_Ok)%bind_Ok.
  by exists self1.
Qed.

(** What every pass of a wait keeps, the wait keeps. *)
Lemma wait_till_free_preserves (P : Designer W C → Prop) :
  (∀ self w, P self → P (set_worker_manager w self)) →
  (∀ self v, P self → P (set_curr_spent_capital v self)) →
  (∀ self c, P self → P (set_child c self)) →
  (∀ self q self' q',
     P self → _wait_till_free_body pol EVAL_ERROR_CODE self q = Ok (self', q') →
     P self') →
  ∀ fuel is_free poll_time self self',
    P self →
    _wait_till_free env pol EVAL_ERROR_CODE fuel is_free poll_time self = Ok self' →
    P self'.
Proof.
  intros Hwm Hcap Hchild Hbody fuel is_free poll_time.
  induction fuel as [|fuel IH]; intros self self' HP; simpl; [done |].
  destruct (is_free (worker_manager self)) as [t w].
  destruct (negb (is_none t)).
  - match goal with
    | |- context [fetch_latest_results env ?x] =>
        destruct (fetch_latest_results env x) as [results w']
    end.
    intros ([self1 seen] & Hloop & (c & _ & [= <-])%bind_Ok)%bind_Ok.
    apply Hchild.
    change (P (self1, seen).1).
    eapply (for_each_preserves _ (λ st, P st.1)); [| | exact Hloop].
    + intros [s1 l1] q [s2 l2] HP1 ([s3 q3] & Hb & [= <- <-])%bind_Ok.
      simpl in *. by eapply Hbody.
    + simpl. by apply Hwm, Hcap, Hwm.
  - apply IH. by apply Hwm, Hwm.
Qed.

Lemma set_curr_spent_capital_frame self (v : pyval) :
  eval_idxs_in_progress (set_curr_spent_capital v self) = eval_idxs_in_progress self ∧
  eval_points_in_progress (set_curr_spent_capital v self) = eval_points_in_progress self ∧
  step_idx (set_curr_spent_capital v self) = step_idx self ∧
  history (set_curr_spent_capital v self) = history self.
Proof. unfold set_curr_spent_capital. by destruct (String.eqb _ _). Qed.

Section WaitKeeps.
Context (fuel : nat) (is_free : W → pyval * W) (poll_time : Q).
Context (self self' : Designer W C).
Hypothesis Hwait :
  _wait_till_free env pol EVAL_ERROR_CODE fuel is_free poll_time self = Ok self'.

Lemma wait_keeps_step_idx : step_idx self' = step_idx self.
Proof.
  revert Hwait.
  apply (wait_till_free_preserves (λ s, step_idx s = step_idx self)); try done.
  - intros s v <-. apply set_curr_spent_capital_frame.
  - intros s q s' q' <- (s1 & Hrec & Hrem)%wait_body_inv.
    apply update_history_inv in Hrec
      as (? & ? & ? & ? & _ & _ & _ & _ & _ & _ & _ & _ & _ & _ & Hframe).
    destruct Hframe as (_ & _ & Hstep & _).
    apply remove_inv in Hrem as (i & _ & _ & _ & _ & Hstep'). congruence.
Qed.

Lemma wait_keeps_accounted : accounted self' = accounted self.
Proof.
  revert Hwait.
  apply (wait_till_free_preserves (λ s, accounted s = accounted self)); try done.
  - intros s v <-. unfold accounted.
    destruct (set_curr_spent_capital_frame s v) as (-> & _ & _ & ->). done.
  - intros s q s' q' <- (s1 & Hrec & Hrem)%wait_body_inv.
    apply update_history_inv in Hrec
      as (? & ? & ? & ? & _ & _ & _ & _ & _ & _ & Hqs & _ & _ & _ & Hframe).
    destruct Hframe as (Hidxs & _).
    apply remove_inv in Hrem as (i & Hi & Hidxs' & _ & Hhist & _).
    unfold accounted. rewrite Hidxs', Hhist, Hqs, length_app.
    rewrite length_delete by (apply lookup_lt_is_Some; lia).
    rewrite Hidxs in *. simpl. lia.
Qed.

Lemma wait_keeps_aligned : in_progress_aligned self → in_progress_aligned self'.
Proof.
  intros Haligned. revert Hwait.
  apply (wait_till_free_preserves in_progress_aligned); try done.
  - intros s v Hs. unfold in_progress_aligned.
    destruct (set_curr_spent_capital_frame s v) as (-> & -> & _). done.
  - intros s q s' q' Hs (s1 & Hrec & Hrem)%wait_body_inv.
    apply (remove_from_in_progress_aligned s1 q' s'); [| done].
    apply update_history_inv in Hrec
      as (? & ? & ? & ? & _ & _ & _ & _ & _ & _ & _ & _ & _ & _ & Hframe).
    destruct Hframe as (Hidxs & Hpoints & _).
    unfold in_progress_aligned. by rewrite Hidxs, Hpoints.
Qed.

Lemma wait_keeps_fresh (bound : Z) :
  idxs_fresh_below bound self → idxs_fresh_below bound self'.
Proof.
  intros Hfresh. revert Hwait.
  apply (wait_till_free_preserves (idxs_fresh_below bound)); try done.
  - intros s v Hs. unfold idxs_fresh_below.
    destruct (set_curr_spent_capital_frame s v) as (-> & _). done.
  - intros s q s' q' (ks & Hks & Hnodup & Hbelow) (s1 & Hrec & Hrem)%wait_body_inv.
    apply update_history_inv in Hrec
      as (? & ? & ? & ? & _ & _ & _ & _ & _ & _ & _ & _ & _ & _ & Hframe).
    destruct Hframe as (Hidxs & _).
    apply remove_inv in Hrem as (i & _ & Hidxs' & _).
    exists (delete i ks). rewrite Hidxs', Hidxs, Hks, list_fmap_delete.
    split; [done |]. split; [| by apply Forall_delete].
    eapply sublist_NoDup; [exact Hnodup | apply sublist_delete].
Qed.

End WaitKeeps.

(** X15.  A wait that returns has changed neither [step_idx] nor the number
    of queries accounted for (each drained result moves from the
    in-progress lists to the history); it keeps the in-progress lists
    aligned, and keeps their indices distinct integers below any bound they
    were below. *)
Theorem wait_till_free_keeps (fuel : nat) (is_free : W → pyval * W) (poll_time : Q)
    self self' :
  _wait_till_free env pol EVAL_ERROR_CODE fuel is_free poll_time self = Ok self' →
  step_idx self' = step_idx self ∧
  accounted self' = accounted self ∧
  (in_progress_aligned self → in_progress_aligned self') ∧
  (∀ bound, idxs_fresh_below bound self → idxs_fresh_below bound self').
Proof.
  intros Hwait. split; [| split; [| split]].
  - by eapply wait_keeps_step_idx.
  - by eapply wait_keeps_accounted.
  - by eapply wait_keeps_aligned.
  - intros bound. by eapply wait_keeps_fresh.
Qed.

(** What a dispatch of one query that returns has done. *)
Lemma dispatch_single_inv self (qinfo : Namespace) self' :
  _dispatch_single_experiment_to_worker_manager env self qinfo = Ok self' →
  ∃ point,
    qinfo !! "point" = Some point ∧
    eval_idxs_in_progress self' =
      eval_idxs_in_progress self ++ [PyInt (step_idx self)] ∧
    eval_points_in_progress self' = eval_points_in_progress self ++ [point] ∧
    step_idx self' = step_idx self ∧ history self' = history self.
Proof.
  intros Hcall.
  destruct (get_curr_spent_capital env self) as [t| |] eqn:Hspent;
    try (unfold _dispatch_single_experiment_to_worker_manager in Hcall;
         rewrite Hspent in Hcall; discriminate).
  destruct (qinfo !! "point") as [point|] eqn:Hpoint.
  - rewrite (dispatch_single_Ok env self qinfo t point Hspent Hpoint) in Hcall.
    injection Hcall as <-. by exists point.
  - unfold _dispatch_single_experiment_to_worker_manager, _add_to_in_progress in Hcall.
    rewrite Hspent in Hcall. simpl in Hcall. unfold getattr, setattr in Hcall.
    rewrite lookup_insert_eq in Hcall. simpl in Hcall.
    rewrite !lookup_insert_ne in Hcall by done. by rewrite Hpoint in Hcall.
Qed.

Lemma fresh_below_snoc (ks : list Z) (k : Z) :
  NoDup ks → Forall (λ j, j < k) ks →
  NoDup (ks ++ [k]) ∧ Forall (λ j, j < k + 1) (ks ++ [k]).
Proof.
  intros Hnodup Hbelow. split.
  - apply NoDup_app. split; [done |]. split; [| apply NoDup_singleton].
    intros j Hj ->%list_elem_of_singleton.
    rewrite Forall_forall in Hbelow. specialize (Hbelow _ Hj). lia.
  - apply Forall_app. split; [| by constructor; [lia | constructor]].
    eapply Forall_impl; [exact Hbelow |]. simpl. intros. lia.
Qed.

(** X16.  A pass of the asynchronous routine that returns has dispatched
    exactly one query, stamped with the step index the pass started from,
    and has added one to [step_idx]; the queries accounted for have grown
    by one and the in-progress lists stay aligned. *)
Theorem asynchronous_routine_step (fuel : nat) self self' :
  _asynchronous_run_experiment_routine env pol EVAL_ERROR_CODE fuel self = Ok self' →
  step_idx self' = step_idx self + 1 ∧
  last (eval_idxs_in_progress self') = Some (PyInt (step_idx self)) ∧
  accounted self' = S (accounted self) ∧
  (in_progress_aligned self → in_progress_aligned self').
Proof.
  unfold _asynchronous_run_experiment_routine, _wait_for_a_free_worker.
  intros (s1 & Hwait & ([q c] & _ & (q' & _ & (s2 & Hsend & [= <-])%bind_Ok)%bind_Ok
    )%bind_Ok)%bind_Ok.
  pose proof (wait_keeps_step_idx _ _ _ _ _ Hwait) as Hstep.
  pose proof (wait_keeps_accounted _ _ _ _ _ Hwait) as Hacc.
  pose proof (wait_keeps_aligned _ _ _ _ _ Hwait) as Haligned.
  apply dispatch_single_inv in Hsend as (point & _ & Hidxs & Hpoints & Hstep2 & Hhist).
  simpl in *. repeat split.
  - lia.
  - rewrite Hidxs, last_snoc. by rewrite Hstep.
  - unfold accounted in *. simpl. rewrite Hidxs, Hhist, length_app. simpl in *. lia.
  - intros Hal. specialize (Haligned Hal). unfold in_progress_aligned in *. simpl.
    rewrite Hidxs, Hpoints, !length_app. simpl in *. lia.
Qed.

(** X17.  While the in-progress step indices are distinct integers below
    [step_idx], a pass of the asynchronous routine that returns keeps them
    so: the index it stamps is not in progress already. *)
Theorem asynchronous_routine_fresh (fuel : nat) self self' :
  idxs_fresh_below (step_idx self) self →
  _asynchronous_run_experiment_routine env pol EVAL_ERROR_CODE fuel self = Ok self' →
  idxs_fresh_below (step_idx self') self'.
Proof.
  unfold _asynchronous_run_experiment_routine, _wait_for_a_free_worker.
  intros Hfresh (s1 & Hwait & ([q c] & _ & (q' & _ & (s2 & Hsend & [= <-])%bind_Ok
    )%bind_Ok)%bind_Ok)%bind_Ok.
  pose proof (wait_keeps_step_idx _ _ _ _ _ Hwait) as Hstep.
  destruct (wait_keeps_fresh _ _ _ _ _ Hwait _ Hfresh) as (ks & Hks & Hnodup & Hbelow).
  apply dispatch_single_inv in Hsend as (point & _ & Hidxs & _ & Hstep2 & _).
  simpl in *.
  destruct (fresh_below_snoc ks (step_idx self) Hnodup Hbelow) as [Hnodup' Hbelow'].
  exists (ks ++ [step_idx self]). simpl. rewrite Hidxs, Hks, fmap_app, Hstep2, Hstep.
  done.
Qed.

(** The loop of [perform_initial_queries] over the initial queries. *)
Lemma initial_dispatch_loop (fuel : nat) (init_qinfos : list Namespace) self self' :
  for_each (λ self qinfo,
      let self := set_step_idx (step_idx self + 1) self in
      self ← _wait_for_a_free_worker env pol EVAL_ERROR_CODE fuel self;
      _dispatch_single_experiment_to_worker_manager env self qinfo)
    init_qinfos self = Ok self' →
  step_idx self' = step_idx self + Z.of_nat (length init_qinfos) ∧
  accounted self' = (accounted self + length init_qinfos)%nat ∧
  (in_progress_aligned self → in_progress_aligned self') ∧
  (idxs_fresh_below (step_idx self + 1) self →
   idxs_fresh_below (step_idx self' + 1) self').
Proof.
  revert self. induction init_qinfos as [|q qs IH]; intros self; simpl.
  - intros [= <-]. repeat split; try done; lia.
  - intros (s2 & (s1 & Hwait & Hsend)%bind_Ok & Hrest)%bind_Ok.
    unfold _wait_for_a_free_worker in Hwait.
    pose proof (wait_keeps_step_idx _ _ _ _ _ Hwait) as Hstep.
    pose proof (wait_keeps_accounted _ _ _ _ _ Hwait) as Hacc.
    pose proof (wait_keeps_aligned _ _ _ _ _ Hwait) as Haligned.
    pose proof (wait_keeps_fresh _ _ _ _ _ Hwait) as Hkeep.
    apply dispatch_single_inv in Hsend as (point & _ & Hidxs & Hpoints & Hstep2 & Hhist).
    destruct (IH _ Hrest) as (Hstep' & Hacc' & Haligned' & Hfresh').
    simpl in *. repeat split.
    + lia.
    + rewrite Hacc'. unfold accounted in *. simpl in *.
      rewrite Hidxs, Hhist, length_app. simpl. lia.
    + intros Hal. apply Haligned'. specialize (Haligned Hal).
      unfold in_progress_aligned in *. rewrite Hidxs, Hpoints, !length_app. simpl. lia.
    + intros Hfresh. apply Hfresh'.
      destruct (Hkeep (step_idx self + 1)) as (ks & Hks & Hnodup & Hbelow); [exact Hfresh |].
      destruct (fresh_below_snoc ks (step_idx self + 1) Hnodup Hbelow)
        as [Hnodup' Hbelow'].
      exists (ks ++ [step_idx self + 1]).
      rewrite Hidxs, Hks, fmap_app, Hstep2, Hstep. done.
Qed.

(** X18.  Without previous evaluations and with [num_init_evals <= 0],
    [perform_initial_queries] returns at once and changes nothing.  Without
    previous evaluations, a call of [perform_initial_queries] that returns
    has dispatched the initial queries it obtained (none when
    [num_init_evals <= 0]), one step index each: [step_idx] and the queries
    accounted for have grown by their number, the in-progress lists stay
    aligned, and in-progress indices that were distinct and at most
    [step_idx] are so afterwards. *)
Theorem perform_initial_queries_dispatches (fuel : nat) self :
  prev_evaluations (options self) = None →
  (num_init_evals (options self) ≤ 0 →
   perform_initial_queries env pol EVAL_ERROR_CODE fuel self = Ok self) ∧
  ∀ self',
  perform_initial_queries env pol EVAL_ERROR_CODE fuel self = Ok self' →
  ∃ init_qinfos : list Namespace,
    (if 0 <? num_init_evals (options self)
     then match get_initial_qinfos (options self) with
          | Some f => Ok (f (Z.max (num_workers self) (num_init_evals (options self))))
          | None => _get_initial_qinfos pol self
                      (Z.max (num_workers self) (num_init_evals (options self)))
          end = Ok init_qinfos
     else init_qinfos = [] ∧ self' = self) ∧
    step_idx self' = step_idx self + Z.of_nat (length init_qinfos) ∧
    accounted self' = (accounted self + length init_qinfos)%nat ∧
    (in_progress_aligned self → in_progress_aligned self') ∧
    (idxs_fresh_below (step_idx self + 1) self →
     idxs_fresh_below (step_idx self' + 1) self').
Proof.
  intros Hprev. unfold perform_initial_queries. rewrite Hprev. split.
  { intros Hnone. by rewrite (proj2 (Z.ltb_ge _ _) Hnone). }
  intros self'. destruct (0 <? num_init_evals (options self)).
  - intros (init_qinfos & Hinit & Hloop)%bind_Ok. exists init_qinfos.
    split; [done |]. by apply (initial_dispatch_loop fuel).
  - intros [= <-]. exists []. simpl. repeat split; try done; lia.
Qed.

(** X19.  With previous evaluations configured, [perform_initial_queries]
    dispatches nothing: it appends their points and values to the prior
    data, in order, and leaves step index, worker manager, in-progress lists
    and history as they were. *)
Theorem perform_initial_queries_prev_evals (fuel : nat) (qinfos : list Namespace)
    self self' :
  prev_evaluations (options self) = Some qinfos →
  perform_initial_queries env pol EVAL_ERROR_CODE fuel self = Ok self' →
  ∃ points vals,
    mapM (λ q : Namespace, q !! "point") qinfos = Some points ∧
    mapM (λ q : Namespace, q !! "val") qinfos = Some vals ∧
    prev_eval_points self' = prev_eval_points self ++ points ∧
    prev_eval_vals self' = prev_eval_vals self ++ vals ∧
    step_idx self' = step_idx self ∧
    worker_manager self' = worker_manager self ∧
    eval_idxs_in_progress self' = eval_idxs_in_progress self ∧
    eval_points_in_progress self' = eval_points_in_progress self ∧
    history self' = history self.
Proof.
  intros Hprev. unfold perform_initial_queries. rewrite Hprev.
  intros (s1 & Hloop & (c & _ & [= <-])%bind_Ok)%bind_Ok. simpl.
  clear Hprev. revert self Hloop.
  induction qinfos as [|q qs IH]; intros self; simpl.
  - intros [= <-]. exists [], []. rewrite !app_nil_r. done.
  - intros (s0 & (point & Hpoint%getattr_Ok & (val & Hval%getattr_Ok & [= <-])%bind_Ok
      )%bind_Ok & Hrest)%bind_Ok.
    destruct (IH _ Hrest) as (points & vals & Hpoints & Hvals & Hpp & Hpv & Hrest').
    simpl in *. exists (point :: points), (val :: vals).
    rewrite Hpoint, Hval, Hpoints, Hvals. simpl.
    rewrite Hpp, Hpv, <- !app_assoc. done.
Qed.

(** X20.  A drained result is recorded as it came, except in multi-fidelity
    mode when it has no [cost_at_fidel]: then [cost_at_fidel] is set to its
    [eval_time] first, and a result without [eval_time] fails with an
    attribute error.  The qinfo so completed is the one appended to the
    history. *)
Theorem wait_body_cost_at_fidel self (qinfo : Namespace) :
  (is_mf (experiment_caller self) = true → qinfo !! "cost_at_fidel" = None →
   qinfo !! "eval_time" = None →
   _wait_till_free_body pol EVAL_ERROR_CODE self qinfo = Raise AttributeError) ∧
  (∀ self' qinfo',
     _wait_till_free_body pol EVAL_ERROR_CODE self qinfo = Ok (self', qinfo') →
     query_qinfos (history self') = query_qinfos (history self) ++ [qinfo'] ∧
     (is_mf (experiment_caller self) = true → qinfo !! "cost_at_fidel" = None →
      ∃ eval_time, qinfo !! "eval_time" = Some eval_time ∧
                   qinfo' = <["cost_at_fidel" := eval_time]> qinfo) ∧
     (is_mf (experiment_caller self) = false ∨ is_Some (qinfo !! "cost_at_fidel") →
      qinfo' = qinfo)).
Proof.
  split.
  - intros Hmf Hcost Htime. unfold _wait_till_free_body, hasattr, getattr.
    rewrite Hmf, Hcost, Htime. done.
  - intros self' qinfo' Hbody.
    pose proof (wait_body_inv _ _ _ _ Hbody) as (s1 & Hrec & Hrem).
    apply update_history_inv in Hrec
      as (? & ? & ? & ? & _ & _ & _ & _ & _ & _ & Hqs & _).
    apply remove_inv in Hrem as (i & _ & _ & _ & Hhist & _).
    split; [by rewrite Hhist |].
    unfold _wait_till_free_body, hasattr in Hbody.
    apply bind_Ok in Hbody as (q & Hq & (s2 & _ & (s3 & _ & [= _ <-])%bind_Ok)%bind_Ok).
    split.
    + intros Hmf Hcost. rewrite Hmf, Hcost in Hq.
      change (bool_decide (is_Some (@None pyval))) with false in Hq. simpl in Hq.
      apply bind_Ok in Hq as (et & Het%getattr_Ok & [= <-]). by exists et.
    + intros [Hmf | Hcost].
      * rewrite Hmf in Hq. simpl in Hq. congruence.
      * rewrite bool_decide_true in Hq by done. rewrite andb_false_r in Hq. congruence.
Qed.

Lemma mapM_returns {A B} (f : A → result B) (l : list A) :
  (∀ x, returns (f x)) → returns (mapM f l).
Proof.
  intros Hf. induction l as [|x l [k IH]]; simpl; [by eexists |].
  destruct (Hf x) as [y ->]. simpl. rewrite IH. simpl. by eexists.
Qed.

Lemma get_curr_spent_capital_result self :
  returns (get_curr_spent_capital env self) ∨
  get_curr_spent_capital env self = Raise AttributeError.
Proof.
  unfold get_curr_spent_capital, attr.
  repeat (destruct (String.eqb _ _)); try (destruct (spent_capital self));
    try (destruct (init_cpu_time_stamp self));
    try (destruct (init_real_time_stamp self)); simpl;
    (by right) || (left; by eexists).
Qed.

(** X21.  Without a [func_caller] attribute (the core never sets one), the
    batch dispatch fails with an attribute error on every input, so no pass
    of the synchronous routine returns. *)
Theorem batch_dispatch_needs_func_caller :
  (∀ self qinfos,
     func_caller pol (child self) = None →
     _dispatch_batch_of_experiments_to_worker_manager env pol self qinfos
     = Raise AttributeError) ∧
  ((∀ c, func_caller pol c = None) →
   ∀ fuel self self',
     _synchronous_run_experiment_routine env pol EVAL_ERROR_CODE fuel self ≠ Ok self').
Proof.
  assert (∀ self qinfos,
            func_caller pol (child self) = None →
            _dispatch_batch_of_experiments_to_worker_manager env pol self qinfos
            = Raise AttributeError) as Hbatch.
  { intros self qinfos Hnone. unfold _dispatch_batch_of_experiments_to_worker_manager.
    rewrite Hnone. generalize (imap pair qinfos). intros l.
    match goal with |- context [mapM ?f l] => set (stamp := f) end.
    destruct (get_curr_spent_capital_result self) as [[t Ht] | Hraise].
    - destruct (mapM_returns stamp l) as [l' ->]; [| done].
      intros [idx q]. unfold stamp. rewrite Ht. by eexists.
    - destruct l as [|[idx q] l]; simpl; [done |].
      unfold stamp at 1. by rewrite Hraise. }
  split; [exact Hbatch |].
  intros Hnone fuel self self'. unfold _synchronous_run_experiment_routine.
  intros (s1 & _ & ([qs c] & _ & (s2 & Hsend & _)%bind_Ok)%bind_Ok)%bind_Ok.
  rewrite Hbatch in Hsend; [done | apply Hnone].
Qed.

Lemma mapM_imap_Ok {A B} (f : nat * A → result B) (g : nat → A → B) (h : nat → nat)
    (l : list A) :
  (∀ i x, f (i, x) = Ok (g i x)) →
  mapM f (imap (λ i x, (h i, x)) l) = Ok (imap (λ i x, g (h i) x) l).
Proof.
  intros Hf. revert h. induction l as [|x l IH]; intros h; simpl; [done |].
  rewrite Hf. simpl.
  change (mapM f (imap (λ i x0, ((h ∘ S) i, x0)) l)
          ≫= (λ k, mret (g (h 0%nat) x :: k))
          = Ok (g (h 0%nat) x :: imap (λ i x0, g ((h ∘ S) i) x0) l)).
  rewrite (IH (h ∘ S)). done.
Qed.

Lemma imap_step_idxs (v : nat → pyval) (u : Namespace → Namespace) (l : list Namespace) :
  mapM (λ q : Namespace, q !! "step_idx") (imap (λ i q, <["step_idx" := v i]> (u q)) l)
  = Some (imap (λ i _, v i) l).
Proof.
  apply mapM_Some. revert v. induction l as [|x l IH]; intros v; simpl; constructor.
  - apply lookup_insert_eq.
  - apply (IH (v ∘ S)).
Qed.

Lemma imap_points (v : nat → pyval) (t : pyval) (l : list Namespace) (points : list pyval) :
  mapM (λ q : Namespace, q !! "point") l = Some points →
  mapM (λ q : Namespace, q !! "point")
    (imap (λ i q, <["step_idx" := v i]> (<["send_time" := t]> q)) l) = Some points.
Proof.
  rewrite !mapM_Some. intros H. revert v.
  induction H as [|q pt l points Hq _ IH]; intros v; simpl; constructor.
  - rewrite !lookup_insert_ne by done. done.
  - apply (IH (v ∘ S)).
Qed.

(** X22.  In the [return_value] mode, with a [func_caller] attribute and
    the spent capital set, the batch dispatch stamps the queries of the
    batch with consecutive step indices starting at [step_idx], all with the
    spent capital as [send_time], hands them to the worker manager in one
    call and appends their indices and points to the in-progress lists, in
    order. *)
Theorem batch_dispatch_stamps self (qinfos : list Namespace) (send_time : pyval)
    (caller : ExperimentCaller) (points : list pyval) :
  func_caller pol (child self) = Some caller →
  capital_type (options self) = "return_value" →
  spent_capital self = Some send_time →
  mapM (λ q : Namespace, q !! "point") qinfos = Some points →
  ∃ self',
    _dispatch_batch_of_experiments_to_worker_manager env pol self qinfos = Ok self' ∧
    worker_manager self' =
      dispatch_batch_of_experiments env caller
        (imap (λ i q, <["step_idx" := PyInt (step_idx self + Z.of_nat i)]>
                        (<["send_time" := send_time]> q)) qinfos)
        (worker_manager self) ∧
    eval_idxs_in_progress self' =
      eval_idxs_in_progress self ++
      imap (λ i _, PyInt (step_idx self + Z.of_nat i)) qinfos ∧
    eval_points_in_progress self' = eval_points_in_progress self ++ points ∧
    step_idx self' = step_idx self ∧ history self' = history self.
Proof.
  intros Hcaller Hmode Hcapital Hpoints.
  assert (get_curr_spent_capital env self = Ok send_time) as Hspent.
  { unfold get_curr_spent_capital. by rewrite Hmode, Hcapital. }
  unfold _dispatch_batch_of_experiments_to_worker_manager.
  rewrite (mapM_imap_Ok _
             (λ i q, <["step_idx" := PyInt (step_idx self + Z.of_nat i)]>
                       (<["send_time" := send_time]> q)) id qinfos).
  2: { intros i q. rewrite Hspent. done. }
  simpl. rewrite Hcaller. simpl.
  match goal with
  | |- context [_add_to_in_progress ?s ?qs] =>
      rewrite (add_to_in_progress_Ok s qs
                 (imap (λ i _, PyInt (step_idx self + Z.of_nat i)) qinfos) points)
  end.
  - eexists. split; [done |]. done.
  - apply (imap_step_idxs (λ i, PyInt (step_idx self + Z.of_nat i))
             (λ q, <["send_time" := send_time]> q)).
  - by apply imap_points.
Qed.

End Loop.

(** * Further runs on the synthetic worker pool *)

Lemma sim_designer_synced :
  let self := Sim.reached (Sim.designer "return_value" 2 [PyInt 0; PyInt 1]) in
  columns_distinct self ∧ columns_synced self ∧
  base_table ⊆ to_copy_from_qinfo_to_history self.
Proof.
  intros self.
  assert (to_copy_from_qinfo_to_history self = base_table) as Htab
    by (vm_compute; reflexivity).
  assert (columns (history self) = base_columns) as Hcols by (vm_compute; reflexivity).
  assert (query_qinfos (history self) = []) as Hqs by (vm_compute; reflexivity).
  unfold columns_distinct, columns_synced. rewrite Htab, Hcols, Hqs.
  split; [compute_done |]. split; [| done].
  intros name hname Hreg. exists []. split; [done |].
  exact (base_table_columns name hname Hreg).
Qed.

Lemma update_history_jobs_witness :
  let self := Sim.reached (Sim.designer "return_value" 2 [PyInt 0; PyInt 1]) in
  let qinfos := [Sim.completed (PyInt 0) (PyFloat 0.5);
                 Sim.completed (PyInt 1) (PyFloat 0.25)] in
  let self' :=
    Sim.reached
      (for_each (_update_history (Sim.policy false) Sim.EVAL_ERROR_CODE) qinfos self) in
  jobs_total (history self') = (jobs_total (history self) + length qinfos)%nat.
Proof.
  intros self qinfos self'.
  destruct (proj2 (update_history_jobs (Sim.policy false) Sim.EVAL_ERROR_CODE self)
              qinfos self') as [H _].
  - vm_compute. reflexivity.
  - exact H.
Defined.

Lemma history_columns_follow_records_witness :
  let self := Sim.reached (Sim.designer "return_value" 2 [PyInt 0; PyInt 1]) in
  let qinfos := [Sim.completed (PyInt 0) (PyFloat 0.5);
                 Sim.completed (PyInt 1) (PyFloat 0.25)] in
  let self' :=
    Sim.reached
      (for_each (_update_history (Sim.policy false) Sim.EVAL_ERROR_CODE) qinfos self) in
  columns_distinct self' ∧ columns_synced self' ∧
  query_qinfos (history self') = query_qinfos (history self) ++ qinfos.
Proof.
  intros self qinfos self'.
  apply (history_columns_follow_records (Sim.policy false) Sim.EVAL_ERROR_CODE
           self qinfos self').
  - apply sim_designer_synced.
  - apply sim_designer_synced.
  - vm_compute. reflexivity.
Defined.

(** A designer that took over two previous evaluations and then recorded
    two results. *)
Lemma get_past_data_order_witness :
  let prev := [Sim.completed (PyInt 0) (PyFloat 0.75);
               Sim.completed (PyInt 1) Sim.EVAL_ERROR_CODE] in
  let qinfos := [Sim.completed (PyInt 0) (PyFloat 0.5);
                 Sim.completed (PyInt 1) (PyFloat 0.25)] in
  let self :=
    Sim.reached
      (self ← Sim.designer_with (Sim.opts_with_prev prev) [PyInt 0; PyInt 1];
       self ← perform_initial_queries Sim.env (Sim.policy false) Sim.EVAL_ERROR_CODE 1 self;
       for_each (_update_history (Sim.policy false) Sim.EVAL_ERROR_CODE) qinfos self) in
  prev_eval_vals self = [PyFloat 0.75; Sim.EVAL_ERROR_CODE] ∧
  query_qinfos (history self) = qinfos ∧
  ∃ points vals,
    mapM (λ q : Namespace, q !! "point") (query_qinfos (history self)) = Some points ∧
    mapM (λ q : Namespace, q !! "val") (query_qinfos (history self)) = Some vals ∧
    get_past_data self =
      Ok (prev_eval_points self ++ points, prev_eval_vals self ++ vals).
Proof.
  intros prev qinfos self.
  assert (to_copy_from_qinfo_to_history self = base_table) as Htab
    by (vm_compute; reflexivity).
  split; [vm_compute; reflexivity |]. split; [vm_compute; reflexivity |].
  apply (get_past_data_order self).
  - by rewrite Htab.
  - unfold columns_synced. rewrite Htab. intros name hname Hreg.
    apply elem_of_map_to_list in Hreg.
    let l := eval vm_compute in (map_to_list base_table) in
    assert (map_to_list base_table = l) as Hlist by (vm_compute; reflexivity).
    rewrite Hlist in Hreg.
    repeat (apply elem_of_cons in Hreg as [[= -> ->]|Hreg];
            [eexists; split; vm_compute; reflexivity |]).
    inversion Hreg.
Defined.

(** After two records the past data are the two points and the two values. *)
Lemma get_past_data_after_two_records :
  (self ← Sim.designer "return_value" 2 [PyInt 0; PyInt 1];
   self ← for_each (_update_history (Sim.policy false) Sim.EVAL_ERROR_CODE)
            [Sim.completed (PyInt 0) (PyFloat 0.5);
             Sim.completed (PyInt 1) (PyFloat 0.25)] self;
   get_past_data self)
  = Ok ([PyFloat 0.5; PyFloat 0.5], [PyFloat 0.5; PyFloat 0.25]).
Proof. vm_compute. reflexivity. Qed.

Lemma set_up_initial_state_witness :
  let self := Sim.reached (Sim.designer "return_value" 2 [PyInt 0; PyInt 1]) in
  step_idx self = 0 ∧ num_succ_queries self = 0 ∧
  eval_idxs_in_progress self = [] ∧ eval_points_in_progress self = [] ∧
  query_qinfos (history self) = [].
Proof.
  intros self.
  destruct (set_up_initial_state Sim.env (Sim.policy false) (Sim.caller false)
              (Sim.start [PyInt 0; PyInt 1]) (Sim.opts "return_value" 2) [] () self)
    as (H1 & H2 & H3 & H4 & H5 & _).
  - vm_compute. reflexivity.
  - repeat split; assumption.
Defined.

Lemma set_up_full_policy_name_witness :
  let self := Sim.reached (Sim.designer "return_value" 2 [PyInt 0; PyInt 1]) in
  String.prefix "asy-" (full_policy_name self) =
  String.prefix "asy" (lower (mode (Sim.opts "return_value" 2))).
Proof.
  intros self.
  destruct (set_up_full_policy_name Sim.env (Sim.policy false) (Sim.caller false)
              (Sim.start [PyInt 0; PyInt 1]) (Sim.opts "return_value" 2) [] () self)
    as (ps & prs & _ & _ & _ & _ & H).
  - vm_compute. reflexivity.
  - exact H.
Defined.

Lemma add_then_remove_restores_witness :
  let self := Sim.reached (Sim.initialised "return_value" 2 [PyInt 0; PyInt 1] 10) in
  let qinfo : Namespace := <["step_idx" := PyInt 7]> Sim.query in
  ∃ self1,
    _add_to_in_progress self [qinfo] = Ok self1 ∧
    _remove_from_in_progress self1 qinfo = Ok self.
Proof.
  intros self qinfo.
  destruct (add_then_remove_restores self qinfo 7 (PyFloat 0.5))
    as (self1 & H1 & _ & _ & H2).
  - vm_compute. reflexivity.
  - vm_compute. reflexivity.
  - vm_compute. reflexivity.
  - vm_compute. reflexivity.
  - exists self1. split; assumption.
Defined.

Lemma remove_keeps_pairing_witness :
  let self := Sim.reached Sim.first_async_pass in
  let qinfo : Namespace := {["step_idx" := PyInt 2]} in
  let self' := Sim.reached (_remove_from_in_progress self qinfo) in
  S (length (eval_idxs_in_progress self')) = length (eval_idxs_in_progress self).
Proof.
  intros self qinfo self'.
  destruct (remove_keeps_pairing self qinfo self') as (i & step & _ & _ & _ & H & _).
  - vm_compute. reflexivity.
  - vm_compute. reflexivity.
  - exact H.
Defined.


Lemma dispatch_single_stamps_witness :
  let self := Sim.reached (Sim.initialised "return_value" 2 [PyInt 0; PyInt 1] 10) in
  ∃ self',
    _dispatch_single_experiment_to_worker_manager Sim.env self Sim.query = Ok self' ∧
    eval_idxs_in_progress self' =
      eval_idxs_in_progress self ++ [PyInt (step_idx self)].
Proof.
  intros self.
  destruct (proj2 (dispatch_single_stamps Sim.env self Sim.query (PyFloat 0)
                     ltac:(vm_compute; reflexivity)) (PyFloat 0.5))
    as (self' & H1 & _ & H2 & _).
  - vm_compute. reflexivity.
  - exists self'. split; assumption.
Defined.

Lemma wait_till_free_keeps_witness :
  let self := Sim.reached (Sim.initialised "return_value" 2 [PyInt 0; PyInt 1] 10) in
  let self' :=
    Sim.reached
      (_wait_for_all_free_workers Sim.env (Sim.policy false) Sim.EVAL_ERROR_CODE 5 self) in
  step_idx self' = step_idx self ∧ accounted self' = accounted self.
Proof.
  intros self self'.
  destruct (wait_till_free_keeps Sim.env (Sim.policy false) Sim.EVAL_ERROR_CODE 5
              (all_workers_are_free Sim.env)
              (get_poll_time_real Sim.env (worker_manager self)) self self')
    as (H1 & H2 & _).
  - vm_compute. reflexivity.
  - split; assumption.
Defined.

(** Waiting for all workers drains both initial queries. *)
Lemma wait_for_all_drains :
  let self := Sim.reached (Sim.initialised "return_value" 2 [PyInt 0; PyInt 1] 10) in
  let self' :=
    Sim.reached
      (_wait_for_all_free_workers Sim.env (Sim.policy false) Sim.EVAL_ERROR_CODE 5 self) in
  eval_idxs_in_progress self' = [] ∧ length (query_qinfos (history self')) = 2%nat ∧
  num_succ_queries self' = 2.
Proof. vm_compute. done. Qed.

Lemma asynchronous_routine_step_witness :
  let self := Sim.reached (Sim.initialised "return_value" 2 [PyInt 0; PyInt 1] 10) in
  let self' := Sim.reached Sim.first_async_pass in
  step_idx self' = step_idx self + 1 ∧
  last (eval_idxs_in_progress self') = Some (PyInt (step_idx self)) ∧
  accounted self' = S (accounted self) ∧
  (in_progress_aligned self → in_progress_aligned self').
Proof.
  intros self self'.
  apply (asynchronous_routine_step Sim.env (Sim.policy false) Sim.EVAL_ERROR_CODE 1
           self self').
  vm_compute. reflexivity.
Defined.

(** A second pass, started with query 0 in progress. *)
Lemma asynchronous_routine_fresh_witness :
  let self :=
    Sim.reached
      (self ← Sim.initialised "return_value" 0 [PyInt 0; PyInt 1] 10;
       _asynchronous_run_experiment_routine Sim.env (Sim.policy false)
         Sim.EVAL_ERROR_CODE 1 self) in
  let self' :=
    Sim.reached
      (_asynchronous_run_experiment_routine Sim.env (Sim.policy false)
         Sim.EVAL_ERROR_CODE 1 self) in
  eval_idxs_in_progress self = [PyInt 0] ∧
  eval_idxs_in_progress self' = [PyInt 0; PyInt 1] ∧
  idxs_fresh_below (step_idx self') self'.
Proof.
  intros self self'.
  split; [vm_compute; reflexivity |]. split; [vm_compute; reflexivity |].
  apply (asynchronous_routine_fresh Sim.env (Sim.policy false) Sim.EVAL_ERROR_CODE 1
           self self').
  - exists [0]. split; [vm_compute; reflexivity |].
    split; [apply NoDup_singleton |]. constructor; [| constructor].
    vm_compute. reflexivity.
  - vm_compute. reflexivity.
Defined.

Lemma perform_initial_queries_dispatches_witness :
  let self :=
    initialise_capital Sim.env
      (add_capital 10
         (Sim.reached (Sim.designer "return_value" 2 [PyInt 0; PyInt 1]))) in
  let self' :=
    Sim.reached
      (perform_initial_queries Sim.env (Sim.policy false) Sim.EVAL_ERROR_CODE 1 self) in
  ∃ init_qinfos : list Namespace,
    step_idx self' = step_idx self + Z.of_nat (length init_qinfos) ∧
    accounted self' = (accounted self + length init_qinfos)%nat.
Proof.
  intros self self'.
  destruct (perform_initial_queries_dispatches Sim.env (Sim.policy false)
              Sim.EVAL_ERROR_CODE 1 self) as [_ Hcall].
  - vm_compute. reflexivity.
  - destruct (Hcall self') as (init_qinfos & _ & H1 & H2 & _).
    + vm_compute. reflexivity.
    + exists init_qinfos. split; assumption.
Defined.

Lemma perform_initial_queries_prev_evals_witness :
  let qinfos := [Sim.completed (PyInt 0) (PyFloat 0.5);
                 Sim.completed (PyInt 1) (PyFloat 0.25)] in
  let self := Sim.reached (Sim.designer_with (Sim.opts_with_prev qinfos) [PyInt 0]) in
  let self' :=
    Sim.reached
      (perform_initial_queries Sim.env (Sim.policy false) Sim.EVAL_ERROR_CODE 1 self) in
  ∃ points vals,
    prev_eval_points self' = prev_eval_points self ++ points ∧
    prev_eval_vals self' = prev_eval_vals self ++ vals ∧
    step_idx self' = step_idx self ∧
    worker_manager self' = worker_manager self.
Proof.
  intros qinfos self self'.
  destruct (perform_initial_queries_prev_evals Sim.env (Sim.policy false)
              Sim.EVAL_ERROR_CODE 1 qinfos self self')
    as (points & vals & _ & _ & H1 & H2 & H3 & H4 & _).
  - vm_compute. reflexivity.
  - vm_compute. reflexivity.
  - exists points, vals. repeat split; assumption.
Defined.

Lemma wait_body_cost_at_fidel_witness :
  let self := Sim.reached Sim.mf_designer in
  let r :=
    Sim.got (Sim.blank, ∅)
      (_wait_till_free_body (Sim.policy false) Sim.EVAL_ERROR_CODE self Sim.mf_result) in
  ∃ eval_time,
    Sim.mf_result !! "eval_time" = Some eval_time ∧
    r.2 = <["cost_at_fidel" := eval_time]> Sim.mf_result.
Proof.
  intros self r.
  destruct (proj2 (wait_body_cost_at_fidel (Sim.policy false) Sim.EVAL_ERROR_CODE
                     self Sim.mf_result) r.1 r.2) as (_ & H & _).
  - vm_compute. reflexivity.
  - apply H; vm_compute; reflexivity.
Defined.

Lemma batch_dispatch_needs_func_caller_witness :
  let self := Sim.reached (Sim.initialised "return_value" 2 [PyInt 0; PyInt 1] 10) in
  _dispatch_batch_of_experiments_to_worker_manager Sim.env (Sim.policy false) self
    [Sim.query; Sim.query] = Raise AttributeError.
Proof.
  intros self.
  apply (proj1 (batch_dispatch_needs_func_caller Sim.env (Sim.policy false)
                  Sim.EVAL_ERROR_CODE)).
  vm_compute. reflexivity.
Defined.

Lemma batch_dispatch_stamps_witness :
  let self := Sim.reached (Sim.initialised "return_value" 0 [PyInt 0; PyInt 1] 10) in
  ∃ self',
    _dispatch_batch_of_experiments_to_worker_manager Sim.env Sim.sync_policy self
      [Sim.query; Sim.query] = Ok self' ∧
    eval_idxs_in_progress self' =
      eval_idxs_in_progress self ++
      imap (λ i _, PyInt (step_idx self + Z.of_nat i)) [Sim.query; Sim.query].
Proof.
  intros self.
  destruct (batch_dispatch_stamps Sim.env Sim.sync_policy self [Sim.query; Sim.query]
              (PyFloat 0) (Sim.caller false) [PyFloat 0.5; PyFloat 0.5])
    as (self' & H1 & _ & H2 & _).
  - vm_compute. reflexivity.
  - vm_compute. reflexivity.
  - vm_compute. reflexivity.
  - vm_compute. reflexivity.
  - exists self'. split; assumption.
Defined.

(** A synchronous batch of two gets the step indices 0 and 1. *)
Lemma batch_of_two_step_idxs :
  let self := Sim.reached (Sim.initialised "return_value" 0 [PyInt 0; PyInt 1] 10) in
  eval_idxs_in_progress <$>
    _synchronous_run_experiment_routine Sim.env Sim.sync_policy Sim.EVAL_ERROR_CODE 1 self
  = Ok [PyInt 0; PyInt 1].
Proof. vm_compute. done. Qed.

(** * Initialisation as a whole *)

Section Initialise.
Context {W C : Type} (env : Environment W) (pol : Policy W C).
Context (EVAL_ERROR_CODE : pyval).
Implicit Type self : Designer W C.

Lemma initialise_capital_frame self :
  options (initialise_capital env self) = options self ∧
  eval_idxs_in_progress (initialise_capital env self) = eval_idxs_in_progress self ∧
  eval_points_in_progress (initialise_capital env self) = eval_points_in_progress self ∧
  step_idx (initialise_capital env self) = step_idx self ∧
  history (initialise_capital env self) = history self.
Proof. unfold initialise_capital. by repeat (destruct (String.eqb _ _)). Qed.

(** X23.  Started with nothing in progress and no previous evaluations: when
    [num_init_evals <= 0] and the two child hooks return,
    [run_experiment_initialise] returns; and a call of
    [run_experiment_initialise] that returns leaves the in-progress lists
    aligned and their step indices distinct integers, none above
    [step_idx], with every step index it used up accounted for by a query in
    progress or recorded. *)
Theorem run_experiment_initialise_fresh (fuel : nat) self :
  prev_evaluations (options self) = None →
  eval_idxs_in_progress self = [] →
  eval_points_in_progress self = [] →
  (num_init_evals (options self) ≤ 0 →
   (∀ d, returns (_problem_run_experiments_initialise pol d)) →
   (∀ d, returns (_policy_run_experiments_initialise pol d)) →
   returns (run_experiment_initialise env pol EVAL_ERROR_CODE fuel self)) ∧
  ∀ self',
  run_experiment_initialise env pol EVAL_ERROR_CODE fuel self = Ok self' →
  in_progress_aligned self' ∧
  idxs_fresh_below (step_idx self' + 1) self' ∧
  step_idx self ≤ step_idx self' ∧
  Z.of_nat (accounted self') - Z.of_nat (accounted self) = step_idx self' - step_idx self.
Proof.
  intros Hprev Hidxs Hpoints. unfold run_experiment_initialise.
  destruct (initialise_capital_frame self) as (Hopts & Hidxs0 & Hpoints0 & Hstep0 & Hhist0).
  split.
  { intros Hnone Hproblem Hpolicy. unfold perform_initial_queries.
    rewrite Hopts, Hprev, (proj2 (Z.ltb_ge _ _) Hnone). simpl.
    destruct (Hproblem (initialise_capital env self)) as [c1 ->]. simpl.
    destruct (Hpolicy (set_child c1 (initialise_capital env self))) as [c2 ->].
    by eexists. }
  intros self' (s1 & Hinit & (c1 & _ & (c2 & _ & [= <-])%bind_Ok)%bind_Ok)%bind_Ok.
  assert (in_progress_aligned (initialise_capital env self)) as Hal.
  { unfold in_progress_aligned. by rewrite Hidxs0, Hpoints0, Hidxs, Hpoints. }
  assert (idxs_fresh_below (step_idx (initialise_capital env self) + 1)
            (initialise_capital env self)) as Hfresh.
  { exists []. rewrite Hidxs0, Hidxs. split; [done |]. split; constructor. }
  assert (accounted (initialise_capital env self) = accounted self) as Hacc.
  { unfold accounted. by rewrite Hidxs0, Hhist0. }
  unfold perform_initial_queries in Hinit. rewrite Hopts, Hprev in Hinit.
  assert (in_progress_aligned s1 ∧ idxs_fresh_below (step_idx s1 + 1) s1 ∧
          step_idx self ≤ step_idx s1 ∧
          Z.of_nat (accounted s1) - Z.of_nat (accounted self) =
            step_idx s1 - step_idx self) as (H1 & H2 & H3 & H4).
  { destruct (0 <? num_init_evals (options self)).
    - apply bind_Ok in Hinit as (init_qinfos & _ & Hloop).
      apply initial_dispatch_loop in Hloop as (Hs & Ha & Hkeep & Hkeepf).
      repeat split; [by apply Hkeep | by apply Hkeepf | lia | lia].
    - injection Hinit as <-. repeat split; [done | done | lia | lia]. }
  simpl. done.
Qed.

End Initialise.

Lemma run_experiment_initialise_fresh_witness :
  let self := add_capital 10 (Sim.reached (Sim.designer "return_value" 2 [PyInt 0; PyInt 1])) in
  let self' := Sim.reached (Sim.initialised "return_value" 2 [PyInt 0; PyInt 1] 10) in
  in_progress_aligned self' ∧
  idxs_fresh_below (step_idx self' + 1) self' ∧
  step_idx self ≤ step_idx self' ∧
  Z.of_nat (accounted self') - Z.of_nat (accounted self) = step_idx self' - step_idx self.
Proof.
  intros self self'.
  apply (proj2 (run_experiment_initialise_fresh Sim.env (Sim.policy false)
                  Sim.EVAL_ERROR_CODE 1 self
                  ltac:(vm_compute; reflexivity) ltac:(vm_compute; reflexivity)
                  ltac:(vm_compute; reflexivity))).
  vm_compute. reflexivity.
Defined.

